(* ===== verification/_CoqProject ===== *)
-Q . S2P
Prelude.v
Py.v
Store.v
Quiz.v
Search.v
Pagination.v
Handlers.v
App.v
Schema.v
Cors.v
Server.v
Scenarios.v
Session.v
TestSuite.v
