(* ===== verification/Prelude.v ===== *)
(** * A verification development of the Trivia API backend

    The program, src/backend/flaskr/__init__.py, is a Flask application
    over a relational store of [Question] and [Category] rows.  [create_app]
    installs two response hooks (CORS and [after_request]), registers
    seven views and five error handlers.  Each view reads the request,
    queries or writes the store through SQLAlchemy, and answers with
    [jsonify] or raises through [abort].  The quiz view holds the one
    algorithm: a rejection-sampling loop over random indices.  The client
    plays a quiz by sending, with each request, the ids it was served.
    The test module, src/backend/test_flaskr.py, runs fourteen method
    definitions through Flask's test client against one shared database.

    ** Files, in dependency order (_CoqProject)

    - [Prelude] (this file): the [trivia] hint database and the [trivia_rw]
      rewrite database, the tactics [inv] and [break_match], the list
      lemmas the components share, and finite runs ([star]) of a
      transition relation.
    - [Py]: the Python the views rely on.  JSON values as Python values
      ([pyval]), the exceptions ([exn]), a result monad ([result], with
      [x <- c ;; k] in [trivia_scope]), [try/except] with a bare [except]
      ([try_except]), [abort], [dict.get], [d[k]], [==] against an int,
      truthiness, [len], iteration, [l[i]] and [l[a:b]] after CPython,
      and [random.randrange], fed by the generator's draw.
    - [Store]: the data store.  [models.py] is not under src/, so the rows,
      [Question.format()] and the column bindings are modelled from the
      spec.  The queries the views write inline are modelled from the
      source: [order_by_id] is a merge sort (Stdlib [Mergesort]),
      [filter_category], [find_by_id] ([one_or_none]), and the mutations
      [insert] (which takes the id sequence's next value) and [delete].
      The store is well formed ([db_wf]) when its ids are distinct and below
      the sequence.
    - [Quiz]: the selector of [question_generator] (lines 258-291).  It has
      [check_in_previous], [choose_random_question], and the [while] loop
      ([quiz_loop]) as a function of the draws it consumes.  [quiz_select]
      adds the first draw.  Module [QuizSpec] holds the contract and the
      design notes' filter-then-pick selector.
    - [Search]: [str] of the search term and PostgreSQL [ILIKE]
      ([like_match]), as [question_search] uses them (line 179).
    - [Pagination]: [paginate_questions] (lines 9-20).
    - [Handlers]: responses, the error handlers with Flask's dispatch of an
      escaped exception ([handle_exception], [respond]), the categories
      dict, and Module [Routes] with one definition per view.  Views that
      write the store return the store after the request.
    - [App]: the URL map of the [@app.route] decorators ([match_path],
      [allowed_methods], the [<int:...>] converter) and [dispatch], which
      answers one request: 404, 405, or the view.
    - [Schema]: the spec's response shapes as JSON types ([jtype]), the
      typing relation [has_type] and its decision procedure [typeb].
    - [Cors]: responses with headers ([served]), the two hooks of
      [create_app] (lines 29-38) in Flask's order ([finalize]), the
      application with its headers ([serve]) and the automatic [OPTIONS]
      answer ([preflight]).
    - [Server]: runs of requests against the shared store: the step
      relation [app_step] (one request answered by [serve]), [run] for a
      list of requests, and what one request can do to the store
      ([store_effect]).
    - [Scenarios]: sequences of requests answered by [dispatch], with any
      run of [app_step] in between: what the docstrings above the views
      (lines 96-99, 128-130, 197-199) promise a user of the front end.
    - [Session]: the quiz client, modelled from the spec's glossary
      ([quiz_request], [served_id], [quiz_session]), on top of the handler.
    - [TestSuite]: the unittest module.  Each test method is a
      [test_case]: its request and its assertions on the answer and the
      store.  The class body is a dict ([define_test], [class_dict]): the
      second [test_405_if_question_creation_not_allowed] replaces the
      first.  The loader sorts the [test*] names ([suite]), and
      [run_suite] runs them in that order through [serve], threading the
      store, since [tearDown] does nothing.

    ** Randomness and fuel

    [random.randrange(0, n, 1)] takes a draw [r : nat] of the generator and
    returns [r mod n].  Every index below [n] is some draw's image
    ([randrange_onto]), so quantifying over lists of draws covers every
    behaviour of the generator.  The loop consumes one draw per iteration.
    When the draws run out first, the model answers [NeedMoreDraws], and
    the quiz view answers [None].  The termination theorems name the draws
    that suffice: two (C2), up to the first unserved draw (C8), and one list
    per request of a whole session (C9).  The divergence theorems (C3,
    C10) show that no list of draws ends the loop.  The step relation
    of the server needs no fuel.  The test suite runs every test on the
    same draws; only the quiz test reads them, and it is [Pending] when
    they run out.

    ** Theorems, by group (claim ids C1-C36)

    - Quiz (C1-C8).  A served question is selected and unserved.  Two
      draws end the quiz when the previous list has the pool's length and
      covers it.  The loop diverges when the list covers the pool with
      another length (a duplicate or a foreign id).  "Quiz complete" is a
      length test and comes too early with duplicates.  An empty pool
      raises [ValueError].  For well-formed previous lists the selector
      refines [QuizSpec] and gives exactly the design notes' answers; an
      unserved draw ends the loop while the lengths differ.
    - Session (C9, C10): a quiz session never serves a question twice nor
      one outside its pool, and for some draws it serves the whole pool and
      then ends; but a delete during the session can leave its last request
      spinning forever.
    - Server runs (C11, C12), by induction on runs: every reachable store
      is well formed; rows are never altered and ids never reused.
    - Scenarios (C13-C16), request sequences: a created question ends the
      last page of the list (and the page after it is a 404); a deletion
      persists through any later requests (lookup empty, a second DELETE
      422, never listed again); a category's listing holds only its
      questions, in table order; paging through the list shows every
      question once, in ascending id order.
    - Pagination (C17-C20): at most ten items per page, the exact slice for
      pages from 1, non-empty windows for negative pages, and the pages
      partitioning the list.
    - Store (C21): [insert] keeps [db_wf].
    - Search (C22): the term is not escaped, so [_] matches every
      question.
    - Views (C23-C30): DELETE and search answer 422 where the spec says
      404.  The functional results of create, search (a wildcard-free
      term is a case-insensitive substring test) and the quiz.  A failed
      creation leaves the store unchanged.  The quiz answers 400 on a
      missing field, and serves questions of the requested category.  404
      beyond the last page.
    - Application (C31, C32): every answer is a success or the JSON error
      envelope of a registered code, and has the JSON type the spec gives
      its route.
    - Headers (C33, C34): no route's answer allows any origin, and the
      preflight answer never allows [POST].
    - Test suite (C35, C36).  On every database holding the rows the tests
      assume ([fixture]: question 47, a question matching "cassius clay",
      categories, a category 3 pool, ...), one run passes every test (the
      quiz test once its loop answers), and some draws make all of them
      pass.  A second run on the database the first left fails
      [test_delete_question].  The test written for the 405 handler is
      shadowed by a second def of the same name ([suite_skips_405]
      computes it on the class body; a finding reports it).

    ** Not modelled

    - [setup_db(app)] (line 26) and the database connection: [setup_db]
      lives in models.py, outside src/, and only binds the SQLAlchemy
      session to a PostgreSQL URL; the store it reaches is the explicit
      state [db] every view takes and returns.  [Flask(__name__)] and the
      unused [test_config] parameter carry no behaviour.
    - The module docstrings and TODO notes: they are not code; the
      promises they make are the Scenarios theorems, and the 422 note
      above [delete_question] is a finding.
    - Flask's automatic HEAD, and the headers [jsonify] sets.
    - JSON floats.
    - Unicode digits in URL segments and non-ASCII case folding.
    - How the store coerces ints into text columns or numeric strings into
      int columns.  Both are refused here.
    - Concurrent requests: the spec makes no promise beyond the store's own
      consistency, and the server is modelled as answering one request
      after another.
    - The connection set-up of the tests' [setUp] ([setup_db],
      [create_all]): the tests are run against the modelled store.

    ** Further work

    - The quiz test's pass probability over random draws, and the
      probability that the loop ends within k draws.
    - Sessions as sequences of [app_step] interleaved with other clients'
      creates (a create during a session leaves it correct).
    - The [jsonify] serialisation of int keys with sorted keys.
    - [Countable]/[EqDecision] instances for the rows, to state the
      categories dict as an stdpp [gmap]. *)

From Stdlib Require Import List Arith Lia ZArith Bool.
Import ListNotations.

Declare Scope trivia_scope.
Delimit Scope trivia_scope with trivia.

Create HintDb trivia discriminated.
Create Rewrite HintDb trivia_rw.

(** ** Tactics *)

(** Invert a hypothesis and clean up the equations it produces. *)
Ltac inv H := inversion H; subst; clear H.

(** Case on the first [if] or [match] scrutinee of the goal, keeping the
    equation. *)
Ltac break_match :=
  match goal with
  | |- context [match ?x with _ => _ end] =>
      let E := fresh "E" in destruct x eqn:E
  end.

Ltac break_match_in H :=
  match type of H with
  | context [match ?x with _ => _ end] =>
      let E := fresh "E" in destruct x eqn:E
  end.

(** ** Shared list lemmas *)

Section ListFacts.
Context {A : Type}.

Lemma length_firstn_le (n : nat) (l : list A) : length (firstn n l) <= n.
Proof. rewrite length_firstn. lia. Qed.

Lemma firstn_skipn_nil_iff (n k : nat) (l : list A) :
  0 < k -> (firstn k (skipn n l) = [] <-> length l <= n).
Proof.
  intros Hk. split.
  - intros H. apply (f_equal (@length A)) in H.
    rewrite length_firstn, length_skipn in H. simpl in H. lia.
  - intros H. rewrite skipn_all2 by lia. apply firstn_nil.
Qed.

Lemma firstn_add_split (a b : nat) (l : list A) :
  firstn (a + b) l = firstn a l ++ firstn b (skipn a l).
Proof.
  revert l. induction a as [|a IH]; intros l; [reflexivity|].
  destruct l as [|x l]; simpl; [now rewrite firstn_nil|]. now rewrite IH.
Qed.

Lemma existsb_exists_In (f : A -> bool) (l : list A) :
  existsb f l = false <-> (forall x, In x l -> f x = false).
Proof.
  rewrite <- Bool.not_true_iff_false, existsb_exists. split.
  - intros H x Hx. apply Bool.not_true_iff_false. intros Hf. apply H. eauto.
  - intros H [x [Hx Hf]]. rewrite H in Hf by exact Hx. discriminate.
Qed.

Lemma filter_nil_iff (f : A -> bool) (l : list A) :
  filter f l = [] <-> (forall x, In x l -> f x = false).
Proof.
  induction l as [|x l IH]; simpl; [tauto|]. split.
  - destruct (f x) eqn:E; [discriminate|]. intros H y [<-|Hy]; [exact E|].
    now apply IH.
  - intros H. rewrite (H x (or_introl eq_refl)). apply IH. auto.
Qed.

(** [fold_left] that only ever sets a flag computes [existsb]. *)
Lemma fold_left_flag (f : A -> bool) (l : list A) (b : bool) :
  fold_left (fun acc x => if f x then true else acc) l b = b || existsb f l.
Proof.
  revert b. induction l as [|x l IH]; intros b; simpl.
  - now rewrite orb_false_r.
  - rewrite IH. destruct (f x), b; reflexivity.
Qed.

Lemma NoDup_map_inj_in {B : Type} (f : A -> B) (l : list A) (x y : A) :
  NoDup (map f l) -> In x l -> In y l -> f x = f y -> x = y.
Proof.
  induction l as [|a l IH]; simpl; [tauto|].
  intros Hnd Hx Hy Hf. inversion Hnd as [|? ? Hnin Hnd']; subst.
  destruct Hx as [<-|Hx], Hy as [<-|Hy]; auto.
  - exfalso. apply Hnin. rewrite Hf. now apply in_map.
  - exfalso. apply Hnin. rewrite <- Hf. now apply in_map.
Qed.

Lemma In_firstn (n : nat) (l : list A) (x : A) : In x (firstn n l) -> In x l.
Proof. intros H. rewrite <- (firstn_skipn n l). apply in_or_app. now left. Qed.

Lemma In_skipn (n : nat) (l : list A) (x : A) : In x (skipn n l) -> In x l.
Proof. intros H. rewrite <- (firstn_skipn n l). apply in_or_app. now right. Qed.

End ListFacts.

(** ** Transition sequences

    Finite runs ([star]) of a transition relation. *)

Section Runs.
Context {S : Type} (step : S -> S -> Prop).

Inductive star : S -> S -> Prop :=
| star_refl (a : S) : star a a
| star_step (a b c : S) : step a b -> star b c -> star a c.

(** A property kept by every step holds all along a run. *)
Lemma star_preserves (P : S -> Prop) (a b : S) :
  (forall x y, P x -> step x y -> P y) -> star a b -> P a -> P b.
Proof. intros Hstep Hrun. induction Hrun; eauto. Qed.

End Runs.

#[export] Hint Constructors star : trivia.
#[export] Hint Resolve length_firstn_le : trivia.
#[export] Hint Rewrite @fold_left_flag : trivia_rw.
