(* ===== verification/Py.v ===== *)
(** * Python semantics used by the handlers

    The values a handler receives from [request.get_json()] and returns
    from [Question.format()] are JSON values, which Python holds as
    [None], [bool], [int], [str], [list] and [dict]: [pyval].  The
    exceptions the code raises ([abort(code)]) or lets escape
    ([KeyError], [TypeError], [ValueError], [IndexError],
    [AttributeError], the store's errors) are the constructors of [exn],
    and a computation that may raise is a [result].  The builtins the
    code calls ([dict.get], [d[k]], [==] against an int, truthiness,
    [len], iteration, [l[i]], [l[a:b]], [random.randrange]) are defined
    here with CPython's semantics, together with the lemmas the
    components share about them. *)

From Stdlib Require Import String Ascii.
From Stdlib Require Import List Arith Lia ZArith Bool.
From S2P Require Import Prelude.
Import ListNotations.

Local Set Warnings "-register-all".

(** ** Values and exceptions *)

(** A dict is the list of its items; a dict built by the JSON decoder has
    distinct keys, so the first binding of a key is its only one. *)
Inductive pyval : Type :=
| PNone
| PBool (b : bool)
| PInt (z : Z)
| PStr (s : string)
| PList (l : list pyval)
| PDict (kv : list (string * pyval)).

Inductive exn : Type :=
| HTTPException (code : Z)   (** raised by flask's [abort(code)] *)
| KeyError
| TypeError
| ValueError
| IndexError
| AttributeError
| DBError.                   (** a [sqlalchemy.exc] error of the store *)

Inductive result (A : Type) : Type :=
| Ok (a : A)
| Raise (e : exn).
Arguments Ok {A} a.
Arguments Raise {A} e.

Definition bind {A B : Type} (c : result A) (k : A -> result B) : result B :=
  match c with
  | Ok a => k a
  | Raise e => Raise e
  end.

Notation "x <- c ;; k" := (bind c (fun x => k))
  (at level 61, c at next level, right associativity) : trivia_scope.
Open Scope trivia_scope.

(** [try: c  except: h] with a bare [except], which catches every
    exception, [HTTPException] included. *)
Definition try_except {A : Type} (c : result A) (h : exn -> result A) : result A :=
  match c with
  | Ok a => Ok a
  | Raise e => h e
  end.

(** [flask.abort(code)]. *)
Definition abort {A : Type} (code : Z) : result A := Raise (HTTPException code).

(** ** Builtins *)

Fixpoint assoc_get (k : string) (kv : list (string * pyval)) : option pyval :=
  match kv with
  | [] => None
  | (k', v) :: kv' => if String.eqb k k' then Some v else assoc_get k kv'
  end.

(** [d.get(k, None)]; a value that is not a dict has no [get]. *)
Definition py_get (d : pyval) (k : string) : result pyval :=
  match d with
  | PDict kv => Ok (match assoc_get k kv with Some v => v | None => PNone end)
  | _ => Raise AttributeError
  end.

(** [d[k]] with a string key. *)
Definition py_subscript (d : pyval) (k : string) : result pyval :=
  match d with
  | PDict kv => match assoc_get k kv with Some v => Ok v | None => Raise KeyError end
  | _ => Raise TypeError
  end.

(** [v == None]. *)
Definition py_is_none (v : pyval) : bool :=
  match v with PNone => true | _ => false end.

(** [v == n] for an int [n]: [True == 1] and [False == 0] in Python. *)
Definition py_eq_int (v : pyval) (n : Z) : bool :=
  match v with
  | PInt z => Z.eqb z n
  | PBool b => Z.eqb (if b then 1 else 0) n
  | _ => false
  end.

(** [bool(v)]. *)
Definition py_truthy (v : pyval) : bool :=
  match v with
  | PNone => false
  | PBool b => b
  | PInt z => negb (Z.eqb z 0)
  | PStr s => negb (String.eqb s EmptyString)
  | PList l => negb (Nat.eqb (length l) 0)
  | PDict kv => negb (Nat.eqb (length kv) 0)
  end.

(** [for x in v]: a list yields its elements, a string its characters, a
    dict its keys; anything else is not iterable. *)
Definition py_iter (v : pyval) : result (list pyval) :=
  match v with
  | PList l => Ok l
  | PStr s => Ok (map (fun c => PStr (String c EmptyString)) (list_ascii_of_string s))
  | PDict kv => Ok (map (fun p => PStr (fst p)) kv)
  | _ => Raise TypeError
  end.

(** [len(v)]. *)
Definition py_len (v : pyval) : result nat :=
  match v with
  | PList l => Ok (length l)
  | PStr s => Ok (String.length s)
  | PDict kv => Ok (length kv)
  | _ => Raise TypeError
  end.

(** [l[i]]: a negative index counts from the end. *)
Definition py_index {A : Type} (l : list A) (i : Z) : result A :=
  let n := Z.of_nat (length l) in
  let j := if (i <? 0)%Z then (i + n)%Z else i in
  if ((j <? 0)%Z || (n <=? j)%Z)%bool then Raise IndexError
  else match nth_error l (Z.to_nat j) with
       | Some x => Ok x
       | None => Raise IndexError
       end.

(** A bound of [l[a:b]] (step 1) after CPython's [PySlice_AdjustIndices]. *)
Definition slice_bound (n i : Z) : Z :=
  if (i <? 0)%Z then Z.max 0 (i + n) else Z.min i n.

(** [l[start:stop]]. *)
Definition py_slice {A : Type} (l : list A) (start stop : Z) : list A :=
  let n := Z.of_nat (length l) in
  let s := slice_bound n start in
  let e := slice_bound n stop in
  firstn (Z.to_nat (e - s)) (skipn (Z.to_nat s) l).

(** [random.randrange(start, stop, 1)]; the generator's draw [r] is
    reduced into the range.  An empty range raises [ValueError]. *)
Definition randrange (start stop : Z) (r : nat) : result Z :=
  let width := (stop - start)%Z in
  if (0 <? width)%Z then Ok (start + Z.of_nat r mod width)%Z else Raise ValueError.

(** ** Lemmas *)

Lemma bind_Ok_inv {A B : Type} (c : result A) (k : A -> result B) (b : B) :
  bind c k = Ok b -> exists a, c = Ok a /\ k a = Ok b.
Proof. destruct c; simpl; [eauto | discriminate]. Qed.

Lemma slice_bound_range (n i : Z) : (0 <= n)%Z -> (0 <= slice_bound n i <= n)%Z.
Proof. unfold slice_bound. destruct (Z.ltb_spec i 0); lia. Qed.

Lemma py_slice_length {A : Type} (l : list A) (a b : Z) :
  length (py_slice l a b) <= Z.to_nat (slice_bound (Z.of_nat (length l)) b
                                       - slice_bound (Z.of_nat (length l)) a).
Proof. unfold py_slice. apply length_firstn_le. Qed.

Lemma py_slice_nil_iff {A : Type} (l : list A) (a b : Z) :
  py_slice l a b = [] <->
  (slice_bound (Z.of_nat (length l)) b <= slice_bound (Z.of_nat (length l)) a)%Z.
Proof.
  unfold py_slice. rewrite <- length_zero_iff_nil, length_firstn, length_skipn.
  pose proof (slice_bound_range (Z.of_nat (length l)) a).
  pose proof (slice_bound_range (Z.of_nat (length l)) b). lia.
Qed.

(** Within bounds, a slice is a [firstn] of a [skipn]. *)
Lemma py_slice_In {A : Type} (l : list A) (a b : Z) (x : A) :
  In x (py_slice l a b) -> In x l.
Proof. unfold py_slice. intros H. now apply In_firstn, In_skipn in H. Qed.

Lemma py_slice_nonneg {A : Type} (l : list A) (a b : Z) :
  (0 <= a)%Z -> (a <= b)%Z ->
  py_slice l a b = firstn (Z.to_nat (b - a)) (skipn (Z.to_nat a) l).
Proof.
  intros Ha Hab. unfold py_slice, slice_bound.
  destruct (Z.ltb_spec a 0), (Z.ltb_spec b 0); try lia.
  set (n := Z.of_nat (length l)).
  destruct (Z.le_ge_cases a n).
  - rewrite (Z.min_l a n) by lia.
    destruct (Z.le_ge_cases b n).
    + now rewrite Z.min_l by lia.
    + rewrite (Z.min_r b n) by lia.
      rewrite !firstn_all2; [reflexivity| |];
        rewrite length_skipn; unfold n in *; lia.
  - rewrite (Z.min_r a n), (Z.min_r b n) by lia.
    rewrite !skipn_all2 by (unfold n in *; lia).
    now rewrite !firstn_nil.
Qed.

Lemma py_index_in_range {A : Type} (l : list A) (i : nat) :
  i < length l -> exists x, py_index l (Z.of_nat i) = Ok x /\ nth_error l i = Some x.
Proof.
  intros Hi. unfold py_index.
  destruct (Z.ltb_spec (Z.of_nat i) 0); [lia|].
  destruct (Z.ltb_spec (Z.of_nat i) 0), (Z.leb_spec (Z.of_nat (length l)) (Z.of_nat i));
    try lia. simpl. rewrite Nat2Z.id.
  destruct (nth_error l i) eqn:E; [eauto|].
  apply nth_error_None in E. lia.
Qed.

Lemma py_index_Ok_In {A : Type} (l : list A) (i : Z) (x : A) :
  py_index l i = Ok x -> In x l.
Proof.
  unfold py_index. destruct (_ || _)%bool; [discriminate|].
  destruct (nth_error l _) eqn:E; intros H; inv H. eapply nth_error_In; eauto.
Qed.

Lemma randrange_range (n : Z) (r : nat) (y : Z) :
  randrange 0 n r = Ok y -> (0 <= y < n)%Z.
Proof.
  unfold randrange. intros Hr. destruct (Z.ltb_spec 0 (n - 0)); inv Hr.
  pose proof (Z.mod_pos_bound (Z.of_nat r) (n - 0)). lia.
Qed.

(** Every index of a non-empty range is drawn by some generator output. *)
Lemma randrange_onto (n : Z) (y : Z) :
  (0 <= y < n)%Z -> randrange 0 n (Z.to_nat y) = Ok y.
Proof.
  intros Hy. unfold randrange. destruct (Z.ltb_spec 0 (n - 0)); [|lia].
  rewrite Z2Nat.id, Z.sub_0_r, Z.mod_small by lia. reflexivity.
Qed.

Lemma randrange_empty (start stop : Z) (r : nat) :
  (stop <= start)%Z -> randrange start stop r = Raise ValueError.
Proof. intros H. unfold randrange. destruct (Z.ltb_spec 0 (stop - start)); [lia|reflexivity]. Qed.

(** [len(v)] counts what [for x in v] yields. *)
Lemma py_len_iter (v : pyval) (n : nat) (l : list pyval) :
  py_len v = Ok n -> py_iter v = Ok l -> n = length l.
Proof.
  destruct v; simpl; intros H1 H2; inv H1; inv H2; rewrite ?length_map; try reflexivity.
  induction s; simpl; congruence.
Qed.

#[export] Hint Resolve py_index_Ok_In randrange_range randrange_onto : trivia.
