(* ===== verification/Store.v ===== *)
(** * The data store

    The [question] and [category] tables of the relational store, the
    serial sequence that assigns question ids, and the queries and
    mutations the handlers of src/backend/flaskr/__init__.py issue
    through SQLAlchemy.  [models.py] is not under src/, so the rows,
    [Question.format()], [insert()] and [delete()] are modelled from the
    spec; the query expressions are those written inline in the handlers.

    A nullable column holds an [option]; [None] is SQL NULL.  The store
    state is well formed when question ids are distinct and all below the
    next value of the sequence; both mutations keep it so.
    [order_by(Question.id)] is a merge sort on ids, and it returns the
    table as a permutation with strictly ascending ids, the only list with
    these two properties (so the result does not depend on the sort the
    database uses). *)

From Stdlib Require Import String.
From Stdlib Require Import List Arith Lia ZArith Bool Sorted Permutation Mergesort Orders.
From S2P Require Import Prelude Py.
Import ListNotations.
Open Scope trivia_scope.

(** ** Rows *)

Record Question := mkQuestion {
  q_id : Z;
  q_question : option string;
  q_answer : option string;
  q_category : option Z;
  q_difficulty : option Z
}.

Record Category := mkCategory {
  c_id : Z;
  c_type : option string
}.

Definition text_val (o : option string) : pyval :=
  match o with Some s => PStr s | None => PNone end.

Definition int_val (o : option Z) : pyval :=
  match o with Some z => PInt z | None => PNone end.

(** [Question.format()]. *)
Definition format (q : Question) : pyval :=
  PDict [("id"%string, PInt (q_id q));
         ("question"%string, text_val (q_question q));
         ("answer"%string, text_val (q_answer q));
         ("category"%string, int_val (q_category q));
         ("difficulty"%string, int_val (q_difficulty q))].

(** ** Store state *)

Record db := mkDB {
  questions : list Question;   (** the question table, in storage order *)
  categories : list Category;  (** the category table *)
  next_id : Z                  (** next value of the question id sequence *)
}.

Definition ids (qs : list Question) : list Z := map q_id qs.

Definition db_wf (s : db) : Prop :=
  NoDup (ids (questions s)) /\ Forall (fun q => (q_id q < next_id s)%Z) (questions s).

(** ** Queries *)

Module QuestionIdOrder <: TotalLeBool.
Definition t := Question.
Definition leb (a b : Question) : bool := (q_id a <=? q_id b)%Z.
Theorem leb_total : forall a b, leb a b = true \/ leb b a = true.
Proof. intros a b. unfold leb. destruct (Z.leb_spec (q_id a) (q_id b)); [left|right]; lia. Qed.
End QuestionIdOrder.

Module QuestionSort := Sort QuestionIdOrder.

(** [Question.query.order_by(Question.id).all()]. *)
Definition order_by_id (s : db) : list Question := QuestionSort.sort (questions s).

(** [Question.query.filter(Question.category == v).all()]: an int is
    compared, [None] becomes [IS NULL], and any other bound value is
    refused by the store. *)
Definition filter_category (s : db) (v : pyval) : result (list Question) :=
  match v with
  | PInt z => Ok (filter (fun q => match q_category q with
                                   | Some c => Z.eqb c z
                                   | None => false
                                   end) (questions s))
  | PNone => Ok (filter (fun q => match q_category q with
                                  | Some _ => false
                                  | None => true
                                  end) (questions s))
  | _ => Raise DBError
  end.

(** [Question.query.filter(Question.id == i).one_or_none()]. *)
Definition find_by_id (s : db) (i : Z) : result (option Question) :=
  match filter (fun q => Z.eqb (q_id q) i) (questions s) with
  | [] => Ok None
  | [q] => Ok (Some q)
  | _ => Raise DBError
  end.

(** ** Mutations *)

(** The value bound to a text or an integer column; a value of another
    type is refused by the store. *)
Definition text_column (v : pyval) : result (option string) :=
  match v with
  | PNone => Ok None
  | PStr s => Ok (Some s)
  | _ => Raise DBError
  end.

Definition int_column (v : pyval) : result (option Z) :=
  match v with
  | PNone => Ok None
  | PInt z => Ok (Some z)
  | _ => Raise DBError
  end.

(** [Question(question=.., answer=.., difficulty=.., category=..).insert()]:
    the row takes the next value of the sequence as its id. *)
Definition insert (s : db) (new_question new_answer difficulty category : pyval)
  : result (db * Question) :=
  qt <- text_column new_question ;;
  an <- text_column new_answer ;;
  df <- int_column difficulty ;;
  ct <- int_column category ;;
  let row := mkQuestion (next_id s) qt an ct df in
  Ok (mkDB (questions s ++ [row]) (categories s) (next_id s + 1)%Z, row).

(** [question.delete()]: the row with the question's primary key goes. *)
Definition delete (s : db) (q : Question) : db :=
  mkDB (filter (fun r => negb (Z.eqb (q_id r) (q_id q))) (questions s))
       (categories s) (next_id s).

(** ** Sample rows

    Rows of category 3 (the test suite's Geography questions), the inputs
    at which the witnesses evaluate the theorems. *)
Definition sample_question (i cat : Z) : Question :=
  mkQuestion i (Some "Which city hosts the Louvre?"%string) (Some "Paris"%string)
             (Some cat) (Some 2%Z).

Definition q12 : Question := sample_question 12 3.
Definition q13 : Question := sample_question 13 3.
Definition q14 : Question := sample_question 14 3.

(** A table of [n] questions of category 1 with ids [1..n]. *)
Definition sample_table (n : nat) : list Question :=
  map (fun i => sample_question (Z.of_nat i) 1) (seq 1 n).

(** A store holding questions 13 and 12, the sequence at 15. *)
Definition sample_db : db := mkDB [q13; q12] [] 15.

(** ** Lemmas *)

Lemma In_ids (qs : list Question) (q : Question) : In q qs -> In (q_id q) (ids qs).
Proof. apply in_map. Qed.

Lemma ids_app (a b : list Question) : ids (a ++ b) = ids a ++ ids b.
Proof. apply map_app. Qed.

Lemma NoDup_ids_filter (f : Question -> bool) (qs : list Question) :
  NoDup (ids qs) -> NoDup (ids (filter f qs)).
Proof.
  induction qs as [|q qs IH]; simpl; [auto|].
  intros Hnd. inversion Hnd as [|? ? Hnin Hnd']; subst.
  destruct (f q); simpl; [constructor|]; auto.
  intros Hin. apply Hnin. unfold ids in *. apply in_map_iff in Hin.
  destruct Hin as (r & Hr & Hin). rewrite <- Hr. apply in_map.
  apply filter_In in Hin. tauto.
Qed.

Lemma filter_id_unique (qs : list Question) (q : Question) :
  NoDup (ids qs) -> In q qs ->
  filter (fun r => Z.eqb (q_id r) (q_id q)) qs = [q].
Proof.
  induction qs as [|r qs IH]; simpl; [tauto|].
  intros Hnd Hin. inversion Hnd as [|? ? Hnin Hnd']; subst.
  destruct Hin as [<-|Hin].
  - rewrite Z.eqb_refl. f_equal.
    apply filter_nil_iff. intros r' Hr'. apply Z.eqb_neq.
    intros Heq. apply Hnin. rewrite <- Heq. now apply In_ids.
  - destruct (Z.eqb_spec (q_id r) (q_id q)) as [Heq|]; auto.
    exfalso. apply Hnin. rewrite Heq. now apply In_ids.
Qed.

#[export] Hint Resolve In_ids NoDup_ids_filter : trivia.

Lemma leb_trans : Transitive (fun a b => is_true (QuestionIdOrder.leb a b)).
Proof. intros a b c. unfold is_true, QuestionIdOrder.leb. rewrite !Z.leb_le. lia. Qed.

(** A list sorted by id with distinct ids is strictly ascending. *)
Lemma sorted_le_strict (l : list Question) :
  Sorted (fun a b => is_true (QuestionIdOrder.leb a b)) l -> NoDup (ids l) ->
  StronglySorted (fun a b => (q_id a < q_id b)%Z) l.
Proof.
  intros Hs. apply Sorted_StronglySorted in Hs; [|exact leb_trans].
  induction Hs as [|a l Hs IH Hall]; intros Hnd; constructor;
    inversion Hnd as [|? ? Hnin Hnd']; subst; auto.
  rewrite Forall_forall in *. intros b Hb. specialize (Hall b Hb).
  unfold is_true, QuestionIdOrder.leb in Hall. apply Z.leb_le in Hall.
  assert (q_id a <> q_id b) by (intros Heq; apply Hnin; rewrite Heq; now apply In_ids).
  lia.
Qed.

Lemma NoDup_ids_perm (l l' : list Question) :
  Permutation l l' -> NoDup (ids l) -> NoDup (ids l').
Proof. intros Hp. apply Permutation_NoDup, Permutation_map, Hp. Qed.

(** Two strictly ascending arrangements of the same rows coincide. *)
Lemma strict_sorted_perm_eq (l1 l2 : list Question) :
  StronglySorted (fun a b => (q_id a < q_id b)%Z) l1 ->
  StronglySorted (fun a b => (q_id a < q_id b)%Z) l2 ->
  Permutation l1 l2 -> l1 = l2.
Proof.
  revert l2. induction l1 as [|a l1 IH]; intros l2 Hs1 Hs2 Hp.
  - symmetry. now apply Permutation_nil.
  - destruct l2 as [|b l2]; [now apply Permutation_sym, Permutation_nil in Hp|].
    apply StronglySorted_inv in Hs1 as [Hs1 Ha], Hs2 as [Hs2 Hb].
    rewrite Forall_forall in Ha, Hb.
    assert (a = b) as <-.
    { assert (Hina : In a (b :: l2)) by (eapply Permutation_in; [exact Hp|now left]).
      assert (Hinb : In b (a :: l1)) by (eapply Permutation_in; [apply Permutation_sym, Hp|now left]).
      destruct Hina as [|Hina]; [congruence|]. destruct Hinb as [|Hinb]; [congruence|].
      specialize (Ha b Hinb). specialize (Hb a Hina). lia. }
    f_equal. apply IH; auto. eapply Permutation_cons_inv; eauto.
Qed.

#[export] Hint Resolve NoDup_ids_perm : trivia.

Lemma insert_Ok_inv (s s' : db) (a b c d : pyval) (row : Question) :
  insert s a b c d = Ok (s', row) ->
  s' = mkDB (questions s ++ [row]) (categories s) (next_id s + 1)%Z /\ q_id row = next_id s.
Proof.
  unfold insert.
  destruct (text_column a), (text_column b), (int_column c), (int_column d);
    simpl; intros H; inv H; auto.
Qed.

Lemma fresh_not_in (s : db) : db_wf s -> ~ In (next_id s) (ids (questions s)).
Proof.
  intros [_ Hlt] Hin. unfold ids in Hin. apply in_map_iff in Hin as (q & Hq & Hin).
  rewrite Forall_forall in Hlt. specialize (Hlt q Hin). lia.
Qed.

(** Appending a row that takes the sequence's value, and advancing the
    sequence, keeps the store well formed. *)
Lemma wf_append_fresh (s : db) (row : Question) :
  db_wf s -> q_id row = next_id s ->
  db_wf (mkDB (questions s ++ [row]) (categories s) (next_id s + 1)%Z).
Proof.
  intros Hwf Hid. pose proof (fresh_not_in s Hwf) as Hfresh.
  destruct Hwf as [Hnd Hlt]. split; simpl.
  - rewrite ids_app. simpl. rewrite Hid.
    eapply Permutation_NoDup; [apply Permutation_cons_append|]. now constructor.
  - apply Forall_app. split; [|constructor; [lia|constructor]].
    eapply Forall_impl; [|exact Hlt]. simpl. intros; lia.
Qed.

Lemma delete_wf (s : db) (q : Question) : db_wf s -> db_wf (delete s q).
Proof.
  intros [Hnd Hlt]. split; simpl; [now apply NoDup_ids_filter|].
  rewrite Forall_forall in *. intros r Hr. apply filter_In in Hr as [Hr _]. auto.
Qed.

(** [delete] keeps a subset of the rows and the sequence. *)
Lemma delete_In (s : db) (q r : Question) : In r (questions (delete s q)) -> In r (questions s).
Proof. simpl. intros Hr. now apply filter_In in Hr as [Hr _]. Qed.

Lemma find_by_id_absent (s : db) (i : Z) :
  ~ In i (ids (questions s)) -> find_by_id s i = Ok None.
Proof.
  intros Hni. unfold find_by_id. rewrite (proj2 (filter_nil_iff _ _)); [reflexivity|].
  intros r Hr. apply Z.eqb_neq. intros <-. now apply Hni, In_ids.
Qed.

Lemma delete_keeps (s : db) (q r : Question) :
  In r (questions s) -> q_id r <> q_id q -> In r (questions (delete s q)).
Proof. intros Hr Hne. simpl. apply filter_In. split; [exact Hr|apply negb_true_iff, Z.eqb_neq, Hne]. Qed.

Lemma delete_ids (s : db) (q : Question) : ~ In (q_id q) (ids (questions (delete s q))).
Proof.
  intros Hin. unfold ids in Hin. apply in_map_iff in Hin as (r & Hr & Hin). simpl in Hin.
  apply filter_In in Hin as [_ Hne]. apply negb_true_iff, Z.eqb_neq in Hne. congruence.
Qed.

Lemma order_by_id_strict (s : db) :
  db_wf s -> StronglySorted (fun a b => (q_id a < q_id b)%Z) (order_by_id s).
Proof.
  intros [Hnd _]. pose proof (QuestionSort.Permuted_sort (questions s)) as Hp.
  apply sorted_le_strict; [apply QuestionSort.Sorted_sort|eauto with trivia].
Qed.

Lemma find_by_id_In (s : db) (i : Z) (q : Question) :
  find_by_id s i = Ok (Some q) -> In q (questions s) /\ q_id q = i.
Proof.
  unfold find_by_id. intros H.
  destruct (filter _ _) as [|x [|y l]] eqn:E; inv H.
  assert (Hin : In q (filter (fun q => Z.eqb (q_id q) i) (questions s))) by (rewrite E; now left).
  apply filter_In in Hin as [Hin Heq]. apply Z.eqb_eq in Heq. auto.
Qed.

Lemma find_by_id_wf (s : db) (q : Question) :
  db_wf s -> In q (questions s) -> find_by_id s (q_id q) = Ok (Some q).
Proof. intros [Hnd _] Hin. unfold find_by_id. now rewrite filter_id_unique. Qed.

Lemma filter_category_In (s : db) (c : Z) (sel : list Question) (q : Question) :
  filter_category s (PInt c) = Ok sel -> In q sel -> In q (questions s) /\ q_category q = Some c.
Proof.
  simpl. intros H Hin. inv H. apply filter_In in Hin as [Hin Hc].
  destruct (q_category q) as [c'|]; [|discriminate]. apply Z.eqb_eq in Hc. now subst.
Qed.

Lemma order_by_id_length (s : db) : length (order_by_id s) = length (questions s).
Proof. symmetry. apply Permutation_length, QuestionSort.Permuted_sort. Qed.

Lemma delete_length (s : db) (q : Question) :
  db_wf s -> In q (questions s) -> length (questions (delete s q)) = length (questions s) - 1.
Proof.
  intros [Hnd _] Hin. simpl.
  pose proof (filter_length (fun r => Z.eqb (q_id r) (q_id q)) (questions s)) as Hl.
  rewrite filter_id_unique in Hl by assumption. simpl in Hl. lia.
Qed.

Lemma order_by_id_In (s : db) (q : Question) : In q (order_by_id s) -> In q (questions s).
Proof. apply Permutation_in, Permutation_sym, QuestionSort.Permuted_sort. Qed.

Lemma StronglySorted_snoc {A : Type} (R : A -> A -> Prop) (l : list A) (a : A) :
  StronglySorted R l -> (forall x, In x l -> R x a) -> StronglySorted R (l ++ [a]).
Proof.
  induction 1 as [|b l Hs IH Hb]; intros Ha; simpl; [repeat constructor|].
  constructor; [apply IH; intros x Hx; apply Ha; now right|].
  apply Forall_app. split; [exact Hb|constructor; [apply Ha; now left|constructor]].
Qed.

(** A row inserted through the sequence comes last in id order: the
    order of the other rows is unchanged. *)
Lemma order_by_id_snoc (s : db) (row : Question) :
  db_wf s -> q_id row = next_id s ->
  order_by_id (mkDB (questions s ++ [row]) (categories s) (next_id s + 1)%Z) = order_by_id s ++ [row].
Proof.
  intros Hwf Hid. apply strict_sorted_perm_eq.
  - apply order_by_id_strict, wf_append_fresh; assumption.
  - apply StronglySorted_snoc; [now apply order_by_id_strict|].
    intros x Hx. apply order_by_id_In in Hx. destruct Hwf as [_ Hlt].
    rewrite Forall_forall in Hlt. specialize (Hlt x Hx). lia.
  - unfold order_by_id at 1. simpl. rewrite <- QuestionSort.Permuted_sort.
    apply Permutation_app_tail, QuestionSort.Permuted_sort.
Qed.

(** ** Properties *)

(** C21: Inserting a question keeps the store well formed: ids stay
    distinct and below the sequence. *)
Theorem insert_preserves_wf (s s' : db) (a b c d : pyval) (row : Question) :
  db_wf s -> insert s a b c d = Ok (s', row) -> db_wf s'.
Proof. intros Hwf Hins. apply insert_Ok_inv in Hins as [-> Hid]. now apply wf_append_fresh. Qed.

(** The inserted question gets an id no existing question has, and a
    lookup of that id afterwards finds it. *)
Theorem insert_fresh (s s' : db) (a b c d : pyval) (row : Question) :
  db_wf s -> insert s a b c d = Ok (s', row) ->
  ~ In (q_id row) (ids (questions s)) /\ find_by_id s' (q_id row) = Ok (Some row).
Proof.
  intros Hwf Hins. apply insert_Ok_inv in Hins as [-> Hid].
  pose proof (wf_append_fresh s row Hwf Hid) as Hwf'. split.
  - rewrite Hid. now apply fresh_not_in.
  - apply find_by_id_wf; [assumption|]. simpl. apply in_or_app. right. now left.
Qed.

(** Deleting the question a lookup found keeps the store well formed,
    makes a second lookup of its id find nothing, and keeps every other
    question. *)
Theorem delete_removes (s : db) (i : Z) (q : Question) :
  db_wf s -> find_by_id s i = Ok (Some q) ->
  db_wf (delete s q) /\ find_by_id (delete s q) i = Ok None /\
  (forall r, In r (questions s) -> q_id r <> i -> In r (questions (delete s q))).
Proof.
  intros Hwf Hf. apply find_by_id_In in Hf as [Hin <-]. split; [|split].
  - now apply delete_wf.
  - apply find_by_id_absent, delete_ids.
  - intros r Hr Hne. now apply delete_keeps.
Qed.

(** ** Witnesses *)

Lemma insert_preserves_wf_witness :
  db_wf (mkDB [q13; q12; mkQuestion 15 (Some "Q"%string) (Some "A"%string) (Some 1%Z) (Some 4%Z)]
              [] 16).
Proof.
  apply (insert_preserves_wf sample_db _ (PStr "Q") (PStr "A") (PInt 4) (PInt 1)
           (mkQuestion 15 (Some "Q"%string) (Some "A"%string) (Some 1%Z) (Some 4%Z))).
  - split; simpl; repeat constructor; simpl; lia.
  - reflexivity.
Defined.

Lemma insert_fresh_witness :
  ~ In 15%Z (ids (questions sample_db)) /\
  find_by_id (mkDB [q13; q12; mkQuestion 15 None None None None] [] 16) 15 =
  Ok (Some (mkQuestion 15 None None None None)).
Proof.
  apply (insert_fresh sample_db _ PNone PNone PNone PNone (mkQuestion 15 None None None None)).
  - split; simpl; repeat constructor; simpl; lia.
  - reflexivity.
Defined.

Lemma delete_removes_witness :
  db_wf (delete sample_db q12) /\ find_by_id (delete sample_db q12) 12 = Ok None /\
  (forall r, In r (questions sample_db) -> q_id r <> 12%Z ->
        In r (questions (delete sample_db q12))).
Proof.
  apply delete_removes.
  - split; simpl; repeat constructor; simpl; lia.
  - reflexivity.
Defined.


