(* ===== verification/Quiz.v ===== *)
(** * The quiz selector of [question_generator]

    Lines 258-291 of src/backend/flaskr/__init__.py: given the selected
    questions and the list [previous_questions], the handler draws a
    random index ([choose_random_question]), and while the drawn question
    is in the previous list ([check_in_previous]) it draws again and, after
    each redraw, answers "quiz complete" when [len(previous_questions)]
    equals the number of selected questions.

    The section [Selector] fixes the selection and what iterating
    [previous_questions] yields.  [quiz_loop] is the [while] loop fed by
    the generator's draws; [quiz_select] adds the first draw.  The loop
    only reads [question['id']] of a formatted question, which is the
    row's [q_id], so the model draws rows and the handler formats the one
    it returns. *)

From Stdlib Require Import String.
From Stdlib Require Import List Arith Lia ZArith Bool.
From S2P Require Import Prelude Py Store.
Import ListNotations.
Open Scope trivia_scope.

Inductive quiz_outcome : Type :=
| Found (q : Question)   (** [{'success': True, 'question': q}] *)
| Exhausted              (** [{'success': True}]: quiz complete *)
| NeedMoreDraws.         (** the draws ran out before the loop returned *)

(** ** What the quiz promises

    The contract of the endpoint (spec sections 4.2 and 8): serve a
    selected question whose id is not in the previous list, or answer
    "quiz complete" when there is none.  [pick] is the selector the
    spec's design notes prescribe: drop the served questions, then take
    one of the rest. *)
Module QuizSpec.

Definition unserved (previous : list pyval) (q : Question) : bool :=
  negb (existsb (fun p => py_eq_int p (q_id q)) previous).

Definition remaining (selection : list Question) (previous : list pyval) : list Question :=
  filter (unserved previous) selection.

Definition allowed (selection : list Question) (previous : list pyval) (o : quiz_outcome)
  : Prop :=
  match o with
  | Found q => In q (remaining selection previous)
  | Exhausted => remaining selection previous = []
  | NeedMoreDraws => False
  end.

Definition pick (selection : list Question) (previous : list pyval) (r : nat) : quiz_outcome :=
  let rest := remaining selection previous in
  match nth_error rest (r mod length rest) with
  | Some q => Found q
  | None => Exhausted
  end.

Lemma pick_found (selection : list Question) (previous : list pyval) (r : nat) (q : Question) :
  pick selection previous r = Found q -> In q (remaining selection previous).
Proof.
  unfold pick. destruct (nth_error _ _) eqn:E; intros H; inv H. eapply nth_error_In; eauto.
Qed.

Lemma pick_exhausted (selection : list Question) (previous : list pyval) (r : nat) :
  pick selection previous r = Exhausted <-> remaining selection previous = [].
Proof.
  unfold pick. split.
  - destruct (nth_error _ _) eqn:E; [discriminate|]. intros _.
    apply nth_error_None in E. destruct (remaining selection previous); [reflexivity|].
    simpl length in E. pose proof (Nat.mod_upper_bound r (S (length l))). lia.
  - intros ->. destruct r; reflexivity.
Qed.

Lemma pick_onto (selection : list Question) (previous : list pyval) (q : Question) :
  In q (remaining selection previous) -> exists r, pick selection previous r = Found q.
Proof.
  intros Hin. apply In_nth_error in Hin as (i & Hi).
  exists i. unfold pick. rewrite Nat.mod_small by (apply nth_error_Some; congruence).
  now rewrite Hi.
Qed.

End QuizSpec.

Section Selector.

(** [selection], and the values [for q in previous_questions] yields. *)
Variable selection : list Question.
Variable previous : list pyval.

Definition total_questions : Z := Z.of_nat (length selection).

(** [check_in_previous(question)]: the loop sets a flag and never
    breaks. *)
Definition check_in_previous (question : Question) : bool :=
  fold_left (fun been_used q => if py_eq_int q (q_id question) then true else been_used)
            previous false.

(** [choose_random_question()] with the generator's draw [r]. *)
Definition choose_random_question (r : nat) : result Question :=
  y <- randrange 0 total_questions r ;;
  py_index selection y.

(** [while check_in_previous(question): question = choose_random_question();
    if len(previous_questions) == total_questions: return {'success': True}]. *)
Fixpoint quiz_loop (draws : list nat) (question : Question) : result quiz_outcome :=
  if check_in_previous question then
    match draws with
    | [] => Ok NeedMoreDraws
    | r :: draws' =>
        question' <- choose_random_question r ;;
        if Nat.eqb (length previous) (length selection) then Ok Exhausted
        else quiz_loop draws' question'
    end
  else Ok (Found question).

(** The first draw, then the loop. *)
Definition quiz_select (draws : list nat) : result quiz_outcome :=
  match draws with
  | [] => Ok NeedMoreDraws
  | r :: draws' =>
      question <- choose_random_question r ;;
      quiz_loop draws' question
  end.

(** A question was served before when some value of the previous list
    equals its id. *)
Definition served (q : Question) : bool :=
  existsb (fun p => py_eq_int p (q_id q)) previous.

(** ** Lemmas on the loop's parts *)

Lemma check_in_previous_served (q : Question) : check_in_previous q = served q.
Proof. unfold check_in_previous, served. now rewrite fold_left_flag. Qed.

Lemma choose_In (r : nat) (q : Question) :
  choose_random_question r = Ok q -> In q selection.
Proof.
  unfold choose_random_question. intros H.
  apply bind_Ok_inv in H as (y & _ & Hy). eauto using py_index_Ok_In.
Qed.

Lemma choose_empty (r : nat) : selection = [] -> choose_random_question r = Raise ValueError.
Proof.
  intros He. unfold choose_random_question, total_questions. now rewrite He.
Qed.

(** A non-empty selection always yields a question, and every position
    is reached by some draw. *)
Lemma choose_nonempty (r : nat) :
  selection <> [] -> exists q, choose_random_question r = Ok q.
Proof.
  intros Hne. unfold choose_random_question.
  destruct (randrange 0 total_questions r) as [y|] eqn:Hy; simpl.
  - apply randrange_range in Hy. unfold total_questions in Hy.
    destruct (py_index_in_range selection (Z.to_nat y)) as (q & Hq & _); [lia|].
    rewrite Z2Nat.id in Hq by lia. eauto.
  - unfold randrange in Hy. destruct (Z.ltb_spec 0 (total_questions - 0)); [discriminate|].
    unfold total_questions in *. destruct selection; [congruence|simpl in *; lia].
Qed.

Lemma choose_onto (i : nat) (q : Question) :
  nth_error selection i = Some q -> choose_random_question i = Ok q.
Proof.
  intros Hi. assert (Hlt : i < length selection) by (apply nth_error_Some; congruence).
  unfold choose_random_question.
  replace i with (Z.to_nat (Z.of_nat i)) at 1 by lia.
  rewrite randrange_onto by (unfold total_questions; lia). simpl.
  destruct (py_index_in_range selection i Hlt) as (x & Hx & Hn). congruence.
Qed.

(** ** What the loop can return *)

Lemma quiz_loop_found (draws : list nat) (q0 q : Question) :
  In q0 selection -> quiz_loop draws q0 = Ok (Found q) ->
  In q selection /\ served q = false.
Proof.
  revert q0. induction draws as [|r draws IH]; intros q0 Hq0; simpl;
    rewrite check_in_previous_served; destruct (served q0) eqn:Hs.
  - discriminate.
  - intros H. inv H. auto.
  - destruct (choose_random_question r) as [q1|] eqn:Hc; simpl; [|discriminate].
    break_match; [discriminate|]. apply IH. eauto using choose_In.
  - intros H. inv H. auto.
Qed.

(** With a previous list as long as the selection, the first redraw ends
    the loop: one redraw is all the loop ever makes. *)
Lemma quiz_loop_len_eq (r : nat) (draws : list nat) (q : Question) :
  selection <> [] -> length previous = length selection ->
  quiz_loop (r :: draws) q = if served q then Ok Exhausted else Ok (Found q).
Proof.
  intros Hne Hlen. simpl. rewrite check_in_previous_served.
  destruct (served q); [|reflexivity].
  destruct (choose_nonempty r Hne) as (q1 & ->). simpl.
  now rewrite Hlen, Nat.eqb_refl.
Qed.

(** The loop answers "quiz complete" only when the lengths are equal. *)
Lemma quiz_loop_exhausted_len (draws : list nat) (q : Question) :
  quiz_loop draws q = Ok Exhausted -> length previous = length selection.
Proof.
  revert q. induction draws as [|r draws IH]; intros q; simpl;
    destruct (check_in_previous q); try discriminate.
  destruct (choose_random_question r); simpl; [|discriminate].
  destruct (Nat.eqb_spec (length previous) (length selection)); eauto.
Qed.

Lemma quiz_select_exhausted_len (draws : list nat) :
  quiz_select draws = Ok Exhausted -> length previous = length selection.
Proof.
  destruct draws as [|r draws]; simpl; [discriminate|].
  destruct (choose_random_question r); simpl; [|discriminate].
  apply quiz_loop_exhausted_len.
Qed.

Lemma remaining_iff (q : Question) :
  In q (QuizSpec.remaining selection previous) <-> In q selection /\ served q = false.
Proof.
  unfold QuizSpec.remaining, QuizSpec.unserved, served. rewrite filter_In, negb_true_iff.
  reflexivity.
Qed.

Lemma remaining_nil_iff :
  QuizSpec.remaining selection previous = [] <-> (forall q, In q selection -> served q = true).
Proof.
  unfold QuizSpec.remaining, QuizSpec.unserved, served. rewrite filter_nil_iff.
  split; intros H q Hq; specialize (H q Hq); now apply negb_false_iff.
Qed.

Lemma quiz_loop_unserved (draws : list nat) (q : Question) :
  served q = false -> quiz_loop draws q = Ok (Found q).
Proof. intros Hs. destruct draws; simpl; now rewrite check_in_previous_served, Hs. Qed.

(** When every selected question was served but the lengths differ, every
    iteration redraws a served question and the test never fires. *)
Lemma quiz_loop_covered (draws : list nat) (q : Question) :
  selection <> [] -> length previous <> length selection ->
  (forall q', In q' selection -> served q' = true) ->
  In q selection -> quiz_loop draws q = Ok NeedMoreDraws.
Proof.
  intros Hne Hlen Hall. revert q. induction draws as [|r draws IH]; intros q Hq; simpl;
    rewrite check_in_previous_served, (Hall q Hq); [reflexivity|].
  destruct (choose_nonempty r Hne) as (q1 & Hq1). rewrite Hq1. simpl.
  apply Nat.eqb_neq in Hlen. rewrite Hlen. eauto using choose_In.
Qed.

(** A draw of an unserved question ends the loop, provided the lengths
    differ (otherwise the test may fire first). *)
Lemma quiz_loop_fresh (draws : list nat) (q0 : Question) (i : nat) (q : Question) :
  length previous <> length selection ->
  In i draws -> choose_random_question i = Ok q -> served q = false ->
  exists q', quiz_loop draws q0 = Ok (Found q').
Proof.
  intros Hlen Hi Hc Hs. revert q0. induction draws as [|r draws IH]; intros q0; [destruct Hi|].
  simpl. rewrite check_in_previous_served.
  destruct (served q0) eqn:Hs0; [|eauto].
  assert (Hne : selection <> []) by (intros He; rewrite choose_empty in Hc; congruence).
  destruct (choose_nonempty r Hne) as (q1 & Hq1). rewrite Hq1. simpl.
  apply Nat.eqb_neq in Hlen. rewrite Hlen.
  destruct Hi as [<-|Hi]; [|eauto].
  rewrite Hc in Hq1. inv Hq1. eauto using quiz_loop_unserved.
Qed.

Lemma quiz_select_found_unserved (draws : list nat) (q : Question) :
  quiz_select draws = Ok (Found q) -> In q selection /\ served q = false.
Proof.
  destruct draws as [|r draws]; simpl; [discriminate|].
  destruct (choose_random_question r) as [q0|] eqn:Hc; simpl; [|discriminate].
  apply quiz_loop_found. eauto using choose_In.
Qed.

(** With equal lengths and every question served, the first draw serves
    nothing and the second one ends the quiz. *)
Lemma quiz_select_covered_eq (r1 r2 : nat) (draws : list nat) :
  selection <> [] -> length previous = length selection ->
  (forall q, In q selection -> served q = true) ->
  quiz_select (r1 :: r2 :: draws) = Ok Exhausted.
Proof.
  intros Hne Hlen Hall. unfold quiz_select.
  destruct (choose_nonempty r1 Hne) as (q0 & Hq0). rewrite Hq0. cbn [bind].
  rewrite quiz_loop_len_eq by assumption.
  now rewrite Hall by eauto using choose_In.
Qed.

(** On a non-empty selection nothing in the loop raises. *)
Lemma quiz_loop_ok (draws : list nat) (q : Question) :
  selection <> [] -> exists o, quiz_loop draws q = Ok o.
Proof.
  intros Hne. revert q. induction draws as [|r draws IH]; intros q; simpl;
    destruct (check_in_previous q); eauto.
  destruct (choose_nonempty r Hne) as (q1 & ->). simpl. destruct (Nat.eqb _ _); eauto.
Qed.

Lemma quiz_select_ok (draws : list nat) : selection <> [] -> exists o, quiz_select draws = Ok o.
Proof.
  intros Hne. destruct draws as [|r draws]; simpl; [eauto|].
  destruct (choose_nonempty r Hne) as (q1 & ->). simpl. now apply quiz_loop_ok.
Qed.

(** ** Properties of the selector *)

(** C1: A question the quiz serves is one of the selected questions, and
    no value of [previous_questions] equals its id. *)
Theorem quiz_select_sound (draws : list nat) (q : Question) :
  quiz_select draws = Ok (Found q) ->
  In q selection /\ existsb (fun p => py_eq_int p (q_id q)) previous = false.
Proof. apply quiz_select_found_unserved. Qed.

(** C2: When [previous_questions] has the selection's length and covers
    it, two draws always end the quiz with "quiz complete". *)
Theorem quiz_select_exhausted (r1 r2 : nat) (draws : list nat) :
  selection <> [] -> length previous = length selection ->
  (forall q, In q selection -> served q = true) ->
  quiz_select (r1 :: r2 :: draws) = Ok Exhausted.
Proof. apply quiz_select_covered_eq. Qed.

(** C5: On an empty selection (a category without questions), the first
    draw raises [ValueError] from [random.randrange(0, 0, 1)]. *)
Theorem quiz_select_empty_pool (r : nat) (draws : list nat) :
  selection = [] -> quiz_select (r :: draws) = Raise ValueError.
Proof. intros He. simpl. now rewrite choose_empty. Qed.

(** C3: When [previous_questions] covers the selection but its length is
    not the selection's (a duplicate, or an id from elsewhere), the loop
    never returns: no sequence of draws, however long, ends it. *)
Theorem quiz_select_diverges (draws : list nat) :
  selection <> [] -> length previous <> length selection ->
  (forall q, In q selection -> served q = true) ->
  quiz_select draws = Ok NeedMoreDraws.
Proof.
  intros Hne Hlen Hall. destruct draws as [|r draws]; [reflexivity|]. simpl.
  destruct (choose_nonempty r Hne) as (q0 & Hq0). rewrite Hq0. simpl.
  eauto using quiz_loop_covered, choose_In.
Qed.

(** C4: The "quiz complete" answer is a length test: once the lengths are
    equal and the first draw was served, the second draw ends the quiz,
    whatever questions are left unserved. *)
Theorem quiz_select_exhausted_by_length (r1 r2 : nat) (draws : list nat) (q : Question) :
  length previous = length selection ->
  choose_random_question r1 = Ok q -> served q = true ->
  quiz_select (r1 :: r2 :: draws) = Ok Exhausted.
Proof.
  intros Hlen Hq Hs. unfold quiz_select. rewrite Hq. cbn [bind].
  assert (Hne : selection <> []) by (intros He; rewrite choose_empty in Hq; congruence).
  now rewrite quiz_loop_len_eq, Hs.
Qed.

(** C8: As long as the lengths differ, the quiz serves a question as soon
    as the generator draws an unserved one. *)
Theorem quiz_select_fresh_draw (draws : list nat) (i : nat) (q : Question) :
  length previous <> length selection ->
  In i draws -> choose_random_question i = Ok q -> served q = false ->
  exists q', quiz_select draws = Ok (Found q').
Proof.
  intros Hlen Hi Hc Hs. destruct draws as [|r draws]; [destruct Hi|]. simpl.
  assert (Hne : selection <> []) by (intros He; rewrite choose_empty in Hc; congruence).
  destruct (choose_nonempty r Hne) as (q0 & Hq0). rewrite Hq0. simpl.
  destruct Hi as [<-|Hi].
  - rewrite Hc in Hq0. inv Hq0. eauto using quiz_loop_unserved.
  - eauto using quiz_loop_fresh.
Qed.

End Selector.

(** ** Refinement for well-formed previous lists

    The front end sends the ids of the questions it was served: distinct
    ints, all of them ids of the selection.  For such a list the length
    test of the loop is exactly "every question was served", and the
    handler implements [QuizSpec]. *)
Section WellFormed.

Variable selection : list Question.
Variable prev_ids : list Z.
Hypothesis selection_ids_nodup : NoDup (ids selection).
Hypothesis prev_ids_nodup : NoDup prev_ids.
Hypothesis prev_ids_incl : incl prev_ids (ids selection).

Lemma served_PInt (q : Question) :
  served (map PInt prev_ids) q = true <-> In (q_id q) prev_ids.
Proof.
  unfold served. rewrite existsb_exists. split.
  - intros (p & Hp & Heq). apply in_map_iff in Hp as (z & <- & Hz).
    simpl in Heq. apply Z.eqb_eq in Heq. congruence.
  - intros Hin. exists (PInt (q_id q)). split; [now apply in_map|apply Z.eqb_refl].
Qed.

(** Pigeonhole: distinct ids drawn from the selection's ids are as many
    as the selection exactly when they are all of them. *)
Lemma length_prev_iff_covered :
  length (map PInt prev_ids) = length selection <->
  (forall q, In q selection -> served (map PInt prev_ids) q = true).
Proof.
  rewrite length_map. replace (length selection) with (length (ids selection))
    by apply length_map.
  split.
  - intros Hlen q Hq. apply served_PInt.
    apply (@NoDup_length_incl _ prev_ids (ids selection) prev_ids_nodup);
      [lia | assumption | now apply In_ids].
  - intros Hall. apply Nat.le_antisymm.
    + now apply NoDup_incl_length.
    + apply NoDup_incl_length; [assumption|]. intros z Hz.
      unfold ids in Hz. apply in_map_iff in Hz as (q & <- & Hq).
      now apply served_PInt, Hall.
Qed.

Lemma quiz_select_allowed (draws : list nat) (o : quiz_outcome) :
  quiz_select selection (map PInt prev_ids) draws = Ok o -> o <> NeedMoreDraws ->
  QuizSpec.allowed selection (map PInt prev_ids) o.
Proof.
  intros H Ho. destruct o as [q| |]; simpl; [| |congruence].
  - apply quiz_select_found_unserved in H as [Hin Hs]. now apply remaining_iff.
  - apply quiz_select_exhausted_len in H.
    now apply remaining_nil_iff, length_prev_iff_covered.
Qed.

(** C6: Every answer the handler gives for a well-formed previous list is
    one the contract allows: a question not served yet, or "quiz
    complete" when none is left. *)
Theorem quiz_select_refines (draws : list nat) (o : quiz_outcome) :
  quiz_select selection (map PInt prev_ids) draws = Ok o ->
  o = NeedMoreDraws \/ QuizSpec.allowed selection (map PInt prev_ids) o.
Proof.
  intros H. destruct o as [q| |]; [right|right|now left];
    (apply (quiz_select_allowed draws); [exact H|discriminate]).
Qed.

(** C7: On a non-empty selection and a well-formed previous list, the
    answers some run of the generator gives are exactly the answers of the
    design notes' selector [QuizSpec.pick] for some choice. *)
Theorem quiz_select_pick_equiv (o : quiz_outcome) :
  selection <> [] ->
  ((exists draws, quiz_select selection (map PInt prev_ids) draws = Ok o /\ o <> NeedMoreDraws)
   <-> exists r, QuizSpec.pick selection (map PInt prev_ids) r = o).
Proof.
  intros Hne. split.
  - intros (draws & Hrun & Hno).
    pose proof (quiz_select_allowed draws o Hrun Hno) as Ha.
    destruct o as [q| |]; simpl in Ha; [|exists 0; now apply QuizSpec.pick_exhausted|contradiction].
    now apply QuizSpec.pick_onto.
  - intros (r & <-). destruct (QuizSpec.pick _ _ r) as [q| |] eqn:Hp.
    + apply QuizSpec.pick_found, remaining_iff in Hp as [Hin Hs].
      apply In_nth_error in Hin as (i & Hi).
      exists [i]. simpl. rewrite (choose_onto _ _ _ Hi). simpl.
      split; [now rewrite check_in_previous_served, Hs|discriminate].
    + apply QuizSpec.pick_exhausted in Hp.
      pose proof (proj1 (remaining_nil_iff _ _) Hp) as Hall.
      exists [0; 0]. split; [|discriminate].
      apply quiz_select_covered_eq; [assumption| |assumption].
      now apply length_prev_iff_covered.
    + unfold QuizSpec.pick in Hp. destruct (nth_error _ _); discriminate.
Qed.

End WellFormed.

(** ** Witnesses *)

Lemma quiz_select_sound_witness :
  quiz_select [q12; q13; q14] [PInt 12; PInt 13] [0; 1; 2] = Ok (Found q14) /\
  (In q14 [q12; q13; q14] /\
   existsb (fun p => py_eq_int p (q_id q14)) [PInt 12; PInt 13] = false).
Proof.
  split; [reflexivity|].
  apply (quiz_select_sound [q12; q13; q14] [PInt 12; PInt 13] [0; 1; 2]). reflexivity.
Defined.

Lemma quiz_select_exhausted_witness :
  quiz_select [q12; q13] [PInt 13; PInt 12] [1; 0; 5] = Ok Exhausted.
Proof.
  apply quiz_select_exhausted; [discriminate|reflexivity|].
  intros q Hq. simpl in Hq. destruct Hq as [<-|[<-|[]]]; reflexivity.
Defined.

Lemma quiz_select_diverges_witness :
  quiz_select [q12] [PInt 12; PInt 12] [0; 0; 0; 0; 0] = Ok NeedMoreDraws.
Proof.
  apply quiz_select_diverges; [discriminate|simpl; lia|].
  intros q Hq. simpl in Hq. destruct Hq as [<-|[]]. reflexivity.
Defined.

(** The previous list [12, 12] has the selection's length, so the second
    draw answers "quiz complete" although question 13 was never served. *)
Lemma quiz_select_exhausted_by_length_witness :
  served [PInt 12; PInt 12] q13 = false /\
  quiz_select [q12; q13] [PInt 12; PInt 12] [0; 1] = Ok Exhausted.
Proof.
  split; [reflexivity|].
  apply (quiz_select_exhausted_by_length _ _ 0 1 [] q12); reflexivity.
Defined.

Lemma quiz_select_empty_pool_witness : quiz_select [] [PInt 12] [4; 2] = Raise ValueError.
Proof. apply quiz_select_empty_pool. reflexivity. Defined.

Lemma quiz_select_refines_witness :
  quiz_select [q12; q13; q14] (map PInt [12; 13]%Z) [0; 1; 2] = Ok (Found q14) /\
  (Found q14 = NeedMoreDraws \/
   QuizSpec.allowed [q12; q13; q14] (map PInt [12; 13]%Z) (Found q14)).
Proof.
  split; [reflexivity|].
  apply quiz_select_refines with (draws := [0; 1; 2]).
  - repeat constructor; simpl; lia.
  - repeat constructor; simpl; lia.
  - intros z Hz. simpl in *. lia.
  - reflexivity.
Defined.

Lemma quiz_select_pick_equiv_witness :
  (exists draws, quiz_select [q12; q13; q14] (map PInt [12; 13]%Z) draws = Ok (Found q14)
                 /\ Found q14 <> NeedMoreDraws)
  <-> exists r, QuizSpec.pick [q12; q13; q14] (map PInt [12; 13]%Z) r = Found q14.
Proof.
  apply quiz_select_pick_equiv.
  - repeat constructor; simpl; lia.
  - repeat constructor; simpl; lia.
  - intros z Hz. simpl in *. lia.
  - discriminate.
Defined.

Lemma quiz_select_fresh_draw_witness :
  exists q', quiz_select [q12; q13; q14] [PInt 12; PInt 13] [0; 2] = Ok (Found q').
Proof.
  apply (quiz_select_fresh_draw _ _ [0; 2] 2 q14); simpl; auto; try lia.
Defined.
