(* ===== verification/Search.v ===== *)
(** * The search filter

    [question_search] (src/backend/flaskr/__init__.py, lines 170-192)
    selects the questions with
    [Question.question.ilike(f'%{search_term}%')].  The f-string applies
    Python's [str] to the search term ([py_str]); the store then matches
    the question text against the pattern with PostgreSQL's [ILIKE]:
    [%] matches any run of characters, [_] any one character, a backslash
    makes the next character literal, and letters compare without case
    ([like_match], ASCII case folding).

    The theorems show that for a term free of [%], [_] and backslashes
    the filter is the case-insensitive substring test the spec describes,
    and that a term holding a wildcard matches questions that do not
    contain it. *)

From Stdlib Require Import String Ascii DecimalString.
From Stdlib Require Import List Arith Lia ZArith Bool.
From S2P Require Import Prelude Py Store.
Import ListNotations.
Open Scope trivia_scope.

(** ** Python's [str] *)

(** [str(z)] for an int: its decimal digits, with a minus sign. *)
Definition py_str_int (z : Z) : string := NilEmpty.string_of_int (Z.to_int z).

(** [repr] of a string inside a list or dict: single quotes, with quotes
    and backslashes escaped. *)
Fixpoint repr_chars (s : string) : string :=
  match s with
  | EmptyString => EmptyString
  | String c s' =>
      if (Ascii.eqb c "'"%char || Ascii.eqb c "\"%char)%bool
      then String "\"%char (String c (repr_chars s'))
      else String c (repr_chars s')
  end.

Definition py_repr_str (s : string) : string := ("'" ++ repr_chars s ++ "'")%string.

Fixpoint join (sep : string) (l : list string) : string :=
  match l with
  | [] => EmptyString
  | [x] => x
  | x :: l' => (x ++ sep ++ join sep l')%string
  end.

(** [repr(v)], the form [str] gives the items of a list or dict. *)
Fixpoint py_repr (v : pyval) : string :=
  match v with
  | PNone => "None"
  | PBool b => if b then "True" else "False"
  | PInt z => py_str_int z
  | PStr s => py_repr_str s
  | PList l => ("[" ++ join ", " (map py_repr l) ++ "]")%string
  | PDict kv =>
      ("{" ++ join ", " (map (fun p => py_repr_str (fst p) ++ ": " ++ py_repr (snd p)) kv)
           ++ "}")%string
  end.

(** [str(v)]: a string is itself, everything else its [repr]. *)
Definition py_str (v : pyval) : string :=
  match v with
  | PStr s => s
  | _ => py_repr v
  end.

(** ** [ILIKE] *)

(** ASCII case folding, as [lower()]. *)
Definition lower (c : ascii) : ascii :=
  let n := nat_of_ascii c in
  if ((65 <=? n) && (n <=? 90))%bool then ascii_of_nat (n + 32) else c.

Definition ci_eq (a b : ascii) : bool := Ascii.eqb (lower a) (lower b).

(** [s ILIKE p] on character lists; a pattern ending in a lone escape
    character matches nothing (the handler's patterns end in [%]). *)
Fixpoint like_match (p s : list ascii) : bool :=
  match p with
  | [] => match s with [] => true | _ => false end
  | c :: p' =>
      if Ascii.eqb c "%"%char then
        existsb (fun k => like_match p' (skipn k s)) (seq 0 (S (length s)))
      else if Ascii.eqb c "_"%char then
        match s with [] => false | _ :: s' => like_match p' s' end
      else if Ascii.eqb c "\"%char then
        match p' with
        | [] => false
        | e :: p'' => match s with [] => false | c' :: s' => ci_eq e c' && like_match p'' s' end
        end
      else match s with [] => false | c' :: s' => ci_eq c c' && like_match p' s' end
  end.

(** The pattern [f'%{search_term}%']. *)
Definition search_pattern (search_term : pyval) : list ascii :=
  list_ascii_of_string ("%" ++ py_str search_term ++ "%")%string.

(** [Question.query.filter(Question.question.ilike(pattern)).all()]; a
    NULL question text matches no pattern. *)
Definition ilike_filter (s : db) (search_term : pyval) : list Question :=
  filter (fun q => match q_question q with
                   | Some t => like_match (search_pattern search_term) (list_ascii_of_string t)
                   | None => false
                   end) (questions s).

(** ** Specification: case-insensitive substring *)

Definition special (c : ascii) : bool :=
  (Ascii.eqb c "%"%char || Ascii.eqb c "_"%char || Ascii.eqb c "\"%char)%bool.

Definition ci_substring (t s : list ascii) : Prop :=
  exists pre mid suf, s = pre ++ mid ++ suf /\ map lower mid = map lower t.

(** ** Lemmas *)

Lemma like_pct (p s : list ascii) :
  like_match ("%"%char :: p) s = true <->
  exists k, k <= length s /\ like_match p (skipn k s) = true.
Proof.
  change (like_match ("%"%char :: p) s)
    with (existsb (fun k => like_match p (skipn k s)) (seq 0 (S (length s)))).
  rewrite existsb_exists. split.
  - intros (k & Hk & H). apply in_seq in Hk. exists k. split; [lia|exact H].
  - intros (k & Hk & H). exists k. split; [apply in_seq; lia|exact H].
Qed.

Lemma like_pct_any (s : list ascii) : like_match ["%"%char] s = true.
Proof.
  apply like_pct. exists (length s). split; [lia|]. now rewrite skipn_all.
Qed.

Lemma ci_eq_iff (a b : ascii) : ci_eq a b = true <-> lower a = lower b.
Proof. apply Ascii.eqb_eq. Qed.

(** A literal prefix followed by [%] matches exactly the strings that
    start with the literal, up to case. *)
Lemma like_literal_pct (t s : list ascii) :
  forallb (fun c => negb (special c)) t = true ->
  (like_match (t ++ ["%"%char]) s = true <->
   exists mid suf, s = mid ++ suf /\ map lower mid = map lower t).
Proof.
  revert s. induction t as [|c t IH]; intros s Ht.
  - simpl app. split; [intros _; now exists [], s|intros _; apply like_pct_any].
  - simpl in Ht. apply andb_true_iff in Ht as [Hc Ht].
    unfold special in Hc. simpl app. cbn [like_match].
    destruct (Ascii.eqb c "%"), (Ascii.eqb c "_"), (Ascii.eqb c "\"); try discriminate.
    destruct s as [|c' s'].
    + split; [discriminate|]. intros ([|m mid] & suf & Hs & Hm); discriminate.
    + rewrite andb_true_iff, ci_eq_iff, IH by exact Ht. split.
      * intros [Hl (mid & suf & -> & Hm)]. exists (c' :: mid), suf. simpl. now rewrite Hl, Hm.
      * intros ([|m mid] & suf & Hs & Hm); [discriminate|]. simpl in Hs, Hm.
        inv Hs. injection Hm as Hl Hm. split; [congruence|eauto].
Qed.

Lemma list_ascii_of_string_app (a b : string) :
  list_ascii_of_string (a ++ b) = list_ascii_of_string a ++ list_ascii_of_string b.
Proof. induction a; simpl; congruence. Qed.

Lemma search_pattern_eq (v : pyval) :
  search_pattern v = "%"%char :: list_ascii_of_string (py_str v) ++ ["%"%char].
Proof. unfold search_pattern. simpl. now rewrite list_ascii_of_string_app. Qed.

(** For a search term free of [%], [_] and backslashes, the pattern
    [%term%] matches a text exactly when the term occurs in it up to
    case: the substring search the spec describes. *)
Lemma search_pattern_substring (v : pyval) (s : list ascii) :
  forallb (fun c => negb (special c)) (list_ascii_of_string (py_str v)) = true ->
  (like_match (search_pattern v) s = true <-> ci_substring (list_ascii_of_string (py_str v)) s).
Proof.
  intros Ht. rewrite search_pattern_eq, like_pct. split.
  - intros (k & Hk & Hm). apply like_literal_pct in Hm as (mid & suf & Hs & Hl); [|exact Ht].
    exists (firstn k s), mid, suf. split; [|exact Hl]. now rewrite <- Hs, firstn_skipn.
  - intros (pre & mid & suf & -> & Hl). exists (length pre). split; [rewrite length_app; lia|].
    rewrite skipn_app, skipn_all, Nat.sub_diag. simpl.
    apply like_literal_pct; [exact Ht|eauto].
Qed.

(** ** Properties *)

(** C22: The search term is not escaped: the term [_] is a wildcard and
    selects every question with a non-empty text, although no question
    need contain the character [_]. *)
Theorem search_underscore_matches_all (s : db) (q : Question) (t : string) :
  In q (questions s) -> q_question q = Some t -> t <> EmptyString ->
  In q (ilike_filter s (PStr "_")).
Proof.
  intros Hin Hq Ht. unfold ilike_filter. apply filter_In. split; [exact Hin|].
  rewrite Hq. destruct t as [|c t]; [congruence|].
  apply like_pct. exists 0. split; [lia|]. apply like_pct_any.
Qed.

(** The text of question 12 has no [_], yet the term [_] selects it. *)
Lemma search_underscore_matches_all_witness : In q12 (ilike_filter sample_db (PStr "_")).
Proof.
  apply (search_underscore_matches_all sample_db q12 "Which city hosts the Louvre?");
    [simpl; tauto|reflexivity|discriminate].
Defined.
