(* ===== verification/Pagination.v ===== *)
(** * Pagination

    [paginate_questions] (src/backend/flaskr/__init__.py, lines 9-20)
    formats the selection and slices it with Python's [l[start:end]],
    [start = (page - 1) * QUESTIONS_PER_PAGE].  The page number is the
    query parameter [page] converted by [int], or 1 when it is absent or
    not an int; the model receives that conversion's result as an
    [option Z].  The theorems give the page's size bound, the exact slice
    for pages from 1, the answer on pages 0 and below (which Python's
    negative slice bounds turn into windows counted from the end), and
    the reconstruction of the formatted list from its pages. *)

From Stdlib Require Import String.
From Stdlib Require Import List Arith Lia ZArith Bool.
From S2P Require Import Prelude Py Store.
Import ListNotations.
Open Scope trivia_scope.

(** [QUESTIONS_PER_PAGE = 10]. *)
Definition QUESTIONS_PER_PAGE : Z := 10.

(** [request.args.get('page', 1, type=int)]. *)
Definition page_arg (arg : option Z) : Z :=
  match arg with Some p => p | None => 1%Z end.

Definition paginate_questions (arg : option Z) (selection : list Question) : list pyval :=
  let page := page_arg arg in
  let start := ((page - 1) * QUESTIONS_PER_PAGE)%Z in
  let end_ := (start + QUESTIONS_PER_PAGE)%Z in
  let formatted_questions := map format selection in
  py_slice formatted_questions start end_.

(** The [i]-th page (from 0) of a list, as a reference. *)
Definition page_slice {A : Type} (l : list A) (i : nat) : list A :=
  firstn 10 (skipn (10 * i) l).

(** ** Lemmas *)

Lemma paginate_default (selection : list Question) :
  paginate_questions None selection = paginate_questions (Some 1%Z) selection.
Proof. reflexivity. Qed.

(** For pages from 1 the slice bounds are non-negative: a plain window. *)
Lemma paginate_pos_window (p : Z) (selection : list Question) :
  (1 <= p)%Z ->
  paginate_questions (Some p) selection =
  firstn 10 (skipn (10 * Z.to_nat (p - 1)) (map format selection)).
Proof.
  intros Hp. unfold paginate_questions, QUESTIONS_PER_PAGE. simpl page_arg.
  rewrite py_slice_nonneg by lia. f_equal; [lia|]. f_equal. lia.
Qed.

Lemma page_slice_concat {A : Type} (l : list A) (j k : nat) :
  concat (map (page_slice l) (seq j k)) = firstn (10 * k) (skipn (10 * j) l).
Proof.
  revert j. induction k as [|k IH]; intros j; [reflexivity|].
  simpl seq. simpl map. simpl concat. rewrite IH.
  replace (10 * S k) with (10 + 10 * k) by lia.
  rewrite firstn_add_split, skipn_skipn. unfold page_slice.
  do 2 f_equal. f_equal. lia.
Qed.

(** ** Properties *)

(** C17: A page never holds more than [QUESTIONS_PER_PAGE] questions,
    whatever the page number. *)
Theorem paginate_length (arg : option Z) (selection : list Question) :
  length (paginate_questions arg selection) <= 10.
Proof.
  unfold paginate_questions, py_slice. set (n := Z.of_nat (length (map format selection))).
  rewrite length_firstn.
  assert (Hn : (0 <= n)%Z) by lia.
  unfold slice_bound. unfold QUESTIONS_PER_PAGE.
  destruct (Z.ltb_spec ((page_arg arg - 1) * 10) 0),
           (Z.ltb_spec ((page_arg arg - 1) * 10 + 10) 0); lia.
Qed.

(** C18: For a page number [p >= 1], the page is the formatted slice of
    the selection from position [(p - 1) * 10], ten long or up to the
    end. *)
Theorem paginate_pos (p : Z) (selection : list Question) :
  (1 <= p)%Z ->
  paginate_questions (Some p) selection = map format (page_slice selection (Z.to_nat (p - 1))).
Proof.
  intros Hp. rewrite paginate_pos_window by exact Hp. unfold page_slice.
  now rewrite <- firstn_map, <- skipn_map.
Qed.

(** A page from 1 on is empty exactly when it starts at or beyond the end
    of the selection. *)
Lemma paginate_empty_iff (p : Z) (selection : list Question) :
  (1 <= p)%Z ->
  (paginate_questions (Some p) selection = [] <-> (Z.of_nat (length selection) <= (p - 1) * 10)%Z).
Proof.
  intros Hp. rewrite paginate_pos_window by exact Hp.
  rewrite firstn_skipn_nil_iff, length_map by lia. lia.
Qed.

(** C19: Page numbers 0 and below are not refused: page 0 is empty, but a
    negative page [p] is a window counted from the end of the list, and it
    is non-empty as soon as the selection has more than [-10 * p]
    questions. *)
Theorem paginate_nonpos_empty_iff (p : Z) (selection : list Question) :
  (p <= 0)%Z ->
  (paginate_questions (Some p) selection = [] <->
   (p = 0 \/ Z.of_nat (length selection) <= -10 * p)%Z).
Proof.
  intros Hp. unfold paginate_questions, QUESTIONS_PER_PAGE. simpl page_arg.
  rewrite py_slice_nil_iff, length_map. unfold slice_bound.
  destruct (Z.ltb_spec ((p - 1) * 10) 0), (Z.ltb_spec ((p - 1) * 10 + 10) 0); lia.
Qed.

(** C20: Pages 1 to [k] together give back the whole formatted selection,
    in order, once [10 * k] covers it. *)
Theorem paginate_pages (selection : list Question) (k : nat) :
  length selection <= 10 * k ->
  concat (map (fun i => paginate_questions (Some (Z.of_nat i)) selection) (seq 1 k)) =
  map format selection.
Proof.
  intros Hk. rewrite <- seq_shift, map_map.
  rewrite (map_ext (fun i => paginate_questions (Some (Z.of_nat (S i))) selection)
                   (fun i => map format (page_slice selection i))).
  - rewrite <- map_map, <- concat_map, page_slice_concat. simpl skipn.
    now rewrite firstn_all2.
  - intros i. rewrite paginate_pos by lia. do 2 f_equal. lia.
Qed.

(** ** Witnesses *)

Lemma paginate_pos_witness :
  paginate_questions (Some 2%Z) (sample_table 12) =
  map format (page_slice (sample_table 12) 1).
Proof. apply paginate_pos. lia. Defined.

(** [GET /questions?page=-1] on fifteen questions serves five of them. *)
Lemma paginate_nonpos_empty_iff_witness :
  paginate_questions (Some (-1)%Z) (sample_table 15) <> [].
Proof.
  intros H. apply (paginate_nonpos_empty_iff (-1) (sample_table 15)) in H; [|lia].
  simpl in H. lia.
Defined.

Lemma paginate_pages_witness :
  concat (map (fun i => paginate_questions (Some (Z.of_nat i)) (sample_table 12)) (seq 1 2)) =
  map format (sample_table 12).
Proof. apply paginate_pages. simpl. lia. Defined.
