(* ===== verification/Handlers.v ===== *)
(** * The request handlers and the error handlers

    Each route of [create_app] (src/backend/flaskr/__init__.py, lines
    45-291) is a function of the store, the request and, for the quiz, the
    generator's draws.  A handler that writes the store returns the store
    after the request with its result: [question.delete()] and
    [question.insert()] commit, so the store keeps their effect whatever
    happens after them.  [respond] is Flask's dispatch of an escaped
    exception: an [HTTPException] goes to the error handler registered for
    its code (lines 299-337), any other exception to the 500 handler.

    The response is the status with the value passed to [jsonify] (a dict
    with the keys in the handler's order); [jsonify] itself, which writes
    the int keys of the categories dict as strings, is left out by keying
    that dict with [str(id)] from the start. *)

From Stdlib Require Import String Ascii DecimalString DecimalZ.
From Stdlib Require Import List Arith Lia ZArith Bool Sorted Permutation.
From S2P Require Import Prelude Py Store Pagination Quiz Search.
Import ListNotations.
Open Scope trivia_scope.

(** ** Requests and responses *)

Record request := mkRequest {
  page : option Z;     (** [request.args.get('page', 1, type=int)] before the default *)
  json_body : pyval    (** [request.get_json()] *)
}.

Record response := mkResponse {
  status : Z;
  body : pyval
}.

(** [jsonify({...})] with status 200. *)
Definition jsonify (kv : list (string * pyval)) : response := mkResponse 200 (PDict kv).

(** ** Error handlers *)

Definition error_envelope (code : Z) (message : string) : response :=
  mkResponse code (PDict [("success"%string, PBool false); ("error"%string, PInt code);
                          ("message"%string, PStr message)]).

Definition bad_request : response := error_envelope 400 "bad request".
Definition not_found : response := error_envelope 404 "resource not found".
Definition method_not_allowed : response := error_envelope 405 "method not allowed".
Definition not_processed : response := error_envelope 422 "unprocessable entity".
Definition internal_server_error : response := error_envelope 500 "internal server error".

(** The handler Flask runs for an exception that leaves a view; an
    [HTTPException] of a code without a registered handler gets
    werkzeug's HTML page, which has no JSON body. *)
Definition handle_exception (e : exn) : response :=
  match e with
  | HTTPException 400 => bad_request
  | HTTPException 404 => not_found
  | HTTPException 405 => method_not_allowed
  | HTTPException 422 => not_processed
  | HTTPException 500 => internal_server_error
  | HTTPException c => mkResponse c PNone
  | _ => internal_server_error
  end.

Definition respond (r : result response) : response :=
  match r with
  | Ok x => x
  | Raise e => handle_exception e
  end.

(** ** The categories dict *)

(** [d[k] = v] on a dict: replace the value of a present key in place,
    append a new key. *)
Fixpoint dict_set (k : string) (v : pyval) (d : list (string * pyval)) : list (string * pyval) :=
  match d with
  | [] => [(k, v)]
  | (k', v') :: d' => if String.eqb k k' then (k, v) :: d' else (k', v') :: dict_set k v d'
  end.

(** [{category.id: category.type for category in categories}]. *)
Definition formatted_categories (cats : list Category) : list (string * pyval) :=
  fold_left (fun d c => dict_set (py_str_int (c_id c)) (text_val (c_type c)) d) cats [].

Definition success_true : string * pyval := ("success"%string, PBool true).

(** ** Sample requests and stores, used by the witnesses *)

Definition sample_categories : list Category :=
  [mkCategory 1 (Some "Science"%string); mkCategory 3 (Some "Geography"%string)].

Definition quiz_db : db := mkDB [q12; q13; q14] sample_categories 15.

Definition body_request (kv : list (string * pyval)) : request := mkRequest None (PDict kv).

Definition create_body : list (string * pyval) :=
  [("question"%string, PStr "Why is the sky blue?"); ("answer"%string, PStr "Scattering");
   ("category"%string, PInt 1); ("difficulty"%string, PInt 4)].

Definition quiz_body : list (string * pyval) :=
  [("previous_questions"%string, PList [PInt 12; PInt 13]);
   ("quiz_category"%string, PDict [("type"%string, PStr "Geography"); ("id"%string, PInt 3)])].

(** ** Routes *)

Module Routes.

(** [GET /categories]. *)
Definition categories (s : db) : result response :=
  let cats := Store.categories s in
  let fc := formatted_categories cats in
  if Nat.eqb (length cats) 0 then abort 404
  else Ok (jsonify [success_true; ("categories"%string, PDict fc);
                    ("total_categories"%string, PInt (Z.of_nat (length cats)))]).

(** [GET /questions?page=N]. *)
Definition all_questions (s : db) (req : request) : result response :=
  let selection := order_by_id s in
  let current_questions := paginate_questions (page req) selection in
  let total_questions := length selection in
  let fc := formatted_categories (Store.categories s) in
  if Nat.eqb (length current_questions) 0 then abort 404
  else Ok (jsonify [("questions"%string, PList current_questions);
                    ("total_questions"%string, PInt (Z.of_nat total_questions));
                    ("categories"%string, PDict fc);
                    ("current_category"%string, PNone);
                    success_true]).

(** [DELETE /questions/<int:question_id>]: the [abort(404)] is raised
    inside the [try], so the bare [except] turns it into a 422. *)
Definition delete_question (s : db) (req : request) (question_id : Z) : db * result response :=
  let attempt :=
    match find_by_id s question_id with
    | Raise e => (s, Raise e)
    | Ok None => (s, abort 404)
    | Ok (Some question) =>
        let s' := delete s question in
        let selection := order_by_id s' in
        let _current_questions := paginate_questions (page req) selection in
        let total_questions := length selection in
        (s', Ok (jsonify [success_true; ("deleted"%string, PInt question_id);
                          ("total_questions"%string, PInt (Z.of_nat total_questions))]))
    end in
  (fst attempt, try_except (snd attempt) (fun _ => abort 422)).

(** [POST /questions]: the body is read outside the [try]. *)
Definition create_question (s : db) (req : request) : db * result response :=
  let body := json_body req in
  match py_get body "question", py_get body "answer",
        py_get body "difficulty", py_get body "category" with
  | Ok new_question, Ok new_answer, Ok difficulty, Ok category =>
      match insert s new_question new_answer difficulty category with
      | Ok (s', question) =>
          let selection := order_by_id s' in
          let current_questions := paginate_questions (page req) selection in
          let total_questions := length selection in
          (s', Ok (jsonify [success_true; ("created"%string, PInt (q_id question));
                            ("questions"%string, PList current_questions);
                            ("total_questions"%string, PInt (Z.of_nat total_questions))]))
      | Raise _ => (s, abort 422)
      end
  | Raise e, _, _, _ | _, Raise e, _, _ | _, _, Raise e, _ | _, _, _, Raise e => (s, Raise e)
  end.

(** [POST /questions/search]: the [abort(404)] for a missing or empty
    term is raised inside the [try] and becomes a 422. *)
Definition question_search (s : db) (req : request) : result response :=
  let body := json_body req in
  search_term <- py_get body "searchTerm" ;;
  try_except
    (if py_truthy search_term then
       let selection := ilike_filter s search_term in
       let formatted_questions := map format selection in
       let total_questions := length selection in
       Ok (jsonify [("questions"%string, PList formatted_questions);
                    ("total_questions"%string, PInt (Z.of_nat total_questions));
                    ("current_category"%string, PNone);
                    success_true])
     else abort 404)
    (fun _ => abort 422).

(** [GET /categories/<int:category_id>/questions]. *)
Definition question_sieve (s : db) (req : request) (category_id : Z) : result response :=
  try_except
    (selection <- filter_category s (PInt category_id) ;;
     let current_questions := paginate_questions (page req) selection in
     let total_questions := length selection in
     if Nat.eqb (length current_questions) 0 then abort 404
     else Ok (jsonify [("questions"%string, PList current_questions);
                       ("total_questions"%string, PInt (Z.of_nat total_questions));
                       ("current_category"%string, PInt category_id);
                       success_true]))
    (fun _ => abort 404).

(** The two answers of [POST /quizzes]; [None] while the loop still runs. *)
Definition quiz_response (o : quiz_outcome) : option response :=
  match o with
  | Found q => Some (jsonify [success_true; ("question"%string, format q)])
  | Exhausted => Some (jsonify [success_true])
  | NeedMoreDraws => None
  end.

(** [POST /quizzes] with the generator's draws.  The first
    [check_in_previous] iterates [previous_questions] after the first
    draw, so a non-iterable list raises only then. *)
Definition question_generator (s : db) (req : request) (draws : list nat)
  : result (option response) :=
  let body := json_body req in
  category <- py_get body "quiz_category" ;;
  previous_questions <- py_get body "previous_questions" ;;
  if py_is_none category then abort 400 else
  if py_is_none previous_questions then abort 400 else
  cid <- py_subscript category "id" ;;
  selection <- (if py_eq_int cid 0 then Ok (order_by_id s) else filter_category s cid) ;;
  match draws with
  | [] => Ok None
  | r :: draws' =>
      question <- choose_random_question selection r ;;
      previous <- py_iter previous_questions ;;
      outcome <- quiz_loop selection previous draws' question ;;
      Ok (quiz_response outcome)
  end.

End Routes.

(** ** Properties of the handlers *)

(** C23: Deleting an id no question has answers 422 "unprocessable
    entity", not the 404 the spec lists: the [abort(404)] is caught by the
    bare [except]; the store is unchanged. *)
Theorem delete_missing_unprocessable (s : db) (req : request) (i : Z) :
  find_by_id s i = Ok None ->
  fst (Routes.delete_question s req i) = s /\
  respond (snd (Routes.delete_question s req i)) = not_processed.
Proof. intros H. unfold Routes.delete_question. now rewrite H. Qed.

(** Deleting an existing question removes it and reports its id and
    the number of questions left. *)
Theorem delete_existing (s : db) (req : request) (i : Z) (q : Question) :
  db_wf s -> find_by_id s i = Ok (Some q) ->
  Routes.delete_question s req i =
  (delete s q, Ok (jsonify [success_true; ("deleted"%string, PInt i);
                            ("total_questions"%string,
                             PInt (Z.of_nat (length (questions s) - 1)))])).
Proof.
  intros Hwf Hf. pose proof (find_by_id_In _ _ _ Hf) as [Hin _].
  unfold Routes.delete_question. rewrite Hf. cbn [fst snd try_except].
  now rewrite order_by_id_length, delete_length.
Qed.

(** C24: A successful creation keeps the store well formed and answers
    with [created] equal to the new id, which no earlier question had and
    which a lookup now finds. *)
Theorem create_question_created (s s' : db) (req : request) (r : response) :
  db_wf s -> Routes.create_question s req = (s', Ok r) ->
  db_wf s' /\ py_subscript (body r) "created" = Ok (PInt (next_id s)) /\
  ~ In (next_id s) (ids (questions s)) /\ exists row, find_by_id s' (next_id s) = Ok (Some row).
Proof.
  intros Hwf. unfold Routes.create_question.
  destruct (py_get (json_body req) "question") as [nq|],
           (py_get (json_body req) "answer") as [na|],
           (py_get (json_body req) "difficulty") as [df|],
           (py_get (json_body req) "category") as [ct|]; try discriminate.
  destruct (insert s nq na df ct) as [[s1 row]|] eqn:Hi; [|discriminate].
  intros H. inv H. apply insert_Ok_inv in Hi as [-> Hid].
  pose proof (wf_append_fresh s row Hwf Hid) as Hwf'.
  assert (Hfind : find_by_id (mkDB (questions s ++ [row]) (categories s) (next_id s + 1))
                             (q_id row) = Ok (Some row))
    by (apply find_by_id_wf; [exact Hwf'|simpl; apply in_or_app; right; now left]).
  rewrite Hid in *. split; [exact Hwf'|]. split; [reflexivity|].
  split; [now apply fresh_not_in|eauto].
Qed.

(** C25: A failed creation leaves the store as it was, and fails with 422
    when the body is a dict whose fields the store refuses, or with an
    [AttributeError] (a 500) when the body is not a dict. *)
Theorem create_question_failure (s : db) (req : request) (e : exn) :
  snd (Routes.create_question s req) = Raise e ->
  fst (Routes.create_question s req) = s /\ (e = HTTPException 422 \/ e = AttributeError).
Proof.
  unfold Routes.create_question, py_get.
  destruct (json_body req); simpl; intros H; inv H; auto.
  destruct (insert s _ _ _ _) as [[s1 row]|]; simpl in *; [discriminate|]. inv H1. auto.
Qed.

(** C26: A missing, null or empty search term answers 422 "unprocessable
    entity", not the 404 the spec lists: the [abort(404)] is raised inside
    the [try]. *)
Theorem search_missing_term_unprocessable (s : db) (req : request) (v : pyval) :
  py_get (json_body req) "searchTerm" = Ok v -> py_truthy v = false ->
  respond (Routes.question_search s req) = not_processed.
Proof. intros Hv Ht. unfold Routes.question_search. rewrite Hv. simpl. now rewrite Ht. Qed.

Lemma ilike_filter_iff (s : db) (v : pyval) (q : Question) :
  forallb (fun c => negb (special c)) (list_ascii_of_string (py_str v)) = true ->
  (In q (ilike_filter s v) <->
   In q (questions s) /\ exists t, q_question q = Some t /\
     ci_substring (list_ascii_of_string (py_str v)) (list_ascii_of_string t)).
Proof.
  intros Hlit. unfold ilike_filter. rewrite filter_In.
  destruct (q_question q) as [t|].
  - rewrite search_pattern_substring by exact Hlit. split.
    + intros [Hin Hm]. eauto.
    + intros [Hin (t' & Ht & Hm)]. inv Ht. auto.
  - split; [intros [_ H]; discriminate|intros [_ (t & Ht & _)]; discriminate].
Qed.

(** C27: For a term free of wildcards, the search answers with the
    questions whose text contains the term up to case, and their count;
    a term no question contains gives an empty list and a count of 0, not
    an error. *)
Theorem search_literal_term (s : db) (req : request) (v : pyval) :
  py_get (json_body req) "searchTerm" = Ok v -> py_truthy v = true ->
  forallb (fun c => negb (special c)) (list_ascii_of_string (py_str v)) = true ->
  exists sel,
    Routes.question_search s req =
      Ok (jsonify [("questions"%string, PList (map format sel));
                   ("total_questions"%string, PInt (Z.of_nat (length sel)));
                   ("current_category"%string, PNone); success_true]) /\
    (forall q, In q sel <-> In q (questions s) /\ exists t, q_question q = Some t /\
                 ci_substring (list_ascii_of_string (py_str v)) (list_ascii_of_string t)).
Proof.
  intros Hv Ht Hlit. exists (ilike_filter s v). split.
  - unfold Routes.question_search. rewrite Hv. simpl. now rewrite Ht.
  - intros q. now apply ilike_filter_iff.
Qed.

(** C28: A quiz request whose [quiz_category] or [previous_questions] is
    missing or null answers 400 "bad request", before any draw. *)
Theorem quiz_missing_field_bad_request (s : db) (req : request) (kv : list (string * pyval))
  (draws : list nat) :
  json_body req = PDict kv ->
  (py_get (PDict kv) "quiz_category" = Ok PNone \/
   py_get (PDict kv) "previous_questions" = Ok PNone) ->
  Routes.question_generator s req draws = Raise (HTTPException 400).
Proof.
  intros Hb H. unfold Routes.question_generator. rewrite Hb. unfold py_get in *. cbn [bind].
  destruct H as [H|H]; injection H as H; rewrite H; [reflexivity|].
  now destruct (py_is_none _).
Qed.

Lemma quiz_response_question (o : quiz_outcome) (r : response) (v : pyval) :
  Routes.quiz_response o = Some r -> py_subscript (body r) "question" = Ok v ->
  exists q, o = Found q /\ v = format q.
Proof. destruct o; simpl; intros H; inv H; simpl; intros H; inv H; eauto. Qed.

(** C29: When the quiz answers with a question for a category id [c <> 0],
    the question is a question of the store of category [c], and no value
    of [previous_questions] equals its id (the test suite's
    [test_select_category_to_generate_]). *)
Theorem quiz_question_in_category (s : db) (req : request) (kv : list (string * pyval))
  (cat pv : pyval) (c : Z) (prev : list pyval) (draws : list nat) (r : response) (v : pyval) :
  json_body req = PDict kv ->
  py_get (PDict kv) "quiz_category" = Ok cat -> py_subscript cat "id" = Ok (PInt c) -> c <> 0%Z ->
  py_get (PDict kv) "previous_questions" = Ok pv -> py_iter pv = Ok prev ->
  Routes.question_generator s req draws = Ok (Some r) ->
  py_subscript (body r) "question" = Ok v ->
  exists q, v = format q /\ In q (questions s) /\ q_category q = Some c /\ served prev q = false.
Proof.
  intros Hb Hcat Hid Hc Hpv Hit Hrun Hq.
  unfold Routes.question_generator in Hrun. rewrite Hb, Hcat, Hpv in Hrun. cbn [bind] in Hrun.
  assert (Hcn : py_is_none cat = false) by (destruct cat; simpl in *; congruence).
  assert (Hpn : py_is_none pv = false) by (destruct pv; simpl in *; congruence).
  rewrite Hcn, Hpn, Hid in Hrun. cbn [bind py_eq_int] in Hrun.
  apply Z.eqb_neq in Hc. rewrite Hc in Hrun.
  destruct (filter_category s (PInt c)) as [sel|] eqn:Hsel; [|discriminate]. cbn [bind] in Hrun.
  destruct draws as [|r0 ds]; [discriminate|].
  destruct (choose_random_question sel r0) as [q0|] eqn:Hch; [|discriminate].
  cbn [bind] in Hrun. rewrite Hit in Hrun. cbn [bind] in Hrun.
  destruct (quiz_loop sel prev ds q0) as [o|] eqn:Hl; [|discriminate]. inv Hrun.
  destruct (quiz_response_question _ _ _ H0 Hq) as (q & -> & ->).
  apply quiz_loop_found in Hl as [Hin Hs]; [|eauto using choose_In].
  apply (filter_category_In _ _ _ _ Hsel) in Hin as [Hin Hcq]. eauto.
Qed.

Lemma py_str_int_inj (a b : Z) : py_str_int a = py_str_int b -> a = b.
Proof.
  unfold py_str_int. intros H. apply (f_equal NilEmpty.int_of_string) in H.
  rewrite !NilEmpty.isi in H. injection H as H. now apply DecimalZ.to_int_inj.
Qed.

Lemma dict_set_fresh (k : string) (v : pyval) (d : list (string * pyval)) :
  ~ In k (map fst d) -> dict_set k v d = d ++ [(k, v)].
Proof.
  induction d as [|[k' v'] d IH]; simpl; [reflexivity|]. intros Hn.
  destruct (String.eqb_spec k k'); [subst; tauto|]. f_equal. auto.
Qed.

Lemma fold_categories_fresh (cats : list Category) (d : list (string * pyval)) :
  NoDup (map c_id cats) ->
  (forall c, In c cats -> ~ In (py_str_int (c_id c)) (map fst d)) ->
  fold_left (fun d c => dict_set (py_str_int (c_id c)) (text_val (c_type c)) d) cats d =
  d ++ map (fun c => (py_str_int (c_id c), text_val (c_type c))) cats.
Proof.
  revert d. induction cats as [|c cats IH]; intros d Hnd Hfresh; simpl; [now rewrite app_nil_r|].
  inversion Hnd as [|? ? Hnin Hnd']; subst.
  rewrite dict_set_fresh by (apply Hfresh; now left).
  rewrite IH; [now rewrite <- app_assoc|assumption|].
  intros c' Hc'. rewrite map_app. simpl. intros Hin. apply in_app_or in Hin as [Hin|[Heq|[]]].
  - apply (Hfresh c'); [now right|exact Hin].
  - apply py_str_int_inj in Heq. apply Hnin. rewrite Heq. now apply in_map.
Qed.

(** With distinct category ids, the comprehension has one entry per
    category, in order, mapping [str(id)] to its type. *)
Lemma formatted_categories_distinct (cats : list Category) :
  NoDup (map c_id cats) ->
  formatted_categories cats = map (fun c => (py_str_int (c_id c), text_val (c_type c))) cats.
Proof. intros Hnd. unfold formatted_categories. now rewrite fold_categories_fresh. Qed.

(** C30: [GET /questions?page=p] for [p >= 1] answers 404 exactly when the
    page starts at or beyond the number of questions (the test suite's
    [page=1000]). *)
Theorem all_questions_not_found_iff (s : db) (req : request) (p : Z) :
  (1 <= p)%Z -> page req = Some p ->
  (Routes.all_questions s req = Raise (HTTPException 404) <->
   (Z.of_nat (length (questions s)) <= (p - 1) * 10)%Z).
Proof.
  intros Hp Hpage. unfold Routes.all_questions. rewrite Hpage.
  rewrite <- order_by_id_length, <- (paginate_empty_iff p (order_by_id s) Hp).
  destruct (paginate_questions (Some p) (order_by_id s)); simpl; split; intros H;
    reflexivity || discriminate H.
Qed.

(** [GET /categories/c/questions?page=p] for [p >= 1] answers 404
    exactly when the page starts at or beyond the number of questions of
    category [c]; a category without questions is always a 404 (the test
    suite's category 8). *)
Lemma question_sieve_not_found_iff (s : db) (req : request) (c p : Z) :
  (1 <= p)%Z -> page req = Some p ->
  (Routes.question_sieve s req c = Raise (HTTPException 404) <->
   (Z.of_nat (length (filter (fun q => match q_category q with
                                       | Some c' => Z.eqb c' c
                                       | None => false
                                       end) (questions s))) <= (p - 1) * 10)%Z).
Proof.
  intros Hp Hpage. unfold Routes.question_sieve. rewrite Hpage. cbn [filter_category bind].
  rewrite <- (paginate_empty_iff p _ Hp).
  destruct (paginate_questions (Some p) _); simpl; split; intros H;
    reflexivity || discriminate H.
Qed.

(** [GET /categories] answers 404 when there is no category, and
    otherwise the dict of every category's id and type with their count. *)
Lemma categories_route (s : db) :
  NoDup (map c_id (Store.categories s)) ->
  (Store.categories s = [] /\ Routes.categories s = Raise (HTTPException 404)) \/
  (Store.categories s <> [] /\
   Routes.categories s =
     Ok (jsonify [success_true;
                  ("categories"%string,
                   PDict (map (fun c => (py_str_int (c_id c), text_val (c_type c)))
                              (Store.categories s)));
                  ("total_categories"%string, PInt (Z.of_nat (length (Store.categories s))))])).
Proof.
  intros Hnd. unfold Routes.categories. rewrite formatted_categories_distinct by exact Hnd.
  destruct (Store.categories s) as [|c cats]; [left|right]; split; easy.
Qed.

(** ** Witnesses *)

Lemma delete_missing_unprocessable_witness :
  fst (Routes.delete_question sample_db (mkRequest None PNone) 1000) = sample_db /\
  respond (snd (Routes.delete_question sample_db (mkRequest None PNone) 1000)) = not_processed.
Proof. apply delete_missing_unprocessable. reflexivity. Defined.

Lemma delete_existing_witness :
  Routes.delete_question sample_db (mkRequest None PNone) 12 =
  (delete sample_db q12,
   Ok (jsonify [success_true; ("deleted"%string, PInt 12);
                ("total_questions"%string, PInt (Z.of_nat (length (questions sample_db) - 1)))])).
Proof.
  apply delete_existing; [split; simpl; repeat constructor; simpl; lia|reflexivity].
Defined.

Lemma create_question_created_witness :
  exists s' r, Routes.create_question sample_db (body_request create_body) = (s', Ok r) /\
  (db_wf s' /\ py_subscript (body r) "created" = Ok (PInt (next_id sample_db)) /\
   ~ In (next_id sample_db) (ids (questions sample_db)) /\
   exists row, find_by_id s' (next_id sample_db) = Ok (Some row)).
Proof.
  do 2 eexists. split; [reflexivity|].
  apply (create_question_created sample_db _ (body_request create_body));
    [split; simpl; repeat constructor; simpl; lia|reflexivity].
Defined.

(** A difficulty sent as a string is refused by the integer column. *)
Lemma create_question_failure_witness :
  fst (Routes.create_question sample_db
         (body_request [("difficulty"%string, PStr "four")])) = sample_db /\
  (HTTPException 422 = HTTPException 422 \/ HTTPException 422 = AttributeError).
Proof.
  apply (create_question_failure sample_db (body_request [("difficulty"%string, PStr "four")])).
  reflexivity.
Defined.

Lemma search_missing_term_unprocessable_witness :
  respond (Routes.question_search sample_db (body_request [])) = not_processed.
Proof. apply (search_missing_term_unprocessable _ _ PNone); reflexivity. Defined.

Lemma search_literal_term_witness :
  exists sel,
    Routes.question_search sample_db (body_request [("searchTerm"%string, PStr "hippy hitman")]) =
      Ok (jsonify [("questions"%string, PList (map format sel));
                   ("total_questions"%string, PInt (Z.of_nat (length sel)));
                   ("current_category"%string, PNone); success_true]) /\
    (forall q, In q sel <-> In q (questions sample_db) /\ exists t, q_question q = Some t /\
                 ci_substring (list_ascii_of_string (py_str (PStr "hippy hitman")))
                              (list_ascii_of_string t)).
Proof. apply search_literal_term; reflexivity. Defined.

Lemma quiz_missing_field_bad_request_witness :
  Routes.question_generator quiz_db
    (body_request [("quiz_category"%string, PDict [("id"%string, PInt 3)])]) [0; 1] =
  Raise (HTTPException 400).
Proof. eapply quiz_missing_field_bad_request; [reflexivity|right; reflexivity]. Defined.

Lemma quiz_question_in_category_witness :
  exists r v, Routes.question_generator quiz_db (body_request quiz_body) [0; 1; 2] = Ok (Some r) /\
  py_subscript (body r) "question" = Ok v /\
  (exists q, v = format q /\ In q (questions quiz_db) /\ q_category q = Some 3%Z /\
             served [PInt 12; PInt 13] q = false).
Proof.
  do 2 eexists. split; [reflexivity|]. split; [reflexivity|].
  apply (quiz_question_in_category quiz_db (body_request quiz_body) quiz_body
           (PDict [("type"%string, PStr "Geography"); ("id"%string, PInt 3)])
           (PList [PInt 12; PInt 13]) 3 [PInt 12; PInt 13] [0; 1; 2]
           (jsonify [success_true; ("question"%string, format q14)]));
    reflexivity || discriminate.
Defined.

Lemma all_questions_not_found_iff_witness :
  Routes.all_questions (mkDB (sample_table 12) [] 13) (mkRequest (Some 3%Z) PNone) =
  Raise (HTTPException 404).
Proof.
  apply (proj2 (all_questions_not_found_iff (mkDB (sample_table 12) [] 13)
                 (mkRequest (Some 3%Z) PNone) 3 ltac:(lia) eq_refl)).
  simpl. lia.
Defined.

