(* ===== verification/App.v ===== *)
(** * The application: routing and dispatch

    The [@app.route] decorators of [create_app]
    (src/backend/flaskr/__init__.py, lines 45-238) form the URL map:
    a path either matches no rule (werkzeug raises [NotFound], answered by
    the 404 handler), or matches a rule whose methods do not include the
    request's (werkzeug raises [MethodNotAllowed], answered by the 405
    handler), or reaches the view.  [<int:...>] segments are ASCII digit
    strings read as a non-negative int.  [dispatch] runs the whole
    application for one request: the store after it and the response,
    [None] when the quiz loop has not answered within the given draws.
    HEAD and OPTIONS, which Flask adds to every rule, are left out. *)

From Stdlib Require Import String Ascii Decimal DecimalString DecimalPos.
From Stdlib Require Import List Arith Lia ZArith Bool.
From S2P Require Import Prelude Py Store Pagination Quiz Search Handlers.
Import ListNotations.
Open Scope trivia_scope.

Inductive method : Type := GET | POST | DELETE | PUT | PATCH.

Definition method_eqb (a b : method) : bool :=
  match a, b with
  | GET, GET | POST, POST | DELETE, DELETE | PUT, PUT | PATCH, PATCH => true
  | _, _ => false
  end.

(** ** The URL map *)

(** The rules, by the view they lead to, with the values of their
    [<int:...>] segments. *)
Inductive endpoint : Type :=
| EpCategories                    (** '/categories' *)
| EpQuestions                     (** '/questions' *)
| EpQuestion (question_id : Z)    (** '/questions/<int:question_id>' *)
| EpSearch                        (** '/questions/search' *)
| EpCategoryQuestions (category_id : Z)  (** '/categories/<int:category_id>/questions' *)
| EpQuizzes.                      (** '/quizzes' *)

Definition digit_value (c : ascii) : option Z :=
  let n := nat_of_ascii c in
  if ((48 <=? n) && (n <=? 57))%bool then Some (Z.of_nat (n - 48)) else None.

Fixpoint digits_value (s : string) (acc : Z) : option Z :=
  match s with
  | EmptyString => Some acc
  | String c s' =>
      match digit_value c with
      | Some d => digits_value s' (acc * 10 + d)%Z
      | None => None
      end
  end.

(** werkzeug's [IntegerConverter]: one or more digits. *)
Definition int_segment (seg : string) : option Z :=
  match seg with
  | EmptyString => None
  | _ => digits_value seg 0
  end.

(** The rule a path (its segments) matches. *)
Definition match_path (path : list string) : option endpoint :=
  match path with
  | [a] =>
      if String.eqb a "categories" then Some EpCategories
      else if String.eqb a "questions" then Some EpQuestions
      else if String.eqb a "quizzes" then Some EpQuizzes
      else None
  | [a; b] =>
      if String.eqb a "questions" then
        if String.eqb b "search" then Some EpSearch
        else option_map EpQuestion (int_segment b)
      else None
  | [a; b; c] =>
      if (String.eqb a "categories" && String.eqb c "questions")%bool
      then option_map EpCategoryQuestions (int_segment b)
      else None
  | _ => None
  end.

(** The [methods] of each rule ([GET] when the decorator names none). *)
Definition allowed_methods (ep : endpoint) : list method :=
  match ep with
  | EpCategories => [GET]
  | EpQuestions => [GET; POST]
  | EpQuestion _ => [DELETE]
  | EpSearch => [POST]
  | EpCategoryQuestions _ => [GET]
  | EpQuizzes => [POST]
  end.

(** ** Dispatch *)

(** The view of a rule for a method it allows. *)
Definition view (s : db) (ep : endpoint) (m : method) (req : request) (draws : list nat)
  : db * option response :=
  match ep, m with
  | EpCategories, _ => (s, Some (respond (Routes.categories s)))
  | EpQuestions, GET => (s, Some (respond (Routes.all_questions s req)))
  | EpQuestions, _ =>
      let (s', r) := Routes.create_question s req in (s', Some (respond r))
  | EpQuestion i, _ =>
      let (s', r) := Routes.delete_question s req i in (s', Some (respond r))
  | EpSearch, _ => (s, Some (respond (Routes.question_search s req)))
  | EpCategoryQuestions c, _ => (s, Some (respond (Routes.question_sieve s req c)))
  | EpQuizzes, _ =>
      match Routes.question_generator s req draws with
      | Ok o => (s, o)
      | Raise e => (s, Some (handle_exception e))
      end
  end.

Definition dispatch (s : db) (m : method) (path : list string) (req : request)
  (draws : list nat) : db * option response :=
  match match_path path with
  | None => (s, Some (handle_exception (HTTPException 404)))
  | Some ep =>
      if existsb (method_eqb m) (allowed_methods ep) then view s ep m req draws
      else (s, Some (handle_exception (HTTPException 405)))
  end.

(** ** The shape of every answer *)

(** The codes that have a registered error handler. *)
Definition registered_codes : list Z := [400; 404; 405; 422; 500]%Z.

(** An exception whose handler answers with the JSON envelope: an
    [HTTPException] of a registered code, or any other exception (the 500
    handler). *)
Definition registered_exn (e : exn) : Prop :=
  match e with
  | HTTPException c => In c registered_codes
  | _ => True
  end.

Definition raises_registered {A : Type} (c : result A) : Prop :=
  forall e, c = Raise e -> registered_exn e.

(** A success answer (status 200, ['success']: True) or an error envelope
    of a registered code. *)
Definition well_formed_response (r : response) : Prop :=
  (status r = 200%Z /\ py_subscript (body r) "success" = Ok (PBool true)) \/
  (exists msg, r = error_envelope (status r) msg /\ In (status r) registered_codes).

Lemma handle_exception_well_formed (e : exn) :
  registered_exn e -> well_formed_response (handle_exception e).
Proof.
  intros He. right. destruct e as [c| | | | | |]; simpl in *;
    try (eexists; split; [reflexivity|simpl; tauto]).
  unfold registered_codes in He. simpl in He.
  destruct He as [<-|[<-|[<-|[<-|[<-|[]]]]]]; eexists; split; try reflexivity; simpl; tauto.
Qed.

Lemma respond_well_formed (c : result response) :
  raises_registered c -> (forall r, c = Ok r -> well_formed_response r) ->
  well_formed_response (respond c).
Proof.
  destruct c as [r|e]; simpl; intros Hraise Hok; [now apply Hok|].
  apply handle_exception_well_formed, Hraise. reflexivity.
Qed.

Lemma raises_bind {A B : Type} (c : result A) (k : A -> result B) :
  raises_registered c -> (forall a, raises_registered (k a)) -> raises_registered (bind c k).
Proof. intros Hc Hk e. destruct c as [a|e']; simpl; [apply Hk|intros H; inv H; now apply Hc]. Qed.

Lemma raises_ok {A : Type} (a : A) : raises_registered (Ok a).
Proof. intros e H. discriminate. Qed.

Lemma raises_abort {A : Type} (c : Z) : In c registered_codes -> raises_registered (@abort A c).
Proof. intros Hc e H. now inv H. Qed.

Lemma raises_try {A : Type} (c : result A) (code : Z) :
  In code registered_codes -> raises_registered (try_except c (fun _ => abort code)).
Proof. intros Hc e. destruct c; simpl; intros H; inv H; exact Hc. Qed.

Lemma raises_py_get (d : pyval) (k : string) : raises_registered (py_get d k).
Proof. intros e. destruct d; simpl; intros H; inv H; exact I. Qed.

Lemma raises_py_subscript (d : pyval) (k : string) : raises_registered (py_subscript d k).
Proof. intros e. destruct d; simpl; try destruct (assoc_get _ _); intros H; inv H; exact I. Qed.

Lemma raises_py_iter (v : pyval) : raises_registered (py_iter v).
Proof. intros e. destruct v; simpl; intros H; inv H; exact I. Qed.

Lemma raises_filter_category (s : db) (v : pyval) : raises_registered (filter_category s v).
Proof. intros e. destruct v; simpl; intros H; inv H; exact I. Qed.

Lemma raises_choose (sel : list Question) (r : nat) :
  raises_registered (choose_random_question sel r).
Proof.
  unfold choose_random_question. apply raises_bind.
  - intros e. unfold randrange. destruct (_ <? _)%Z; intros H; inv H; exact I.
  - intros y e. unfold py_index. destruct (_ || _)%bool; [intros H; inv H; exact I|].
    destruct (nth_error _ _); intros H; inv H; exact I.
Qed.

Lemma raises_quiz_loop (sel : list Question) (prev : list pyval) (draws : list nat) (q : Question) :
  raises_registered (quiz_loop sel prev draws q).
Proof.
  revert q. induction draws as [|r draws IH]; intros q; simpl;
    destruct (check_in_previous prev q); try apply raises_ok.
  apply raises_bind; [apply raises_choose|]. intros q'.
  destruct (Nat.eqb _ _); [apply raises_ok|apply IH].
Qed.

#[export] Hint Resolve raises_bind raises_ok raises_py_get raises_py_subscript raises_py_iter
  raises_filter_category raises_choose raises_quiz_loop : trivia.

Lemma try_except_abort_Ok {A : Type} (c : result A) (code : Z) (a : A) :
  try_except c (fun _ => abort code) = Ok a -> c = Ok a.
Proof. unfold abort. destruct c; simpl; congruence. Qed.

Lemma jsonify_well_formed (kv : list (string * pyval)) :
  assoc_get "success" kv = Some (PBool true) -> well_formed_response (jsonify kv).
Proof. intros H. left. split; [reflexivity|simpl; now rewrite H]. Qed.

(** Close [raises_registered] for a handler body, step by step. *)
Ltac raises_tac :=
  repeat (intros; match goal with
  | |- raises_registered (bind _ _) => apply raises_bind
  | |- raises_registered (try_except _ (fun _ => abort _)) => apply raises_try; simpl; tauto
  | |- raises_registered (abort _) => apply raises_abort; simpl; tauto
  | |- raises_registered (Ok _) => apply raises_ok
  | |- raises_registered (match _ with _ => _ end) => break_match
  | |- raises_registered _ => solve [eauto with trivia]
  end).

(** Take apart a handler body that succeeded down to its [jsonify]. *)
Ltac ok_tac H :=
  repeat match type of H with
  | bind _ _ = Ok _ => let H' := fresh "H" in apply bind_Ok_inv in H as (? & H' & H)
  | try_except _ (fun _ => abort _) = Ok _ => apply try_except_abort_Ok in H
  | abort _ = Ok _ => discriminate H
  | Raise _ = Ok _ => discriminate H
  | Ok _ = Ok _ => inv H
  | match _ with _ => _ end = Ok _ => break_match_in H
  end.

Lemma categories_good (s : db) :
  raises_registered (Routes.categories s) /\
  forall r, Routes.categories s = Ok r -> well_formed_response r.
Proof.
  unfold Routes.categories. split; [raises_tac|].
  intros r H. ok_tac H; apply jsonify_well_formed; reflexivity.
Qed.

Lemma all_questions_good (s : db) (req : request) :
  raises_registered (Routes.all_questions s req) /\
  forall r, Routes.all_questions s req = Ok r -> well_formed_response r.
Proof.
  unfold Routes.all_questions. split; [raises_tac|].
  intros r H. ok_tac H; apply jsonify_well_formed; reflexivity.
Qed.

Lemma delete_question_good (s : db) (req : request) (i : Z) :
  raises_registered (snd (Routes.delete_question s req i)) /\
  forall r, snd (Routes.delete_question s req i) = Ok r -> well_formed_response r.
Proof.
  unfold Routes.delete_question. simpl. split; [raises_tac|].
  intros r H. apply try_except_abort_Ok in H.
  destruct (find_by_id s i) as [[q|]|e]; simpl in H; ok_tac H;
    apply jsonify_well_formed; reflexivity.
Qed.

Lemma create_question_good (s : db) (req : request) :
  raises_registered (snd (Routes.create_question s req)) /\
  forall r, snd (Routes.create_question s req) = Ok r -> well_formed_response r.
Proof.
  unfold Routes.create_question.
  destruct (py_get (json_body req) "question") as [nq|e] eqn:E1;
    [|split; [intros e' H; inv H; now apply (raises_py_get _ _ _ E1)|discriminate]].
  destruct (py_get (json_body req) "answer") as [na|e] eqn:E2;
    [|split; [intros e' H; inv H; now apply (raises_py_get _ _ _ E2)|discriminate]].
  destruct (py_get (json_body req) "difficulty") as [df|e] eqn:E3;
    [|split; [intros e' H; inv H; now apply (raises_py_get _ _ _ E3)|discriminate]].
  destruct (py_get (json_body req) "category") as [ct|e] eqn:E4;
    [|split; [intros e' H; inv H; now apply (raises_py_get _ _ _ E4)|discriminate]].
  destruct (insert s nq na df ct) as [[s' row]|e]; simpl; split; raises_tac.
  - intros r H. inv H. apply jsonify_well_formed. reflexivity.
  - intros r H. discriminate.
Qed.

Lemma question_search_good (s : db) (req : request) :
  raises_registered (Routes.question_search s req) /\
  forall r, Routes.question_search s req = Ok r -> well_formed_response r.
Proof.
  unfold Routes.question_search. split; [raises_tac|].
  intros r H. ok_tac H; apply jsonify_well_formed; reflexivity.
Qed.

Lemma question_sieve_good (s : db) (req : request) (c : Z) :
  raises_registered (Routes.question_sieve s req c) /\
  forall r, Routes.question_sieve s req c = Ok r -> well_formed_response r.
Proof.
  unfold Routes.question_sieve. split; [raises_tac|].
  intros r H. ok_tac H; apply jsonify_well_formed; reflexivity.
Qed.

Lemma question_generator_good (s : db) (req : request) (draws : list nat) :
  raises_registered (Routes.question_generator s req draws) /\
  forall r, Routes.question_generator s req draws = Ok (Some r) -> well_formed_response r.
Proof.
  unfold Routes.question_generator. split; [raises_tac|].
  intros r H. ok_tac H.
  match goal with H : Routes.quiz_response ?o = Some r |- _ => destruct o; inv H end;
    apply jsonify_well_formed; reflexivity.
Qed.

Lemma respond_pair_well_formed (p : db * result response) (s' : db) (r : response) :
  raises_registered (snd p) -> (forall x, snd p = Ok x -> well_formed_response x) ->
  (let (s1, c) := p in (s1, Some (respond c))) = (s', Some r) -> well_formed_response r.
Proof. destruct p as [s1 c]. intros G1 G2 H. inv H. now apply respond_well_formed. Qed.

Lemma view_well_formed (s s' : db) (ep : endpoint) (m : method) (req : request)
  (draws : list nat) (r : response) :
  view s ep m req draws = (s', Some r) -> well_formed_response r.
Proof.
  destruct ep; unfold view.
  - intros H. inv H. apply respond_well_formed; apply categories_good.
  - destruct m; try (intros H; inv H; apply respond_well_formed; apply all_questions_good);
      apply respond_pair_well_formed; apply create_question_good.
  - apply respond_pair_well_formed; apply delete_question_good.
  - intros H. inv H. apply respond_well_formed; apply question_search_good.
  - intros H. inv H. apply respond_well_formed; apply question_sieve_good.
  - pose proof (question_generator_good s req draws) as [G1 G2].
    destruct (Routes.question_generator s req draws) as [o|e]; intros H; inv H;
      [now apply G2|apply handle_exception_well_formed; now apply G1].
Qed.

(** ** Parsing what [str] prints *)

(** The value of a digit string read from the left with accumulator. *)
Fixpoint uint_val (d : uint) (acc : Z) : Z :=
  match d with
  | Nil => acc
  | D0 d => uint_val d (acc * 10 + 0) | D1 d => uint_val d (acc * 10 + 1)
  | D2 d => uint_val d (acc * 10 + 2) | D3 d => uint_val d (acc * 10 + 3)
  | D4 d => uint_val d (acc * 10 + 4) | D5 d => uint_val d (acc * 10 + 5)
  | D6 d => uint_val d (acc * 10 + 6) | D7 d => uint_val d (acc * 10 + 7)
  | D8 d => uint_val d (acc * 10 + 8) | D9 d => uint_val d (acc * 10 + 9)
  end%Z.

Lemma digits_value_uint (d : uint) (acc : Z) :
  digits_value (NilEmpty.string_of_uint d) acc = Some (uint_val d acc).
Proof. revert acc. induction d; intros acc; simpl; auto. Qed.

Lemma uint_val_acc (d : uint) (acc : positive) :
  Zpos (Pos.of_uint_acc d acc) = uint_val d (Zpos acc).
Proof.
  revert acc. induction d; intros acc; cbn [Pos.of_uint_acc uint_val]; try reflexivity;
    rewrite IHd; f_equal; lia.
Qed.

Lemma uint_val_of_uint (d : uint) : Z.of_uint d = uint_val d 0.
Proof.
  unfold Z.of_uint. induction d; simpl; try reflexivity; try exact IHd;
    rewrite <- uint_val_acc; reflexivity.
Qed.

(** ** Properties *)

(** The [<int:...>] converter reads back exactly what [str] prints for
    a non-negative int: the id a handler reports is the id its URL
    carries. *)
Theorem int_segment_py_str_int (z : Z) :
  (0 <= z)%Z -> int_segment (py_str_int z) = Some z.
Proof.
  intros Hz. unfold py_str_int. destruct z as [|p|p]; [reflexivity| |lia]. simpl.
  pose proof (Unsigned.to_uint_nonnil p) as Hnn.
  pose proof (Unsigned.of_to p) as Hof.
  destruct (Pos.to_uint p) eqn:E; [congruence| ..];
    unfold int_segment; rewrite digits_value_uint, <- uint_val_of_uint;
    unfold Z.of_uint; now rewrite Hof.
Qed.

(** C31: Every answer of the application is either a success (status 200
    with ['success']: True) or the JSON error envelope
    [{success: False, error: code, message}] of a code with a registered
    handler (400, 404, 405, 422 or 500): no escaped exception produces
    another shape. *)
Theorem dispatch_well_formed (s s' : db) (m : method) (path : list string) (req : request)
  (draws : list nat) (r : response) :
  dispatch s m path req draws = (s', Some r) -> well_formed_response r.
Proof.
  unfold dispatch. destruct (match_path path) as [ep|].
  - destruct (existsb (method_eqb m) (allowed_methods ep)); [apply view_well_formed|].
    intros H. inv H. apply (handle_exception_well_formed (HTTPException 405)). simpl. tauto.
  - intros H. inv H. apply (handle_exception_well_formed (HTTPException 404)). simpl. tauto.
Qed.

(** A request whose path matches a rule that does not allow its
    method is answered 405 "method not allowed" and changes nothing (the
    test suite's [POST /questions/1000]). *)
Theorem dispatch_method_not_allowed (s : db) (m : method) (path : list string) (ep : endpoint)
  (req : request) (draws : list nat) :
  match_path path = Some ep -> existsb (method_eqb m) (allowed_methods ep) = false ->
  dispatch s m path req draws = (s, Some method_not_allowed).
Proof. intros Hp Hm. unfold dispatch. now rewrite Hp, Hm. Qed.

(** A request whose path matches no rule is answered 404 "resource
    not found" and changes nothing (the test suite's
    [GET /categories/1000]). *)
Theorem dispatch_not_found (s : db) (m : method) (path : list string) (req : request)
  (draws : list nat) :
  match_path path = None -> dispatch s m path req draws = (s, Some not_found).
Proof. intros Hp. unfold dispatch. now rewrite Hp. Qed.

(** ** Witnesses *)

Lemma dispatch_well_formed_witness :
  exists s' r, dispatch sample_db GET ["categories"%string] (mkRequest None PNone) [] =
               (s', Some r) /\ well_formed_response r.
Proof.
  do 2 eexists. split; [reflexivity|].
  eapply (dispatch_well_formed sample_db _ GET ["categories"%string] (mkRequest None PNone) []).
  reflexivity.
Defined.

Lemma dispatch_method_not_allowed_witness :
  dispatch sample_db POST ["questions"; "1000"]%string (mkRequest None PNone) [] =
  (sample_db, Some method_not_allowed).
Proof. apply (dispatch_method_not_allowed _ _ _ (EpQuestion 1000)); reflexivity. Defined.

Lemma int_segment_py_str_int_witness : int_segment (py_str_int 1047) = Some 1047%Z.
Proof. apply int_segment_py_str_int. lia. Defined.

Lemma dispatch_not_found_witness :
  dispatch sample_db GET ["categories"; "1000"]%string (mkRequest None PNone) [] =
  (sample_db, Some not_found).
Proof. apply dispatch_not_found. reflexivity. Defined.
