(* ===== verification/Schema.v ===== *)
(** * The JSON interface: response schemas

    The spec's interface section lists, for every route, the fields of
    the JSON object it answers with, and the error envelope
    [{success, error, message}] of every error.  This file writes those
    shapes as JSON types ([jtype]) with a typing relation on Python values
    ([has_type], after the typing of data in query compilers: constructors
    per value form, [Forall] over the items of a list or a dict) and its
    executable check [typeb], and shows that [dispatch] answers every
    request with a body of the type the spec gives its route: a 200 with
    the route's object, any other status with the error envelope. *)

From Stdlib Require Import String Ascii.
From Stdlib Require Import List Arith Lia ZArith Bool.
From S2P Require Import Prelude Py Store Pagination Quiz Search Handlers App.
Import ListNotations.
Open Scope trivia_scope.

(** ** JSON types *)

Inductive jtype : Type :=
| TNull
| TBool
| TInt
| TStr
| TNullable (t : jtype)                  (** [t] or [null] *)
| TList (t : jtype)                      (** an array of [t] *)
| TMap (t : jtype)                       (** an object with any keys, values [t] *)
| TObj (fields : list (string * jtype))  (** an object with exactly these keys *)
| TUnion (t1 t2 : jtype).

(** The keys of an object are those a record type lists. *)
Definition keys_within (fields : list (string * jtype)) (kv : list (string * pyval)) : bool :=
  forallb (fun p => existsb (String.eqb (fst p)) (map fst fields)) kv.

Fixpoint typeb (t : jtype) (v : pyval) : bool :=
  match t with
  | TNull => match v with PNone => true | _ => false end
  | TBool => match v with PBool _ => true | _ => false end
  | TInt => match v with PInt _ => true | _ => false end
  | TStr => match v with PStr _ => true | _ => false end
  | TNullable t' => match v with PNone => true | _ => typeb t' v end
  | TList t' => match v with PList l => forallb (typeb t') l | _ => false end
  | TMap t' => match v with PDict kv => forallb (fun p => typeb t' (snd p)) kv | _ => false end
  | TObj fields =>
      match v with
      | PDict kv =>
          forallb (fun f => match assoc_get (fst f) kv with
                            | Some v' => typeb (snd f) v'
                            | None => false
                            end) fields && keys_within fields kv
      | _ => false
      end
  | TUnion t1 t2 => typeb t1 v || typeb t2 v
  end.

(** The typing relation [typeb] decides. *)
Inductive has_type : pyval -> jtype -> Prop :=
| ht_null : has_type PNone TNull
| ht_bool b : has_type (PBool b) TBool
| ht_int z : has_type (PInt z) TInt
| ht_str s : has_type (PStr s) TStr
| ht_nullable_none t : has_type PNone (TNullable t)
| ht_nullable v t : has_type v t -> has_type v (TNullable t)
| ht_list l t : Forall (fun v => has_type v t) l -> has_type (PList l) (TList t)
| ht_map kv t : Forall (fun p => has_type (snd p) t) kv -> has_type (PDict kv) (TMap t)
| ht_obj kv fields :
    Forall (fun f => exists v, assoc_get (fst f) kv = Some v /\ has_type v (snd f)) fields ->
    keys_within fields kv = true ->
    has_type (PDict kv) (TObj fields)
| ht_union_l v t1 t2 : has_type v t1 -> has_type v (TUnion t1 t2)
| ht_union_r v t1 t2 : has_type v t2 -> has_type v (TUnion t1 t2).

(** ** The spec's schemas (interface section) *)

Definition question_schema : jtype :=
  TObj [("id"%string, TInt); ("question"%string, TNullable TStr);
        ("answer"%string, TNullable TStr); ("category"%string, TNullable TInt);
        ("difficulty"%string, TNullable TInt)].

Definition categories_schema : jtype :=
  TObj [("success"%string, TBool); ("categories"%string, TMap (TNullable TStr));
        ("total_categories"%string, TInt)].

Definition questions_page_schema : jtype :=
  TObj [("success"%string, TBool); ("questions"%string, TList question_schema);
        ("total_questions"%string, TInt); ("categories"%string, TMap (TNullable TStr));
        ("current_category"%string, TNull)].

Definition deleted_schema : jtype :=
  TObj [("success"%string, TBool); ("deleted"%string, TInt); ("total_questions"%string, TInt)].

Definition created_schema : jtype :=
  TObj [("success"%string, TBool); ("created"%string, TInt);
        ("questions"%string, TList question_schema); ("total_questions"%string, TInt)].

Definition search_schema : jtype :=
  TObj [("success"%string, TBool); ("questions"%string, TList question_schema);
        ("total_questions"%string, TInt); ("current_category"%string, TNull)].

Definition category_questions_schema : jtype :=
  TObj [("success"%string, TBool); ("questions"%string, TList question_schema);
        ("total_questions"%string, TInt); ("current_category"%string, TInt)].

(** [{success, question}], or [{success}] alone once the quiz is over. *)
Definition quiz_schema : jtype :=
  TUnion (TObj [("success"%string, TBool); ("question"%string, question_schema)])
         (TObj [("success"%string, TBool)]).

Definition error_schema : jtype :=
  TObj [("success"%string, TBool); ("error"%string, TInt); ("message"%string, TStr)].

(** The schema of the 200 answer of a rule and method. *)
Definition route_schema (ep : endpoint) (m : method) : jtype :=
  match ep, m with
  | EpCategories, _ => categories_schema
  | EpQuestions, GET => questions_page_schema
  | EpQuestions, _ => created_schema
  | EpQuestion _, _ => deleted_schema
  | EpSearch, _ => search_schema
  | EpCategoryQuestions _, _ => category_questions_schema
  | EpQuizzes, _ => quiz_schema
  end.

(** A 200 carries the route's object, any other status the envelope. *)
Definition typed_answer (t : jtype) (r : response) : bool :=
  if Z.eqb (status r) 200 then typeb t (body r) else typeb error_schema (body r).

(** What the spec promises for an answer to [path]: a path that matches no
    rule only ever gets an error. *)
Definition conforms (path : list string) (m : method) (r : response) : bool :=
  match match_path path with
  | Some ep => typed_answer (route_schema ep m) r
  | None => negb (Z.eqb (status r) 200) && typeb error_schema (body r)
  end.

(** ** The check decides the typing relation *)

(** Induction on types, with the hypothesis for every field of a record
    type. *)
Section JtypeInd.
Variable P : jtype -> Prop.
Hypothesis P_null : P TNull.
Hypothesis P_bool : P TBool.
Hypothesis P_int : P TInt.
Hypothesis P_str : P TStr.
Hypothesis P_nullable : forall t, P t -> P (TNullable t).
Hypothesis P_list : forall t, P t -> P (TList t).
Hypothesis P_map : forall t, P t -> P (TMap t).
Hypothesis P_obj : forall fields, Forall (fun f => P (snd f)) fields -> P (TObj fields).
Hypothesis P_union : forall t1 t2, P t1 -> P t2 -> P (TUnion t1 t2).

Fixpoint jtype_ind' (t : jtype) : P t :=
  match t with
  | TNull => P_null
  | TBool => P_bool
  | TInt => P_int
  | TStr => P_str
  | TNullable t' => P_nullable t' (jtype_ind' t')
  | TList t' => P_list t' (jtype_ind' t')
  | TMap t' => P_map t' (jtype_ind' t')
  | TObj fields =>
      P_obj fields
        ((fix go (fs : list (string * jtype)) : Forall (fun f => P (snd f)) fs :=
            match fs with
            | [] => Forall_nil _
            | (k, t') :: fs' => @Forall_cons _ (fun f => P (snd f)) (k, t') fs' (jtype_ind' t') (go fs')
            end) fields)
  | TUnion t1 t2 => P_union t1 t2 (jtype_ind' t1) (jtype_ind' t2)
  end.

End JtypeInd.

Lemma forallb_Forall_iff {A : Type} (f : A -> bool) (Q : A -> Prop) (l : list A) :
  (forall x, In x l -> (f x = true <-> Q x)) -> (forallb f l = true <-> Forall Q l).
Proof.
  intros H. rewrite forallb_forall, Forall_forall.
  split; intros G x Hx; now apply H, G.
Qed.

(** A field of a record type is present and well typed. *)
Lemma field_ok_iff (kv : list (string * pyval)) (f : string * jtype) :
  (forall v, typeb (snd f) v = true <-> has_type v (snd f)) ->
  ((match assoc_get (fst f) kv with Some v' => typeb (snd f) v' | None => false end) = true <->
   exists v, assoc_get (fst f) kv = Some v /\ has_type v (snd f)).
Proof.
  intros IH. destruct (assoc_get (fst f) kv) as [v'|].
  - rewrite IH. split; [eauto|]. intros (v & Hv & Ht). now inv Hv.
  - split; [discriminate|]. intros (v & Hv & _). discriminate.
Qed.

Theorem typeb_has_type (t : jtype) (v : pyval) : typeb t v = true <-> has_type v t.
Proof.
  revert v. induction t as [| | | |t IH|t IH|t IH|fields IH|t1 t2 IH1 IH2] using jtype_ind';
    intros v;
    try (destruct v; simpl; split; intros H; first [reflexivity|discriminate|constructor|inversion H]; fail).
  - split.
    + intros H. destruct v; try (apply ht_nullable, IH, H); constructor.
    + intros H. inv H; [reflexivity|]. destruct v; simpl; [reflexivity|..]; now apply IH.
  - destruct v; split; intros H; try discriminate; try (inv H; fail); simpl in *.
    + constructor. apply (forallb_Forall_iff (typeb t)); auto.
    + inv H. apply (forallb_Forall_iff _ (fun v => has_type v t)); auto.
  - destruct v; split; intros H; try discriminate; try (inv H; fail); simpl in *.
    + constructor. apply (forallb_Forall_iff (fun p => typeb t (snd p))); auto.
    + inv H. apply (forallb_Forall_iff _ (fun p => has_type (snd p) t)); auto.
  - rewrite Forall_forall in IH.
    destruct v; split; intros H; try discriminate; try (inv H; fail); simpl in *.
    + apply andb_true_iff in H as [Hf Hk]. constructor; [|exact Hk].
      revert Hf. apply forallb_Forall_iff. intros f Hf. now apply field_ok_iff, IH.
    + inv H. apply andb_true_iff. split; [|assumption].
      revert H2. apply forallb_Forall_iff. intros f Hf. now apply field_ok_iff, IH.
  - simpl. rewrite orb_true_iff, IH1, IH2. split.
    + intros [H|H]; [now apply ht_union_l|now apply ht_union_r].
    + intros H. inv H; auto.
Qed.

(** ** Typing the answers *)

Lemma typeb_obj (fields : list (string * jtype)) (kv : list (string * pyval)) :
  typeb (TObj fields) (PDict kv) =
  forallb (fun f => match assoc_get (fst f) kv with
                    | Some v => typeb (snd f) v
                    | None => false
                    end) fields && keys_within fields kv.
Proof. reflexivity. Qed.

Lemma typeb_union (t1 t2 : jtype) (v : pyval) : typeb (TUnion t1 t2) v = typeb t1 v || typeb t2 v.
Proof. reflexivity. Qed.

Lemma format_typed (q : Question) : typeb question_schema (format q) = true.
Proof. destruct q as [i [] [] [] []]; reflexivity. Qed.

Lemma formatted_list_typed (l : list Question) (xs : list pyval) :
  (forall x, In x xs -> In x (map format l)) -> typeb (TList question_schema) (PList xs) = true.
Proof.
  intros H. change (forallb (typeb question_schema) xs = true). apply forallb_forall.
  intros x Hx. apply H, in_map_iff in Hx as (q & <- & _). apply format_typed.
Qed.

Lemma paginate_typed (arg : option Z) (sel : list Question) :
  typeb (TList question_schema) (PList (paginate_questions arg sel)) = true.
Proof. apply (formatted_list_typed sel). unfold paginate_questions. intros x. apply py_slice_In. Qed.

Lemma map_format_typed (sel : list Question) :
  typeb (TList question_schema) (PList (map format sel)) = true.
Proof. now apply (formatted_list_typed sel). Qed.

Lemma dict_set_typed (t : jtype) (k : string) (v : pyval) (d : list (string * pyval)) :
  forallb (fun p => typeb t (snd p)) d = true -> typeb t v = true ->
  forallb (fun p => typeb t (snd p)) (dict_set k v d) = true.
Proof.
  intros Hd Hv. induction d as [|[k' v'] d IH]; simpl in *; [now rewrite Hv|].
  apply andb_true_iff in Hd as [Hv' Hd].
  destruct (String.eqb k k'); simpl; rewrite ?Hv, ?Hv', ?Hd; auto.
Qed.

Lemma formatted_categories_typed (cats : list Category) :
  typeb (TMap (TNullable TStr)) (PDict (formatted_categories cats)) = true.
Proof.
  change (forallb (fun p => typeb (TNullable TStr) (snd p)) (formatted_categories cats) = true).
  unfold formatted_categories.
  assert (G : forall d, forallb (fun p => typeb (TNullable TStr) (snd p)) d = true ->
    forallb (fun p => typeb (TNullable TStr) (snd p))
      (fold_left (fun d c => dict_set (py_str_int (c_id c)) (text_val (c_type c)) d) cats d) = true).
  { induction cats as [|c cats IH]; intros d Hd; simpl; [exact Hd|].
    apply IH, dict_set_typed; [exact Hd|]. destruct (c_type c); reflexivity. }
  now apply G.
Qed.

Lemma handle_exception_typed (t : jtype) (e : exn) :
  registered_exn e -> typed_answer t (handle_exception e) = true.
Proof.
  intros He. destruct e as [c| | | | | |]; try reflexivity.
  unfold registered_exn, registered_codes in He.
  destruct He as [<-|[<-|[<-|[<-|[<-|[]]]]]]; reflexivity.
Qed.

Lemma respond_typed (t : jtype) (c : result response) :
  raises_registered c ->
  (forall r, c = Ok r -> status r = 200%Z /\ typeb t (body r) = true) ->
  typed_answer t (respond c) = true.
Proof.
  destruct c as [r|e]; simpl; intros Hraise Hok.
  - destruct (Hok r eq_refl) as [Hs Ht]. unfold typed_answer. now rewrite Hs.
  - apply handle_exception_typed, Hraise. reflexivity.
Qed.

#[local] Arguments typeb : simpl never.

(** Check a [jsonify] answer against its route's object type. *)
Ltac schema_tac :=
  split; [reflexivity|];
  unfold categories_schema, questions_page_schema, deleted_schema, created_schema,
    search_schema, category_questions_schema, quiz_schema;
  cbn [body jsonify]; rewrite ?typeb_union, !typeb_obj; simpl;
  rewrite ?paginate_typed, ?formatted_categories_typed, ?map_format_typed, ?format_typed;
  reflexivity.

Lemma categories_typed (s : db) (r : response) :
  Routes.categories s = Ok r -> status r = 200%Z /\ typeb categories_schema (body r) = true.
Proof. unfold Routes.categories. intros H. ok_tac H. schema_tac. Qed.

Lemma all_questions_typed (s : db) (req : request) (r : response) :
  Routes.all_questions s req = Ok r ->
  status r = 200%Z /\ typeb questions_page_schema (body r) = true.
Proof. unfold Routes.all_questions. intros H. ok_tac H. schema_tac. Qed.

Lemma delete_question_typed (s : db) (req : request) (i : Z) (r : response) :
  snd (Routes.delete_question s req i) = Ok r ->
  status r = 200%Z /\ typeb deleted_schema (body r) = true.
Proof.
  unfold Routes.delete_question. simpl. intros H. apply try_except_abort_Ok in H.
  destruct (find_by_id s i) as [[q|]|e]; simpl in H; ok_tac H. schema_tac.
Qed.

Lemma create_question_typed (s : db) (req : request) (r : response) :
  snd (Routes.create_question s req) = Ok r ->
  status r = 200%Z /\ typeb created_schema (body r) = true.
Proof.
  unfold Routes.create_question.
  destruct (py_get (json_body req) "question"), (py_get (json_body req) "answer"),
    (py_get (json_body req) "difficulty"), (py_get (json_body req) "category");
    try discriminate.
  destruct (insert _ _ _ _ _) as [[s' row]|e]; simpl; intros H; ok_tac H. schema_tac.
Qed.

Lemma question_search_typed (s : db) (req : request) (r : response) :
  Routes.question_search s req = Ok r -> status r = 200%Z /\ typeb search_schema (body r) = true.
Proof. unfold Routes.question_search. intros H. ok_tac H. schema_tac. Qed.

Lemma question_sieve_typed (s : db) (req : request) (c : Z) (r : response) :
  Routes.question_sieve s req c = Ok r ->
  status r = 200%Z /\ typeb category_questions_schema (body r) = true.
Proof. unfold Routes.question_sieve. intros H. ok_tac H. schema_tac. Qed.

Lemma question_generator_typed (s : db) (req : request) (draws : list nat) (r : response) :
  Routes.question_generator s req draws = Ok (Some r) ->
  status r = 200%Z /\ typeb quiz_schema (body r) = true.
Proof.
  unfold Routes.question_generator. intros H. ok_tac H.
  match goal with H : Routes.quiz_response ?o = Some r |- _ => destruct o; inv H end;
    schema_tac.
Qed.

Lemma respond_pair_typed (t : jtype) (p : db * result response) (s' : db) (r : response) :
  raises_registered (snd p) ->
  (forall x, snd p = Ok x -> status x = 200%Z /\ typeb t (body x) = true) ->
  (let (s1, c) := p in (s1, Some (respond c))) = (s', Some r) -> typed_answer t r = true.
Proof. destruct p as [s1 c]. intros G1 G2 H. inv H. now apply respond_typed. Qed.

Lemma view_typed (s s' : db) (ep : endpoint) (m : method) (req : request)
  (draws : list nat) (r : response) :
  view s ep m req draws = (s', Some r) -> typed_answer (route_schema ep m) r = true.
Proof.
  destruct ep; unfold view.
  - intros H. inv H. apply respond_typed; [apply categories_good|apply categories_typed].
  - destruct m; try (intros H; inv H; apply respond_typed;
                     [apply all_questions_good|apply all_questions_typed]);
      (apply respond_pair_typed; [apply create_question_good|apply create_question_typed]).
  - apply respond_pair_typed; [apply delete_question_good|apply delete_question_typed].
  - intros H. inv H. apply respond_typed; [apply question_search_good|apply question_search_typed].
  - intros H. inv H. apply respond_typed; [apply question_sieve_good|apply question_sieve_typed].
  - pose proof (proj1 (question_generator_good s req draws)) as G.
    destruct (Routes.question_generator s req draws) as [o|e] eqn:Hq; intros H;
      injection H as <- Ho; subst.
    + destruct (question_generator_typed s req draws r Hq) as [Hs Ht].
      unfold typed_answer. now rewrite Hs.
    + apply handle_exception_typed, G. reflexivity.
Qed.

(** ** Properties *)

(** C32: Every answer of the application has the shape the spec's
    interface section gives it: a 200 answer to a route carries exactly
    the fields of that route's object with their JSON types (questions in
    the format of [Question.format()], the categories as a map from ids to
    names, [current_category] null or an int), any other status carries
    the error envelope [{success, error, message}], and a path that
    matches no rule never gets a 200. *)
Theorem dispatch_conforms (s s' : db) (m : method) (path : list string) (req : request)
  (draws : list nat) (r : response) :
  dispatch s m path req draws = (s', Some r) -> conforms path m r = true.
Proof.
  unfold dispatch, conforms. destruct (match_path path) as [ep|].
  - destruct (existsb (method_eqb m) (allowed_methods ep)).
    + apply view_typed.
    + intros H. inv H. reflexivity.
  - intros H. inv H. reflexivity.
Qed.

(** ** Witnesses *)

Lemma dispatch_conforms_witness :
  conforms ["questions"%string] GET (respond (Routes.all_questions quiz_db (mkRequest None PNone)))
  = true.
Proof.
  apply (dispatch_conforms quiz_db quiz_db GET ["questions"%string] (mkRequest None PNone) []).
  reflexivity.
Defined.
