(* ===== verification/Cors.v ===== *)
(** * Response headers: CORS and [after_request]

    [create_app] (src/backend/flaskr/__init__.py, lines 29-38) does two
    things to every response:
    - [CORS(app, resources={r"/api/*": {"origins": "*"}})] installs
      flask_cors's response hook.  For a request whose path the resource
      pattern matches ([re.match], anchored at the start: the path starts
      with [/api] in any case), the hook adds [Access-Control-Allow-Origin], the
      request's [Origin] (with [Vary: Origin]) or [*] when there is none.
      It adds nothing when the response already has the header or when no
      resource matches.
    - The view [after_request] appends [Access-Control-Allow-Headers] and
      [Access-Control-Allow-Methods] with [headers.add].
    Flask runs the [after_request] functions in the reverse order of their
    registration, so the application's hook runs first and flask_cors's
    second, on the answers of the views and of the error handlers alike.

    [serve] is the application with its headers: [dispatch], then both
    hooks.  [preflight] is the answer to an [OPTIONS] request, which Flask
    gives every rule on its own (status 200, empty body) before the hooks
    run.  The headers [jsonify] sets ([Content-Type]) are left out.

    The theorems show that no route's answer carries
    [Access-Control-Allow-Origin] (the resource pattern matches none of the
    application's paths), and that the methods the preflight answer allows
    leave out [POST], which three routes need. *)

From Stdlib Require Import String Ascii.
From Stdlib Require Import List Arith Lia ZArith Bool.
From S2P Require Import Prelude Py Store Search Handlers App.
Import ListNotations.
Open Scope trivia_scope.
Open Scope string_scope.

(** ** Responses with headers *)

Definition header : Type := (string * string)%type.

Record served := mkServed {
  resp : response;
  headers : list header
}.

(** [response.headers.add(k, v)]: appends, keeping earlier values. *)
Definition headers_add (k v : string) (r : served) : served :=
  mkServed (resp r) (app (headers r) [(k, v)]).

(** The values of a header, in order. *)
Definition header_values (k : string) (hs : list header) : list string :=
  map snd (filter (fun h => String.eqb (fst h) k) hs).

(** [request.path] of a request whose path has these segments. *)
Definition request_path (segs : list string) : string :=
  match segs with
  | [] => "/"
  | _ => fold_right (fun seg acc => "/" ++ seg ++ acc) "" segs
  end.

(** ** The two hooks *)

(** [after_request(response)] of [create_app]. *)
Definition after_request (r : served) : served :=
  headers_add "Access-Control-Allow-Methods" "GET, PATCH, DELETE, OPTIONS"
    (headers_add "Access-Control-Allow-Headers" "Content-Type,Authorization,true" r).

(** The path with ASCII letters folded to lower case. *)
Fixpoint lower_string (s : string) : string :=
  match s with
  | EmptyString => EmptyString
  | String c s' => String (lower c) (lower_string s')
  end.

(** flask_cors's [try_match]: [re.match(r"/api/*", path, re.IGNORECASE)],
    that is [/api] in any case followed by any number of [/], anchored at
    the start only. *)
Definition cors_resource_match (path : string) : bool := String.prefix "/api" (lower_string path).

(** The headers flask_cors sets for a matching resource with origins [*]. *)
Definition cors_headers (origin : option string) : list header :=
  match origin with
  | Some o => [("Access-Control-Allow-Origin", o); ("Vary", "Origin")]
  | None => [("Access-Control-Allow-Origin", "*")]
  end.

(** flask_cors's [cors_after_request]. *)
Definition cors_after_request (origin : option string) (path : string) (r : served) : served :=
  if negb (Nat.eqb (length (header_values "Access-Control-Allow-Origin" (headers r))) 0) then r
  else if cors_resource_match path then mkServed (resp r) (app (headers r) (cors_headers origin))
  else r.

(** Flask's [process_response]: the hooks in reverse registration order. *)
Definition finalize (origin : option string) (path : string) (r : response) : served :=
  cors_after_request origin path (after_request (mkServed r [])).

(** ** The application with its headers *)

Definition serve (s : db) (m : method) (segs : list string) (origin : option string)
  (req : request) (draws : list nat) : db * option served :=
  let (s', r) := dispatch s m segs req draws in
  (s', option_map (finalize origin (request_path segs)) r).

(** Flask's automatic answer to [OPTIONS]: 200 with an empty body on a
    path some rule matches, the 404 handler otherwise. *)
Definition preflight (segs : list string) (origin : option string) : served :=
  finalize origin (request_path segs)
    (match match_path segs with
     | Some _ => mkResponse 200 (PStr "")
     | None => handle_exception (HTTPException 404)
     end).

Definition method_name (m : method) : string :=
  match m with
  | GET => "GET" | POST => "POST" | DELETE => "DELETE" | PUT => "PUT" | PATCH => "PATCH"
  end.

(** The items of a comma-separated header value, spaces trimmed. *)
Fixpoint split_commas (s : string) (cur : string) : list string :=
  match s with
  | EmptyString => [cur]
  | String c s' =>
      if Ascii.eqb c ","%char then cur :: split_commas s' ""
      else if Ascii.eqb c " "%char then split_commas s' cur
      else split_commas s' (cur ++ String c "")
  end.

(** The methods a CORS preflight answer lets a browser send. *)
Definition cors_allowed_methods (r : served) : list string :=
  flat_map (fun v => split_commas v "") (header_values "Access-Control-Allow-Methods" (headers r)).

(** ** Lemmas *)

Lemma finalize_allow_origin (origin : option string) (path : string) (r : response) :
  header_values "Access-Control-Allow-Origin" (headers (finalize origin path r)) <> [] <->
  cors_resource_match path = true.
Proof.
  unfold finalize, cors_after_request. simpl.
  destruct (cors_resource_match path); simpl; [|split; [intros H; now contradiction H|discriminate]].
  split; [reflexivity|]. destruct origin; simpl; discriminate.
Qed.

Lemma finalize_allow_methods (origin : option string) (path : string) (r : response) :
  header_values "Access-Control-Allow-Methods" (headers (finalize origin path r)) =
  ["GET, PATCH, DELETE, OPTIONS"%string].
Proof.
  unfold finalize, cors_after_request. simpl.
  destruct (cors_resource_match path); [destruct origin|]; reflexivity.
Qed.

(** Every rule's path starts with [/categories], [/questions] or
    [/quizzes]. *)
Lemma match_path_no_api (segs : list string) (ep : endpoint) :
  match_path segs = Some ep -> cors_resource_match (request_path segs) = false.
Proof.
  destruct segs as [|a [|b [|c [|d l]]]]; simpl; try discriminate;
    repeat match goal with
    | |- context [String.eqb ?x ?y] => destruct (String.eqb_spec x y); [subst x|]
    end; simpl; try discriminate; reflexivity.
Qed.

(** ** Properties *)

(** C33: The CORS resource pattern [/api/*] matches no path of the
    application: an answer carries [Access-Control-Allow-Origin] exactly
    when its path starts with [/api] in any case, and such a path matches no rule, so
    only 404 answers ever carry it.  The comment above [CORS(...)] asks to
    allow every origin; no route's answer allows any. *)
Theorem serve_allow_origin (s s' : db) (m : method) (segs : list string)
  (origin : option string) (req : request) (draws : list nat) (r : served) :
  serve s m segs origin req draws = (s', Some r) ->
  (header_values "Access-Control-Allow-Origin" (headers r) <> [] <->
   cors_resource_match (request_path segs) = true) /\
  (cors_resource_match (request_path segs) = true -> match_path segs = None).
Proof.
  unfold serve. destruct (dispatch s m segs req draws) as [s1 [r1|]]; intros H; inv H.
  split; [apply finalize_allow_origin|].
  intros Hm. destruct (match_path segs) as [ep|] eqn:Hp; [|reflexivity].
  apply match_path_no_api in Hp. congruence.
Qed.

(** C34: The preflight answer of every path, on a rule whose methods
    include [POST] as much as on any other, is a 200 whose
    [Access-Control-Allow-Methods] lists [GET], [PATCH], [DELETE] and
    [OPTIONS] but not [POST]: a browser refuses the cross-origin [POST]
    that creating a question, searching and playing the quiz need. *)
Theorem preflight_omits_post (segs : list string) (ep : endpoint) (origin : option string) :
  match_path segs = Some ep -> In POST (allowed_methods ep) ->
  status (resp (preflight segs origin)) = 200%Z /\
  cors_allowed_methods (preflight segs origin) = ["GET"; "PATCH"; "DELETE"; "OPTIONS"] /\
  ~ In (method_name POST) (cors_allowed_methods (preflight segs origin)).
Proof.
  intros Hp _. unfold preflight. rewrite Hp.
  unfold cors_allowed_methods. rewrite finalize_allow_methods. split.
  - unfold finalize, cors_after_request. simpl.
    destruct (cors_resource_match _); [destruct origin|]; reflexivity.
  - split; [reflexivity|]. simpl. intuition discriminate.
Qed.

(** ** Witnesses *)

Lemma serve_allow_origin_witness :
  (header_values "Access-Control-Allow-Origin"
     (headers (finalize (Some "http://localhost:3000") "/questions"
                 (respond (Routes.all_questions quiz_db (mkRequest None PNone))))) <> [] <->
   cors_resource_match "/questions" = true) /\
  (cors_resource_match "/questions" = true -> match_path ["questions"] = None).
Proof.
  apply (serve_allow_origin quiz_db quiz_db GET ["questions"] (Some "http://localhost:3000")
           (mkRequest None PNone) []).
  reflexivity.
Defined.

Lemma preflight_omits_post_witness :
  status (resp (preflight ["quizzes"] (Some "http://localhost:3000"))) = 200%Z /\
  cors_allowed_methods (preflight ["quizzes"] (Some "http://localhost:3000")) =
    ["GET"; "PATCH"; "DELETE"; "OPTIONS"] /\
  ~ In (method_name POST) (cors_allowed_methods (preflight ["quizzes"] (Some "http://localhost:3000"))).
Proof. apply (preflight_omits_post ["quizzes"] EpQuizzes); simpl; auto. Defined.
