(* ===== verification/Server.v ===== *)
(** * The server over time: runs of requests

    One process of the application answers requests one after the other
    against the shared store (spec, concurrency section: one request per
    invocation, no locking beyond the store's own).  A step of the server
    is one request answered by [serve] (routing, view, error handler and
    response hooks), which leaves the store [dispatch] returns; [run]
    answers a list of requests in order.  Deletes, creates, searches and
    quiz requests interleave freely.

    Every step either leaves the store as it is, deletes a stored row, or
    inserts a row through the id sequence ([store_effect]).  The theorems
    show, by induction on runs, that the store's invariant holds in every
    store a run reaches, and that rows are never altered and ids never
    reused: every row of a later store was already there, or carries an
    id at least the earlier value of the sequence. *)

From Stdlib Require Import String Ascii.
From Stdlib Require Import List Arith Lia ZArith Bool.
From S2P Require Import Prelude Py Store Handlers App Cors.
Import ListNotations.
Open Scope trivia_scope.

(** A request as the server receives it. *)
Record http_request := mkHttpRequest {
  rq_method : method;
  rq_path : list string;
  rq_origin : option string;
  rq_req : request;
  rq_draws : list nat
}.

Definition serve_request (s : db) (rq : http_request) : db * option served :=
  serve s (rq_method rq) (rq_path rq) (rq_origin rq) (rq_req rq) (rq_draws rq).

(** One request answered. *)
Inductive app_step : db -> db -> Prop :=
| step_request (s s' : db) (rq : http_request) (r : option served) :
    serve_request s rq = (s', r) -> app_step s s'.

(** A list of requests answered in order: the last store and the answers. *)
Fixpoint run (s : db) (rqs : list http_request) : db * list (option served) :=
  match rqs with
  | [] => (s, [])
  | rq :: rqs' =>
      let (s1, r) := serve_request s rq in
      let (s2, rs) := run s1 rqs' in
      (s2, r :: rs)
  end.

(** What one request can do to the store. *)
Inductive store_effect (s : db) : db -> Prop :=
| eff_none : store_effect s s
| eff_delete (q : Question) : In q (questions s) -> store_effect s (delete s q)
| eff_insert (a b c d : pyval) (row : Question) (s' : db) :
    insert s a b c d = Ok (s', row) -> store_effect s s'.

(** ** Lemmas *)

Lemma delete_question_effect (s : db) (req : request) (i : Z) :
  store_effect s (fst (Routes.delete_question s req i)).
Proof.
  unfold Routes.delete_question. simpl.
  destruct (find_by_id s i) as [[q|]|e] eqn:Hf; simpl; try constructor.
  now apply find_by_id_In in Hf as [Hin _].
Qed.

Lemma create_question_effect (s : db) (req : request) :
  store_effect s (fst (Routes.create_question s req)).
Proof.
  unfold Routes.create_question.
  destruct (py_get (json_body req) "question"), (py_get (json_body req) "answer"),
    (py_get (json_body req) "difficulty"), (py_get (json_body req) "category");
    simpl; try constructor.
  destruct (insert s _ _ _ _) as [[s' row]|e] eqn:Hi; simpl; [|constructor].
  exact (eff_insert _ _ _ _ _ row _ Hi).
Qed.

Lemma pair_effect (s s' : db) (p : db * result response) (r : option response) :
  store_effect s (fst p) ->
  (let (s1, c) := p in (s1, Some (respond c))) = (s', r) -> store_effect s s'.
Proof. destruct p as [s1 c]. simpl. intros He H. now inv H. Qed.

Lemma dispatch_effect (s s' : db) (m : method) (segs : list string) (req : request)
  (draws : list nat) (r : option response) :
  dispatch s m segs req draws = (s', r) -> store_effect s s'.
Proof.
  unfold dispatch. destruct (match_path segs) as [ep|]; [|intros H; inv H; constructor].
  destruct (existsb _ _); [|intros H; inv H; constructor].
  destruct ep; unfold view; try (intros H; inv H; constructor).
  - destruct m; try (intros H; inv H; constructor);
      apply pair_effect, create_question_effect.
  - apply pair_effect, delete_question_effect.
  - destruct (Routes.question_generator s req draws); intros H; inv H; constructor.
Qed.

Lemma app_step_effect (s s' : db) : app_step s s' -> store_effect s s'.
Proof.
  intros [s1 s2 rq r H]. unfold serve_request, serve in H.
  destruct (dispatch _ _ _ _ _) as [s3 r3] eqn:Hd. inv H. eapply dispatch_effect; eauto.
Qed.

Lemma store_effect_wf (s s' : db) : db_wf s -> store_effect s s' -> db_wf s'.
Proof.
  intros Hwf [|q Hq|a b c d row s1 Hi]; [exact Hwf|now apply delete_wf|].
  apply insert_Ok_inv in Hi as [-> Hid]. now apply wf_append_fresh.
Qed.

(** A step keeps every row it does not delete, adds rows only at the
    sequence, and never moves the sequence back. *)
Lemma store_effect_rows (s s' : db) :
  store_effect s s' ->
  (forall q, In q (questions s') -> In q (questions s) \/ (next_id s <= q_id q)%Z) /\
  (next_id s <= next_id s')%Z.
Proof.
  intros [|q Hq|a b c d row s1 Hi].
  - split; [auto|lia].
  - split; [intros r Hr; left; eapply delete_In; eauto|simpl; lia].
  - apply insert_Ok_inv in Hi as [-> Hid]. simpl. split; [|lia].
    intros q Hq. apply in_app_or in Hq as [Hq|[<-|[]]]; [now left|right; lia].
Qed.

Lemma run_star (s : db) (rqs : list http_request) : star app_step s (fst (run s rqs)).
Proof.
  revert s. induction rqs as [|rq rqs IH]; intros s; simpl; [constructor|].
  destruct (serve_request s rq) as [s1 r] eqn:Hs.
  specialize (IH s1). destruct (run s1 rqs) as [s2 rs]. simpl in *.
  eapply star_step; [econstructor; exact Hs|exact IH].
Qed.

(** A session of the sample application: delete question 12, add a
    question, then ask for the first page. *)
Definition sample_session : list http_request :=
  [mkHttpRequest DELETE ["questions"; "12"]%string None (mkRequest None PNone) [];
   mkHttpRequest POST ["questions"]%string None (body_request create_body) [];
   mkHttpRequest GET ["questions"]%string None (mkRequest None PNone) []].

(** ** Properties *)

(** C11: Whatever requests arrive, in whatever order, every store a run
    reaches from a well-formed store is well formed: question ids stay
    distinct and below the id sequence. *)
Theorem reachable_wf (s s' : db) : star app_step s s' -> db_wf s -> db_wf s'.
Proof.
  intros Hrun. apply (star_preserves app_step db_wf); [|exact Hrun].
  intros x y Hx Hstep. eapply store_effect_wf; [exact Hx|now apply app_step_effect].
Qed.

(** C12: Rows are never altered and ids never reused: along any run, the
    id sequence never goes back, and every row of the later store either
    was a row of the earlier one or has an id at least the earlier value
    of the sequence.  In particular a deleted question's id (below the
    sequence) never comes back with another row. *)
Theorem reachable_rows_stable (s s' : db) :
  star app_step s s' ->
  (forall q, In q (questions s') -> In q (questions s) \/ (next_id s <= q_id q)%Z) /\
  (next_id s <= next_id s')%Z.
Proof.
  induction 1 as [a|a b c Hstep Hrun [IHrows IHseq]]; [split; [auto|lia]|].
  destruct (store_effect_rows a b (app_step_effect a b Hstep)) as [Hrows Hseq].
  split; [|lia]. intros q Hq.
  destruct (IHrows q Hq) as [Hb|Hge]; [|right; lia].
  destruct (Hrows q Hb) as [Ha|Hge]; [now left|right; lia].
Qed.

(** ** Witnesses *)

Lemma reachable_wf_witness : db_wf (fst (run quiz_db sample_session)).
Proof.
  apply (reachable_wf quiz_db); [apply run_star|].
  split; simpl; repeat constructor; simpl; lia.
Defined.

Lemma reachable_rows_stable_witness :
  (forall q, In q (questions (fst (run quiz_db sample_session))) ->
             In q (questions quiz_db) \/ (next_id quiz_db <= q_id q)%Z) /\
  (next_id quiz_db <= next_id (fst (run quiz_db sample_session)))%Z.
Proof. apply reachable_rows_stable, run_star. Defined.
