(* ===== verification/Scenarios.v ===== *)
(** * Scenarios: what the developer's TEST notes promise, as requests in sequence

    Above each view of create_app (src/backend/flaskr/__init__.py) a
    docstring says what a user of the front end should see: a created
    question "will appear at the end of the last page of the questions
    list" (lines 128-130), a deleted question's removal "will persist in
    the database and when you refresh the page" (lines 98-99), and
    clicking a category shows "only questions of that category" (lines
    197-199).  Each is a claim about two or more requests answered one
    after the other by [dispatch] against the shared store, with any
    requests in between taken as steps of [app_step] (Server).

    The theorems show the three promises hold on well-formed stores, and
    make precise in what order the category listing comes: the table's
    order, since [question_sieve] has no [order_by].  A fourth theorem
    takes the spec's testable property for the list: paging through [GET
    /questions] shows every stored question once, in ascending id order. *)

From Stdlib Require Import String Ascii.
From Stdlib Require Import List Arith Lia ZArith Bool Sorted Permutation.
From S2P Require Import Prelude Py Store Search Pagination Handlers App Cors Server.
Import ListNotations.
Open Scope trivia_scope.

(** The last page of a list of [n >= 1] questions, counted from 1. *)
Definition last_page (n : nat) : Z := (Z.of_nat ((n - 1) / 10) + 1)%Z.

(** The rows of category [c], in the table's order: the selection of
    [question_sieve]. *)
Definition category_rows (s : db) (c : Z) : list Question :=
  filter (fun q => match q_category q with Some c' => Z.eqb c' c | None => false end) (questions s).

(** An id that no row holds and that the sequence has passed: a deleted
    question's id. *)
Definition retired (i : Z) (u : db) : Prop := ~ In i (ids (questions u)) /\ (i < next_id u)%Z.

(** The questions a listing answer carries: its [questions] list, none
    for an error answer. *)
Definition page_items (r : response) : list pyval :=
  match py_subscript (body r) "questions" with Ok (PList l) => l | _ => [] end.

(** ** Sample requests *)

(** The answer of a request, or [not_found] while it has none. *)
Definition answer_of (p : db * option response) : response :=
  match snd p with Some r => r | None => not_found end.

(** Adding a question, deleting question 12, and listing category 3, on
    the sample stores of Handlers and Store. *)
Definition sample_post : db * option response :=
  dispatch quiz_db POST ["questions"]%string (body_request create_body) [].

Definition sample_delete : db * option response :=
  dispatch quiz_db DELETE ["questions"; py_str_int 12]%string (mkRequest None PNone) [].

Definition sample_sieve : db * option response :=
  dispatch sample_db GET ["categories"; py_str_int 3; "questions"]%string (mkRequest None PNone) [].

(** ** Lemmas *)

(** A 200 answer of [respond] on a computation that raises only
    registered exceptions is the computation's own result. *)
Lemma respond_status_200 (c : result response) :
  raises_registered c -> status (respond c) = 200%Z -> c = Ok (respond c).
Proof.
  destruct c as [x|e]; [reflexivity|]. intros H Hs. specialize (H e eq_refl).
  destruct e as [code| | | | | |]; simpl in H; try (simpl in Hs; discriminate).
  unfold registered_codes in H. simpl in H.
  destruct H as [<-|[<-|[<-|[<-|[<-|[]]]]]]; discriminate.
Qed.

Lemma match_path_question (i : Z) :
  (0 <= i)%Z -> match_path ["questions"; py_str_int i]%string = Some (EpQuestion i).
Proof.
  intros Hi. simpl. pose proof (int_segment_py_str_int i Hi) as Hseg.
  destruct (String.eqb_spec (py_str_int i) "search") as [E|_].
  - rewrite E in Hseg. discriminate.
  - now rewrite Hseg.
Qed.

Lemma match_path_category (c : Z) :
  (0 <= c)%Z -> match_path ["categories"; py_str_int c; "questions"]%string = Some (EpCategoryQuestions c).
Proof. intros Hc. simpl. now rewrite int_segment_py_str_int. Qed.

(** A [POST /questions] answered 200 is a successful [create_question]. *)
Lemma dispatch_create_200 (s s' : db) (req : request) (draws : list nat) (r : response) :
  dispatch s POST ["questions"]%string req draws = (s', Some r) -> status r = 200%Z ->
  Routes.create_question s req = (s', Ok r).
Proof.
  unfold dispatch. cbn -[Routes.create_question]. destruct (Routes.create_question s req) as [s1 c] eqn:Hc.
  intros H Hs. inv H. pose proof (proj1 (create_question_good s req)) as G.
  rewrite Hc in G. simpl in G. f_equal. exact (respond_status_200 c G Hs).
Qed.

(** A [DELETE /questions/i] answered 200 deleted the row a lookup found. *)
Lemma dispatch_delete_200 (s s' : db) (i : Z) (req : request) (draws : list nat) (r : response) :
  (0 <= i)%Z ->
  dispatch s DELETE ["questions"; py_str_int i]%string req draws = (s', Some r) -> status r = 200%Z ->
  exists q, find_by_id s i = Ok (Some q) /\ s' = delete s q.
Proof.
  intros Hi. unfold dispatch. rewrite match_path_question by exact Hi. cbn -[Routes.delete_question].
  destruct (Routes.delete_question s req i) as [s1 c] eqn:Hd. intros H Hs. inv H.
  pose proof (proj1 (delete_question_good s req i)) as G. rewrite Hd in G. simpl in G.
  pose proof (respond_status_200 c G Hs) as Hok.
  unfold Routes.delete_question in Hd.
  destruct (find_by_id s i) as [[q|]|e]; simpl in Hd; inv Hd; [eauto|discriminate|discriminate].
Qed.

(** A listed item is the format of a row of the selection. *)
Lemma paginate_In (p : option Z) (l : list Question) (v : pyval) :
  In v (paginate_questions p l) -> exists q, v = format q /\ In q l.
Proof.
  unfold paginate_questions. intros H. apply py_slice_In, in_map_iff in H as (q & <- & Hq). eauto.
Qed.

(** The last page of a list ending with [x] ends with [x]'s format, and
    the page after it is empty. *)
Lemma paginate_last (l : list Question) (x : Question) :
  paginate_questions (Some (last_page (length (l ++ [x])))) (l ++ [x]) =
    (skipn (10 * (length l / 10)) (map format l) ++ [format x])%list /\
  paginate_questions (Some (last_page (length (l ++ [x])) + 1)%Z) (l ++ [x]) = [].
Proof.
  unfold last_page. rewrite length_app. change (length [x]) with 1. rewrite Nat.add_sub.
  pose proof (Nat.div_mod (length l) 10) as Hdm. pose proof (Nat.mod_upper_bound (length l) 10) as Hmod.
  remember (length l / 10) as k eqn:Hk.
  split; rewrite paginate_pos_window by lia.
  - replace (Z.to_nat (Z.of_nat k + 1 - 1)) with k by lia.
    rewrite map_app, skipn_app, length_map.
    replace (10 * k - length l) with 0 by lia. change (skipn 0 [format x]) with [format x].
    apply firstn_all2. rewrite length_app, length_skipn, length_map. change (length [format x]) with 1. lia.
  - rewrite skipn_all2; [now destruct (10 * _)|].
    rewrite length_map, length_app. change (length [x]) with 1. lia.
Qed.

Lemma retired_effect (i : Z) (a b : db) : retired i a -> store_effect a b -> retired i b.
Proof.
  intros [Hni Hlt] [|q Hq|x y z w row b' Hi].
  - split; assumption.
  - split; [|exact Hlt]. intros Hin. apply Hni. unfold ids in *.
    apply in_map_iff in Hin as (r & Hr & Hin). apply in_map_iff. exists r. split; [exact Hr|].
    eapply delete_In; eauto.
  - apply insert_Ok_inv in Hi as [-> Hid]. split; simpl; [|lia].
    rewrite ids_app. simpl. intros Hin. apply in_app_or in Hin as [Hin|[Heq|[]]]; [contradiction|lia].
Qed.

(** No run of requests brings a retired id back. *)
Lemma retired_star (i : Z) (a b : db) : star app_step a b -> retired i a -> retired i b.
Proof.
  intros Hrun Ha. apply (star_preserves app_step (retired i) a b); [|exact Hrun|exact Ha].
  intros x y Hx Hstep. eapply retired_effect; [exact Hx|now apply app_step_effect].
Qed.

(** Deleting a stored row of a well-formed store retires its id. *)
Lemma delete_retires (s : db) (q : Question) :
  db_wf s -> In q (questions s) -> retired (q_id q) (delete s q).
Proof.
  intros [_ Hlt] Hin. split; [apply delete_ids|simpl].
  rewrite Forall_forall in Hlt. now apply Hlt.
Qed.
Lemma dispatch_get_questions (s : db) (req : request) (draws : list nat) :
  dispatch s GET ["questions"]%string req draws = (s, Some (respond (Routes.all_questions s req))).
Proof. reflexivity. Qed.

Lemma dispatch_sieve (s : db) (c : Z) (req : request) (draws : list nat) :
  (0 <= c)%Z ->
  dispatch s GET ["categories"; py_str_int c; "questions"]%string req draws =
  (s, Some (respond (Routes.question_sieve s req c))).
Proof. intros Hc. unfold dispatch. now rewrite match_path_category. Qed.

(** What [GET /questions?page=p] lists is the page of the id-ordered
    table, whether it answers 200 or 404. *)
Lemma page_items_get (s : db) (p : Z) (draws : list nat) :
  page_items (answer_of (dispatch s GET ["questions"]%string (mkRequest (Some p) PNone) draws)) =
  paginate_questions (Some p) (order_by_id s).
Proof.
  rewrite dispatch_get_questions. unfold answer_of, Routes.all_questions. cbn [snd page].
  destruct (paginate_questions (Some p) (order_by_id s)); reflexivity.
Qed.

(** ** Properties *)

(** C13: A question created through [POST /questions] appears at the end
    of the last page of the questions list (TEST note, lines 128-130):
    after a 200 answer, whose [created] is the new row's id, [GET
    /questions?page=k] for the last page [k] answers 200 with a list
    ending in the new question, and page [k+1] answers 404. *)
Theorem create_appears_last (s s' : db) (req : request) (draws draws' : list nat) (r : response) :
  db_wf s ->
  dispatch s POST ["questions"]%string req draws = (s', Some r) -> status r = 200%Z ->
  exists row init,
    py_subscript (body r) "created" = Ok (PInt (q_id row)) /\
    find_by_id s' (q_id row) = Ok (Some row) /\
    (exists r2, dispatch s' GET ["questions"]%string
                  (mkRequest (Some (last_page (length (questions s')))) PNone) draws' = (s', Some r2) /\
       status r2 = 200%Z /\ py_subscript (body r2) "questions" = Ok (PList (init ++ [format row])%list)) /\
    dispatch s' GET ["questions"]%string
      (mkRequest (Some (last_page (length (questions s')) + 1)%Z) PNone) draws' = (s', Some not_found).
Proof.
  intros Hwf Hd Hs. apply dispatch_create_200 in Hd; [|exact Hs]. unfold Routes.create_question in Hd.
  destruct (py_get (json_body req) "question") as [nq|], (py_get (json_body req) "answer") as [na|],
    (py_get (json_body req) "difficulty") as [df|], (py_get (json_body req) "category") as [ct|];
    try discriminate.
  destruct (insert s nq na df ct) as [[s1 row]|e] eqn:Hi; [|discriminate].
  inv Hd. apply insert_Ok_inv in Hi as [-> Hid].
  exists row, (skipn (10 * (length (order_by_id s) / 10)) (map format (order_by_id s))).
  split; [reflexivity|]. split.
  { apply find_by_id_wf; [now apply wf_append_fresh|simpl; apply in_or_app; right; now left]. }
  rewrite !dispatch_get_questions. unfold Routes.all_questions. cbn [questions page].
  rewrite (order_by_id_snoc s row Hwf Hid).
  replace (length (questions s ++ [row])) with (length (order_by_id s ++ [row]))
    by (rewrite !length_app, order_by_id_length; reflexivity).
  destruct (paginate_last (order_by_id s) row) as [H1 H2]. rewrite H1, H2.
  rewrite length_app, Nat.add_comm. split; [|reflexivity].
  eexists. split; [reflexivity|]. split; reflexivity.
Qed.

(** C14: A deletion persists (TEST note, lines 98-99): after [DELETE
    /questions/i] answers 200 on a well-formed store, whatever requests
    follow, the id stays gone: a lookup finds nothing, a second [DELETE]
    answers 422, and no page of [GET /questions] lists a question with
    that id. *)
Theorem deleted_stays_deleted (s s1 s2 : db) (i : Z) (req req' : request)
  (draws draws' : list nat) (r : response) :
  db_wf s -> (0 <= i)%Z ->
  dispatch s DELETE ["questions"; py_str_int i]%string req draws = (s1, Some r) -> status r = 200%Z ->
  star app_step s1 s2 ->
  find_by_id s2 i = Ok None /\
  dispatch s2 DELETE ["questions"; py_str_int i]%string req' draws' = (s2, Some not_processed) /\
  (forall r2 v, dispatch s2 GET ["questions"]%string req' draws' = (s2, Some r2) ->
     py_subscript (body r2) "questions" = Ok (PList v) ->
     Forall (fun x => exists q, x = format q /\ In q (questions s2) /\ q_id q <> i) v).
Proof.
  intros Hwf Hi Hd Hs Hrun.
  destruct (dispatch_delete_200 s s1 i req draws r Hi Hd Hs) as (q & Hf & ->).
  destruct (find_by_id_In s i q Hf) as [Hin <-].
  destruct (retired_star _ _ _ Hrun (delete_retires s q Hwf Hin)) as [Hni _].
  assert (Hnone : find_by_id s2 (q_id q) = Ok None) by (now apply find_by_id_absent).
  split; [exact Hnone|split].
  - unfold dispatch. rewrite match_path_question by exact Hi. cbn -[Routes.delete_question].
    unfold Routes.delete_question. now rewrite Hnone.
  - intros r2 v Hg Hv. rewrite dispatch_get_questions in Hg. inv Hg.
    unfold Routes.all_questions in Hv. destruct (Nat.eqb _ 0); [discriminate|]. inv Hv.
    apply Forall_forall. intros x Hx. apply paginate_In in Hx as (q' & -> & Hq').
    apply order_by_id_In in Hq'. exists q'. split; [reflexivity|split; [exact Hq'|]].
    intros Heq. apply Hni. rewrite <- Heq. now apply In_ids.
Qed.

(** C15: Clicking a category shows only questions of that category (TEST
    note, lines 197-199): [GET /categories/c/questions] changes nothing and
    answers 404 on an empty page, and otherwise 200 with the page of the
    category's rows, each the format of a stored question of category [c],
    with their count and [current_category] [c].  The rows come in the
    table's order: the view has no [order_by]. *)
Theorem sieve_lists_category (s s' : db) (c : Z) (req : request) (draws : list nat) (r : response) :
  (0 <= c)%Z ->
  dispatch s GET ["categories"; py_str_int c; "questions"]%string req draws = (s', Some r) ->
  s' = s /\
  (paginate_questions (page req) (category_rows s c) = [] -> r = not_found) /\
  (paginate_questions (page req) (category_rows s c) <> [] ->
   status r = 200%Z /\
   py_subscript (body r) "questions" = Ok (PList (paginate_questions (page req) (category_rows s c))) /\
   py_subscript (body r) "total_questions" = Ok (PInt (Z.of_nat (length (category_rows s c)))) /\
   py_subscript (body r) "current_category" = Ok (PInt c) /\
   Forall (fun x => exists q, x = format q /\ In q (questions s) /\ q_category q = Some c)
          (paginate_questions (page req) (category_rows s c))).
Proof.
  intros Hc Hd. rewrite dispatch_sieve in Hd by exact Hc. injection Hd as <- <-.
  split; [reflexivity|]. unfold Routes.question_sieve. cbn [filter_category bind].
  change (filter _ (questions s)) with (category_rows s c).
  destruct (paginate_questions (page req) (category_rows s c)) as [|v l] eqn:Hp.
  - split; [reflexivity|]. now intros [].
  - split; [discriminate|]. intros _. do 4 (split; [reflexivity|]).
    apply Forall_forall. intros x Hx. rewrite <- Hp in Hx.
    apply paginate_In in Hx as (q & -> & Hq). exists q. split; [reflexivity|].
    apply (filter_category_In s c (category_rows s c) q eq_refl Hq).
Qed.

(** C16: Paging through [GET /questions] shows every stored question
    exactly once, in ascending id order (spec, testable properties):
    when [k] pages of ten cover the table, the lists of pages [1..k]
    concatenated are the formats of a strictly id-ascending arrangement
    of the table. *)
Theorem pages_list_every_question (s : db) (k : nat) (draws : list nat) :
  db_wf s -> length (questions s) <= 10 * k ->
  exists l, Permutation (questions s) l /\
    StronglySorted (fun a b => (q_id a < q_id b)%Z) l /\
    concat (map (fun p => page_items (answer_of (dispatch s GET ["questions"]%string
                                         (mkRequest (Some (Z.of_nat p)) PNone) draws)))
                (seq 1 k)) = map format l.
Proof.
  intros Hwf Hk. exists (order_by_id s).
  split; [apply QuestionSort.Permuted_sort|]. split; [now apply order_by_id_strict|].
  rewrite <- seq_shift, map_map.
  rewrite (map_ext _ (page_slice (map format (order_by_id s)))).
  - rewrite page_slice_concat. apply firstn_all2.
    rewrite length_map, order_by_id_length. simpl. lia.
  - intros x. rewrite page_items_get, paginate_pos_window by lia. unfold page_slice.
    do 3 f_equal. lia.
Qed.

(** ** Witnesses *)

Lemma create_appears_last_witness :
  exists row init,
    py_subscript (body (answer_of sample_post)) "created" = Ok (PInt (q_id row)) /\
    find_by_id (fst sample_post) (q_id row) = Ok (Some row) /\
    (exists r2, dispatch (fst sample_post) GET ["questions"]%string
                  (mkRequest (Some (last_page (length (questions (fst sample_post))))) PNone) [] =
                (fst sample_post, Some r2) /\
       status r2 = 200%Z /\ py_subscript (body r2) "questions" = Ok (PList (init ++ [format row])%list)) /\
    dispatch (fst sample_post) GET ["questions"]%string
      (mkRequest (Some (last_page (length (questions (fst sample_post))) + 1)%Z) PNone) [] =
    (fst sample_post, Some not_found).
Proof.
  apply (create_appears_last quiz_db (fst sample_post) (body_request create_body) [] []
           (answer_of sample_post)).
  - split; simpl; repeat constructor; simpl; lia.
  - vm_compute. reflexivity.
  - vm_compute. reflexivity.
Defined.

Lemma deleted_stays_deleted_witness :
  find_by_id (fst sample_delete) 12 = Ok None /\
  dispatch (fst sample_delete) DELETE ["questions"; py_str_int 12]%string (mkRequest None PNone) [] =
    (fst sample_delete, Some not_processed) /\
  (forall r2 v, dispatch (fst sample_delete) GET ["questions"]%string (mkRequest None PNone) [] =
                (fst sample_delete, Some r2) ->
     py_subscript (body r2) "questions" = Ok (PList v) ->
     Forall (fun x => exists q, x = format q /\ In q (questions (fst sample_delete)) /\ q_id q <> 12%Z) v).
Proof.
  apply (deleted_stays_deleted quiz_db (fst sample_delete) (fst sample_delete) 12
           (mkRequest None PNone) (mkRequest None PNone) [] [] (answer_of sample_delete)).
  - split; simpl; repeat constructor; simpl; lia.
  - lia.
  - vm_compute. reflexivity.
  - vm_compute. reflexivity.
  - apply star_refl.
Defined.

Lemma sieve_lists_category_witness :
  sample_db = sample_db /\
  (paginate_questions None (category_rows sample_db 3) = [] -> answer_of sample_sieve = not_found) /\
  (paginate_questions None (category_rows sample_db 3) <> [] ->
   status (answer_of sample_sieve) = 200%Z /\
   py_subscript (body (answer_of sample_sieve)) "questions" =
     Ok (PList (paginate_questions None (category_rows sample_db 3))) /\
   py_subscript (body (answer_of sample_sieve)) "total_questions" =
     Ok (PInt (Z.of_nat (length (category_rows sample_db 3)))) /\
   py_subscript (body (answer_of sample_sieve)) "current_category" = Ok (PInt 3) /\
   Forall (fun x => exists q, x = format q /\ In q (questions sample_db) /\ q_category q = Some 3%Z)
          (paginate_questions None (category_rows sample_db 3))).
Proof.
  apply (sieve_lists_category sample_db sample_db 3 (mkRequest None PNone) [] (answer_of sample_sieve)).
  - lia.
  - vm_compute. reflexivity.
Defined.

(** The listing of category 3 on [sample_db], whose table holds question
    13 before question 12, comes in descending id order. *)
Example sieve_table_order :
  py_subscript (body (answer_of sample_sieve)) "questions" = Ok (PList [format q13; format q12]).
Proof. vm_compute. reflexivity. Qed.

Lemma pages_list_every_question_witness :
  exists l, Permutation (questions sample_db) l /\
    StronglySorted (fun a b => (q_id a < q_id b)%Z) l /\
    concat (map (fun p => page_items (answer_of (dispatch sample_db GET ["questions"]%string
                                         (mkRequest (Some (Z.of_nat p)) PNone) [])))
                (seq 1 1)) = map format l.
Proof.
  apply (pages_list_every_question sample_db 1 []).
  - split; simpl; repeat constructor; simpl; lia.
  - simpl. lia.
Defined.
