(* ===== verification/Session.v ===== *)
(** * A quiz session

    The server keeps no session state: the client sends, with every
    [POST /quizzes], the category and the ids of the questions it was
    served so far (spec, glossary: "previously-served set").  This file
    models that client from the spec, on top of the handler
    [Routes.question_generator]: [quiz_session] plays a quiz of category
    [c] (or of all questions, for the id 0), one request per element of the list of draws it is given, adding
    the id of each question served to [previous_questions], and stops at
    the "quiz complete" answer (no [question] field) or when a request
    does not answer with a question.

    The theorem shows the protocol does what the spec's quiz is for:
    whatever the generator draws, a session never serves a question twice
    and serves only questions of the category; and for some draws it
    serves every question of the category and then answers "quiz
    complete". *)

From Stdlib Require Import String Ascii.
From Stdlib Require Import List Arith Lia ZArith Bool Permutation.
From S2P Require Import Prelude Py Store Quiz Handlers.
Import ListNotations.
Open Scope trivia_scope.

(** The body the client sends: the category (the handler reads its id)
    and the ids served so far. *)
Definition quiz_request (c : Z) (prev : list Z) : request :=
  mkRequest None (PDict [("previous_questions"%string, PList (map PInt prev));
                         ("quiz_category"%string, PDict [("id"%string, PInt c)])]).

(** The id of the question an answer serves, if it serves one. *)
Definition served_id (r : response) : option Z :=
  match py_subscript (body r) "question" with
  | Ok qd => match py_subscript qd "id" with Ok (PInt i) => Some i | _ => None end
  | Raise _ => None
  end.

(** The ids served, and whether the quiz ended with "quiz complete". *)
Fixpoint quiz_session (s : db) (c : Z) (prev : list Z) (dss : list (list nat)) : list Z * bool :=
  match dss with
  | [] => (prev, false)
  | ds :: dss' =>
      match Routes.question_generator s (quiz_request c prev) ds with
      | Ok (Some r) =>
          match served_id r with
          | Some i => quiz_session s c (prev ++ [i]) dss'
          | None => (prev, true)
          end
      | _ => (prev, false)
      end
  end.

(** The questions the quiz draws from: all of them, by id, for the
    sentinel 0, those of category [c] otherwise. *)
Definition category_pool (s : db) (c : Z) : list Question :=
  if Z.eqb c 0 then order_by_id s
  else match filter_category s (PInt c) with Ok sel => sel | Raise _ => [] end.

(** ** Lemmas *)

(** On the client's requests the handler runs the selector on the pool. *)
Lemma generator_quiz_request (s : db) (c : Z) (prev : list Z) (ds : list nat) :
  Routes.question_generator s (quiz_request c prev) ds =
  (o <- quiz_select (category_pool s c) (map PInt prev) ds ;; Ok (Routes.quiz_response o)).
Proof.
  unfold Routes.question_generator, category_pool. simpl.
  destruct (Z.eqb c 0); simpl; (destruct ds as [|r ds]; [reflexivity|]); simpl;
    (destruct (choose_random_question _ r); simpl; [|reflexivity]);
    destruct (quiz_loop _ _ _ _); reflexivity.
Qed.

Lemma served_id_response (o : quiz_outcome) (r : response) :
  Routes.quiz_response o = Some r ->
  served_id r = match o with Found q => Some (q_id q) | _ => None end.
Proof. destruct o; simpl; intros H; inv H; reflexivity. Qed.

Lemma category_pool_nodup (s : db) (c : Z) : db_wf s -> NoDup (ids (category_pool s c)).
Proof.
  intros [Hnd _]. unfold category_pool. destruct (Z.eqb c 0); simpl; [|now apply NoDup_ids_filter].
  eapply NoDup_ids_perm; [apply QuestionSort.Permuted_sort|exact Hnd].
Qed.

Lemma category_pool_In (s : db) (c : Z) (q : Question) :
  In q (category_pool s c) -> In q (questions s) /\ (c = 0%Z \/ q_category q = Some c).
Proof.
  unfold category_pool. destruct (Z.eqb_spec c 0) as [->|_]; intros Hq.
  - split; [|now left]. eapply Permutation_in; [|exact Hq].
    apply Permutation_sym, QuestionSort.Permuted_sort.
  - simpl in Hq. destruct (filter_category_In s c _ q eq_refl Hq) as [Hin Hc]. auto.
Qed.

(** One request of a session: what it can answer. *)
Lemma session_step (s : db) (c : Z) (prev : list Z) (ds : list nat) (r : response) :
  Routes.question_generator s (quiz_request c prev) ds = Ok (Some r) ->
  match served_id r with
  | Some i => exists q, i = q_id q /\ In q (category_pool s c) /\ ~ In i prev
  | None => True
  end.
Proof.
  intros H. rewrite generator_quiz_request in H.
  destruct (quiz_select _ _ ds) as [o|] eqn:Hq; [|discriminate]. simpl in H. inv H.
  rewrite (served_id_response o r H1). destruct o as [q| |]; [|exact I|exact I].
  apply quiz_select_found_unserved in Hq as [Hin Hs].
  exists q. split; [reflexivity|]. split; [exact Hin|].
  intros Hp. apply (proj2 (served_PInt prev q)) in Hp. congruence.
Qed.

(** Whatever the draws, the ids served stay distinct ids of the pool. *)
Lemma session_safe (s : db) (c : Z) (prev : list Z) (dss : list (list nat)) :
  NoDup prev -> incl prev (ids (category_pool s c)) ->
  NoDup (fst (quiz_session s c prev dss)) /\
  incl (fst (quiz_session s c prev dss)) (ids (category_pool s c)).
Proof.
  revert prev. induction dss as [|ds dss IH]; intros prev Hnd Hincl; simpl; [auto|].
  destruct (Routes.question_generator s (quiz_request c prev) ds) as [[r|]|e] eqn:Hg; simpl; auto.
  pose proof (session_step s c prev ds r Hg) as Hstep.
  destruct (served_id r) as [i|]; simpl; [|auto].
  destruct Hstep as (q & -> & Hin & Hnin). apply IH.
  - apply NoDup_app; [exact Hnd|constructor; [intros []|constructor]|].
    intros x Hx [<-|[]]. contradiction.
  - intros x Hx. apply in_app_or in Hx as [Hx|[<-|[]]]; [now apply Hincl|now apply In_ids].
Qed.

Section Complete.

Variable s : db.
Variable c : Z.
Hypothesis s_wf : db_wf s.
Hypothesis pool_nonempty : category_pool s c <> [].

(** Once every question was served, the next request, given two draws,
    answers "quiz complete". *)
Lemma session_last_request (prev : list Z) :
  NoDup prev -> incl prev (ids (category_pool s c)) ->
  length prev = length (ids (category_pool s c)) ->
  quiz_session s c prev [[0; 0]] = (prev, true).
Proof.
  intros Hnd Hincl Hlen. simpl. rewrite generator_quiz_request.
  assert (Hcov : incl (ids (category_pool s c)) prev)
    by (apply NoDup_length_incl; [exact Hnd|lia|exact Hincl]).
  rewrite quiz_select_covered_eq; [reflexivity|exact pool_nonempty| |].
  - rewrite length_map, Hlen. apply length_map.
  - intros q Hq. apply served_PInt, Hcov, In_ids, Hq.
Qed.

(** While some question was not served, some draw makes the next request
    serve one. *)
Lemma session_fresh_request (prev : list Z) :
  incl prev (ids (category_pool s c)) ->
  length prev < length (ids (category_pool s c)) ->
  exists i q, In q (category_pool s c) /\ ~ In (q_id q) prev /\
    Routes.question_generator s (quiz_request c prev) [i] =
    Ok (Some (jsonify [success_true; ("question"%string, format q)])).
Proof.
  intros Hincl Hlt.
  destruct (find (fun q => negb (existsb (Z.eqb (q_id q)) prev)) (category_pool s c))
    as [q|] eqn:Hf.
  - apply find_some in Hf as [Hin Hq]. apply negb_true_iff in Hq.
    assert (Hnin : ~ In (q_id q) prev).
    { intros Hp. rewrite <- not_true_iff_false, existsb_exists in Hq.
      apply Hq. exists (q_id q). split; [exact Hp|apply Z.eqb_refl]. }
    apply In_nth_error in Hin as Hi. destruct Hi as (i & Hi).
    exists i, q. split; [exact Hin|]. split; [exact Hnin|].
    rewrite generator_quiz_request. unfold quiz_select.
    rewrite (choose_onto _ _ _ Hi). cbn [bind]. rewrite quiz_loop_unserved; [reflexivity|].
    apply not_true_iff_false. intros Hs. now apply served_PInt in Hs.
  - exfalso. assert (Hcov : incl (ids (category_pool s c)) prev).
    { intros z Hz. unfold ids in Hz. apply in_map_iff in Hz as (q & <- & Hq).
      pose proof (find_none _ _ Hf q Hq) as Hn. apply negb_false_iff, existsb_exists in Hn.
      destruct Hn as (z & Hz & Heq). apply Z.eqb_eq in Heq. now subst. }
    apply NoDup_incl_length in Hcov; [lia|]. now apply category_pool_nodup.
Qed.

Lemma session_complete_from (n : nat) (prev : list Z) :
  length (ids (category_pool s c)) - length prev = n ->
  NoDup prev -> incl prev (ids (category_pool s c)) ->
  exists dss, snd (quiz_session s c prev dss) = true /\
              Permutation (fst (quiz_session s c prev dss)) (ids (category_pool s c)).
Proof.
  revert prev. induction n as [|n IH]; intros prev Hn Hnd Hincl;
    pose proof (NoDup_incl_length Hnd Hincl) as Hle.
  - assert (Hlen : length prev = length (ids (category_pool s c))) by lia.
    exists [[0; 0]]. rewrite session_last_request by assumption. split; [reflexivity|].
    apply NoDup_Permutation; [exact Hnd|now apply category_pool_nodup|].
    intros z. split; [apply Hincl|].
    apply (@NoDup_length_incl _ prev (ids (category_pool s c)) Hnd ltac:(lia) Hincl).
  - destruct (session_fresh_request prev Hincl ltac:(lia)) as (i & q & Hin & Hnin & Hg).
    destruct (IH (prev ++ [q_id q])) as (dss & Hdone & Hperm).
    + rewrite length_app. cbn [length]. lia.
    + apply NoDup_app; [exact Hnd|repeat constructor; intros []|].
      intros x Hx [<-|[]]. contradiction.
    + intros x Hx. apply in_app_or in Hx as [Hx|[<-|[]]]; [now apply Hincl|now apply In_ids].
    + exists ([i] :: dss). simpl. rewrite Hg. simpl. split; assumption.
Qed.

End Complete.

(** ** A delete during a session *)

Lemma delete_question_found (s : db) (req : request) (q : Question) :
  db_wf s -> In q (questions s) -> fst (Routes.delete_question s req (q_id q)) = delete s q.
Proof. intros Hwf Hq. unfold Routes.delete_question. now rewrite find_by_id_wf. Qed.

Lemma delete_pool_fresh (s : db) (c : Z) (q r : Question) :
  In r (category_pool (delete s q) c) -> q_id r <> q_id q.
Proof.
  intros Hr. apply category_pool_In in Hr as [Hr _]. simpl in Hr.
  apply filter_In in Hr as [_ Hne]. now apply negb_true_iff, Z.eqb_neq in Hne.
Qed.

(** A previous list that covers the pool and holds one more distinct id
    is longer than the pool. *)
Lemma covered_plus_longer (pool : list Question) (prev : list Z) (z : Z) :
  NoDup (ids pool) -> NoDup prev -> In z prev -> ~ In z (ids pool) ->
  (forall r, In r pool -> In (q_id r) prev) -> length (ids pool) < length prev.
Proof.
  intros Hnd Hprev Hz Hnz Hcov.
  apply (NoDup_incl_length (l := z :: ids pool)); [now constructor|].
  intros x [<-|Hx]; [exact Hz|]. unfold ids in Hx. apply in_map_iff in Hx as (r & <- & Hr).
  now apply Hcov.
Qed.

(** ** Properties *)

(** C9: A quiz session on a well-formed store, for a category id [c] or
    the "all" sentinel 0, serves each question at most once and only
    questions of category [c] (any question for 0), whatever the generator
    draws; and when the pool has questions, some draws make the session
    serve every one of them and then answer "quiz complete". *)
Theorem quiz_session_serves_pool (s : db) (c : Z) :
  db_wf s ->
  (forall dss, NoDup (fst (quiz_session s c [] dss)) /\
     forall i, In i (fst (quiz_session s c [] dss)) ->
       exists q, q_id q = i /\ In q (questions s) /\ (c = 0%Z \/ q_category q = Some c)) /\
  (category_pool s c <> [] ->
   exists dss, snd (quiz_session s c [] dss) = true /\
     Permutation (fst (quiz_session s c [] dss)) (ids (category_pool s c))).
Proof.
  intros Hwf. split.
  - intros dss. destruct (session_safe s c [] dss (NoDup_nil _) (incl_nil_l _)) as [Hnd Hincl].
    split; [exact Hnd|]. intros i Hi. apply Hincl in Hi.
    unfold ids in Hi. apply in_map_iff in Hi as (q & <- & Hq).
    exists q. split; [reflexivity|]. now apply category_pool_In.
  - intros Hne. apply (session_complete_from s c Hwf Hne _ [] eq_refl (NoDup_nil _) (incl_nil_l _)).
Qed.

(** C10: A delete racing with a quiz session can make the session's last
    request never answer: once the client was served a question that is
    then deleted, and has been served every question left in the pool,
    its previous list covers the pool but is longer than it, so the loop
    draws served questions forever: no finite sequence of draws makes the
    request answer. *)
Theorem session_delete_spins (s : db) (c : Z) (req : request) (q : Question) (prev : list Z) :
  db_wf s -> In q (category_pool s c) -> NoDup prev -> In (q_id q) prev ->
  category_pool (fst (Routes.delete_question s req (q_id q))) c <> [] ->
  (forall r, In r (category_pool (fst (Routes.delete_question s req (q_id q))) c) ->
             In (q_id r) prev) ->
  forall ds, Routes.question_generator (fst (Routes.delete_question s req (q_id q)))
               (quiz_request c prev) ds = Ok None.
Proof.
  intros Hwf Hq Hnd Hin. pose proof (category_pool_In s c q Hq) as [Hqs _].
  rewrite delete_question_found by assumption. intros Hne Hcov ds.
  assert (Hlen : length (map PInt prev) <> length (category_pool (delete s q) c)).
  { rewrite length_map, <- (length_map q_id). fold (ids (category_pool (delete s q) c)).
    enough (length (ids (category_pool (delete s q) c)) < length prev) by lia.
    apply (covered_plus_longer _ _ (q_id q)); auto.
    - apply category_pool_nodup, delete_wf, Hwf.
    - intros Hz. unfold ids in Hz. apply in_map_iff in Hz as (r & Hr & Hrp).
      now apply (delete_pool_fresh s c q r). }
  rewrite generator_quiz_request. destruct ds as [|r0 ds]; [reflexivity|].
  unfold quiz_select. destruct (choose_nonempty _ r0 Hne) as (q0 & Hq0). rewrite Hq0. cbn [bind].
  rewrite quiz_loop_covered; [reflexivity|exact Hne|exact Hlen| |now apply (choose_In _ r0)].
  intros r Hr. now apply served_PInt, Hcov.
Qed.

(** ** Witnesses *)

Lemma quiz_session_serves_pool_witness :
  (forall dss, NoDup (fst (quiz_session quiz_db 3 [] dss)) /\
     forall i, In i (fst (quiz_session quiz_db 3 [] dss)) ->
       exists q, q_id q = i /\ In q (questions quiz_db) /\ (3 = 0 \/ q_category q = Some 3)%Z) /\
  (category_pool quiz_db 3 <> [] ->
   exists dss, snd (quiz_session quiz_db 3 [] dss) = true /\
     Permutation (fst (quiz_session quiz_db 3 [] dss)) (ids (category_pool quiz_db 3))).
Proof. apply quiz_session_serves_pool. split; simpl; repeat constructor; simpl; lia. Defined.

(** Question 12 is deleted after the client was served 12, 13 and 14:
    the next request never answers. *)
Lemma session_delete_spins_witness :
  Routes.question_generator (fst (Routes.delete_question quiz_db (mkRequest None PNone) 12))
    (quiz_request 3 [12; 13; 14]%Z) [1; 0; 1; 0; 1] = Ok None.
Proof.
  apply (session_delete_spins quiz_db 3 (mkRequest None PNone) q12 [12; 13; 14]%Z).
  - split; simpl; repeat constructor; simpl; lia.
  - simpl. auto.
  - repeat constructor; simpl; lia.
  - simpl. auto.
  - discriminate.
  - intros r Hr. simpl in Hr. destruct Hr as [<-|[<-|[]]]; simpl; auto.
Defined.
