(* ===== verification/TestSuite.v ===== *)
(** * The test suite

    src/backend/test_flaskr.py is a [unittest.TestCase] whose methods each
    send one request through Flask's test client and check the JSON
    answer.  This file models it the way unittest runs it:
    - the class body is a dict: a method defined twice under one name
      keeps its first position and its last body ([define_test]); the file
      defines [test_405_if_question_creation_not_allowed] twice;
    - the loader collects the [test*] methods and sorts them by name
      ([TestNameSort], code-point order on ASCII names);
    - [setUp] builds the app and binds it to the same database, [tearDown]
      does nothing: the tests run one after the other against one store,
      and what a test writes stays ([run_suite]).
    A test's body is its request ([test_method], [test_path], [test_req])
    and its assertions ([test_check], on the store after the request and
    the answer).  An assertion on a missing key raises [KeyError]: the test
    fails.  The quiz test depends on the generator's draws; when they run
    out before the loop answers, the test is [Pending].

    The theorems show that on every store with the contents the tests
    assume (question 47, a question about Cassius Clay, categories, ...)
    every test passes (the quiz test once the loop answers); that the
    suite cannot be run twice in a row on the same database, since the
    second [test_delete_question] finds question 47 gone; and that no test
    reaches the 405 handler, the test written for it being shadowed. *)

From Stdlib Require Import String Ascii.
From Stdlib Require Import List Arith Lia ZArith Bool Sorted Permutation Mergesort Orders.
From S2P Require Import Prelude Py Store Search Pagination Quiz Handlers App Cors Server Scenarios Session.
Import ListNotations.
Open Scope trivia_scope.

(** ** Assertions on the decoded answer *)

(** [a == b] on the scalars the tests compare ([True == 1]). *)
Definition py_scalar_eq (a b : pyval) : bool :=
  match a, b with
  | PNone, PNone => true
  | (PInt _ | PBool _), (PInt _ | PBool _) =>
      Z.eqb (match a with PInt z => z | PBool x => if x then 1 else 0 | _ => 0 end)
            (match b with PInt z => z | PBool x => if x then 1 else 0 | _ => 0 end)
  | PStr x, PStr y => String.eqb x y
  | _, _ => false
  end.

(** [assertEqual(v, w)], [assertNotEqual(v, w)], [assertTrue(v)] and
    [assertTrue(len(v))] on a value read from the answer. *)
Definition assert_eq (v : result pyval) (w : pyval) : bool :=
  match v with Ok x => py_scalar_eq x w | Raise _ => false end.

Definition assert_ne (v : result pyval) (w : pyval) : bool :=
  match v with Ok x => negb (py_scalar_eq x w) | Raise _ => false end.

Definition assert_true (v : result pyval) : bool :=
  match v with Ok x => py_truthy x | Raise _ => false end.

Definition assert_len (v : result pyval) : bool :=
  match v with
  | Ok x => match py_len x with Ok n => negb (Nat.eqb n 0) | Raise _ => false end
  | Raise _ => false
  end.

(** [data[k]] of [data = json.loads(res.data)]. *)
Definition field (r : response) (k : string) : result pyval := py_subscript (body r) k.

(** The three assertions every error test makes. *)
Definition error_check (code : Z) (message : string) (r : response) : bool :=
  Z.eqb (status r) code && assert_eq (field r "success") (PBool false) &&
  assert_eq (field r "message") (PStr message).

(** ** The test methods *)

Record test_case := mkTest {
  test_name : string;
  test_method : method;
  test_path : list string;
  test_req : request;
  test_check : db -> response -> bool
}.

Definition get (page : option Z) : request := mkRequest page PNone.

Definition new_question : list (string * pyval) :=
  [("question"%string, PStr "Why is the sky blue?");
   ("answer"%string, PStr "Because of the way the light refracts");
   ("category"%string, PInt 1); ("difficulty"%string, PInt 4)].

(** The row [question.insert()] writes for [new_question]. *)
Definition created_row (i : Z) : Question :=
  mkQuestion i (Some "Why is the sky blue?"%string)
    (Some "Because of the way the light refracts"%string) (Some 1%Z) (Some 4%Z).

Definition test_get_paginated_questions : test_case :=
  mkTest "test_get_paginated_questions" GET ["questions"%string] (get None)
    (fun _ r => Z.eqb (status r) 200 && assert_eq (field r "success") (PBool true) &&
                assert_true (field r "total_questions") && assert_len (field r "questions")).

Definition test_404_sent_requesting_beyond_valid_page : test_case :=
  mkTest "test_404_sent_requesting_beyond_valid_page" GET ["questions"%string] (get (Some 1000%Z))
    (fun _ r => error_check 404 "resource not found" r).

Definition test_get_categories : test_case :=
  mkTest "test_get_categories" GET ["categories"%string] (get None)
    (fun _ r => Z.eqb (status r) 200 && assert_eq (field r "success") (PBool true) &&
                assert_true (field r "total_categories") && assert_len (field r "categories")).

Definition test_404_sent_requesting_beyond_valid_id : test_case :=
  mkTest "test_404_sent_requesting_beyond_valid_id" GET ["categories"; "1000"]%string (get None)
    (fun _ r => error_check 404 "resource not found" r).

(** The test queries the store after the request:
    [Question.query.filter(Question.id==47).one_or_none()]. *)
Definition test_delete_question : test_case :=
  mkTest "test_delete_question" DELETE ["questions"; "47"]%string (get None)
    (fun s r => Z.eqb (status r) 200 && assert_eq (field r "success") (PBool true) &&
                assert_eq (field r "deleted") (PInt 47) && assert_true (field r "total_questions") &&
                match find_by_id s 47 with Ok None => true | _ => false end).

Definition test_422_if_question_does_not_exist : test_case :=
  mkTest "test_422_if_question_does_not_exist" DELETE ["questions"; "1000"]%string (get None)
    (fun _ r => error_check 422 "unprocessable entity" r).

Definition test_create_new_question : test_case :=
  mkTest "test_create_new_question" POST ["questions"%string] (body_request new_question)
    (fun _ r => Z.eqb (status r) 200 && assert_eq (field r "success") (PBool true) &&
                assert_true (field r "created") && assert_len (field r "questions")).

(** The first [test_405_if_question_creation_not_allowed]. *)
Definition test_405_question_creation : test_case :=
  mkTest "test_405_if_question_creation_not_allowed" POST ["questions"; "1000"]%string
    (body_request new_question)
    (fun _ r => error_check 405 "method not allowed" r).

Definition test_get_question_search_with_results : test_case :=
  mkTest "test_get_question_search_with_results" POST ["questions"; "search"]%string
    (body_request [("searchTerm"%string, PStr "cassius clay")])
    (fun _ r => Z.eqb (status r) 200 && assert_eq (field r "success") (PBool true) &&
                assert_true (field r "total_questions") &&
                assert_eq (field r "current_category") PNone).

Definition test_get_question_search_without_results : test_case :=
  mkTest "test_get_question_search_without_results" POST ["questions"; "search"]%string
    (body_request [("searchTerm"%string, PStr "hippy hitman")])
    (fun _ r => Z.eqb (status r) 200 && assert_eq (field r "success") (PBool true) &&
                assert_eq (field r "total_questions") (PInt 0) &&
                assert_eq (field r "current_category") PNone).

Definition test_get_questions_based_on_categories : test_case :=
  mkTest "test_get_questions_based_on_categories" GET ["categories"; "1"; "questions"]%string
    (get None)
    (fun _ r => Z.eqb (status r) 200 && assert_eq (field r "success") (PBool true) &&
                assert_true (field r "questions") && assert_true (field r "total_questions") &&
                assert_eq (field r "current_category") (PInt 1)).

Definition test_get_questions_for_invalid_category : test_case :=
  mkTest "test_get_questions_for_invalid_category" GET ["categories"; "8"; "questions"]%string
    (mkRequest None (PDict [("category"%string, PInt 8)]))
    (fun _ r => Z.eqb (status r) 404 && assert_eq (field r "success") (PBool false)).

Definition mock_data : list (string * pyval) :=
  [("previous_questions"%string, PList [PInt 12; PInt 13]);
   ("quiz_category"%string, PDict [("type"%string, PStr "Geography"); ("id"%string, PInt 3)])].

(** [data['question'][k]]. *)
Definition question_field (r : response) (k : string) : result pyval :=
  q <- field r "question" ;; py_subscript q k.

Definition test_select_category_to_generate_ : test_case :=
  mkTest "test_select_category_to_generate_" POST ["quizzes"%string] (body_request mock_data)
    (fun _ r => Z.eqb (status r) 200 && assert_eq (field r "success") (PBool true) &&
                assert_true (field r "question") &&
                assert_ne (question_field r "id") (PInt 12) &&
                assert_ne (question_field r "id") (PInt 13) &&
                assert_eq (question_field r "category") (PInt 3)).

(** The second [test_405_if_question_creation_not_allowed]: the quiz with
    an empty body. *)
Definition test_405_quiz_empty_body : test_case :=
  mkTest "test_405_if_question_creation_not_allowed" POST ["quizzes"%string] (body_request [])
    (fun _ r => error_check 400 "bad request" r).

(** The methods in the order the class body defines them. *)
Definition class_body : list test_case :=
  [test_get_paginated_questions; test_404_sent_requesting_beyond_valid_page;
   test_get_categories; test_404_sent_requesting_beyond_valid_id; test_delete_question;
   test_422_if_question_does_not_exist; test_create_new_question; test_405_question_creation;
   test_get_question_search_with_results; test_get_question_search_without_results;
   test_get_questions_based_on_categories; test_get_questions_for_invalid_category;
   test_select_category_to_generate_; test_405_quiz_empty_body].

(** ** The class dict and the loader *)

(** A [def] in the class body: a name already bound keeps its place and
    takes the new body. *)
Fixpoint define_test (t : test_case) (d : list test_case) : list test_case :=
  match d with
  | [] => [t]
  | t' :: d' => if String.eqb (test_name t) (test_name t') then t :: d'
                else t' :: define_test t d'
  end.

Definition class_dict : list test_case := fold_left (fun d t => define_test t d) class_body [].

Lemma string_leb_total (x y : string) : String.leb x y = true \/ String.leb y x = true.
Proof.
  unfold String.leb. rewrite (String.compare_antisym y).
  destruct (String.compare x y); auto.
Qed.

Module TestNameOrder <: TotalLeBool.
Definition t := test_case.
Definition leb (a b : test_case) : bool := String.leb (test_name a) (test_name b).
Definition leb_total : forall a b, leb a b = true \/ leb b a = true :=
  fun a b => string_leb_total (test_name a) (test_name b).
End TestNameOrder.

Module TestNameSort := Sort TestNameOrder.

(** [unittest.TestLoader().loadTestsFromTestCase]: the [test*] methods of
    the class dict, sorted by name. *)
Definition suite : list test_case :=
  TestNameSort.sort (filter (fun t => String.prefix "test" (test_name t)) class_dict).

(** ** Running the suite *)

Inductive outcome : Type := Pass | Fail | Pending.

(** One test: its request through the test client, then its assertions. *)
Definition run_test (s : db) (draws : list nat) (t : test_case) : db * outcome :=
  match serve s (test_method t) (test_path t) None (test_req t) draws with
  | (s', Some r) => (s', if test_check t s' (resp r) then Pass else Fail)
  | (s', None) => (s', Pending)
  end.

Fixpoint run_tests (s : db) (draws : list nat) (ts : list test_case) : db * list (string * outcome) :=
  match ts with
  | [] => (s, [])
  | t :: ts' =>
      let (s1, o) := run_test s draws t in
      let (s2, os) := run_tests s1 draws ts' in
      (s2, (test_name t, o) :: os)
  end.

Definition run_suite (s : db) (draws : list nat) : db * list (string * outcome) :=
  run_tests s draws suite.

(** ** The suite unittest runs *)

Lemma suite_eq :
  suite = [test_404_sent_requesting_beyond_valid_id; test_404_sent_requesting_beyond_valid_page;
           test_405_quiz_empty_body; test_422_if_question_does_not_exist;
           test_create_new_question; test_delete_question; test_get_categories;
           test_get_paginated_questions; test_get_question_search_with_results;
           test_get_question_search_without_results; test_get_questions_based_on_categories;
           test_get_questions_for_invalid_category; test_select_category_to_generate_].
Proof. reflexivity. Qed.

(** A test changes the store the way one request can. *)
Lemma run_test_effect (s : db) (draws : list nat) (t : test_case) :
  store_effect s (fst (run_test s draws t)).
Proof.
  unfold run_test, serve.
  destruct (dispatch s _ _ _ draws) as [s' r] eqn:Hd.
  apply dispatch_effect in Hd. destruct r; exact Hd.
Qed.

(** ** The tests one by one *)

Lemma test_404_id_run (s : db) (draws : list nat) :
  run_test s draws test_404_sent_requesting_beyond_valid_id = (s, Pass).
Proof. reflexivity. Qed.

Lemma test_400_quiz_run (s : db) (draws : list nat) :
  run_test s draws test_405_quiz_empty_body = (s, Pass).
Proof. reflexivity. Qed.

Lemma resp_finalize (origin : option string) (path : string) (r : response) :
  resp (finalize origin path r) = r.
Proof. unfold finalize, cors_after_request. simpl. now destruct (cors_resource_match path). Qed.

(** A test whose path reaches a view allowing its method. *)
Lemma run_test_routed (s : db) (draws : list nat) (t : test_case) (ep : endpoint) :
  match_path (test_path t) = Some ep ->
  existsb (method_eqb (test_method t)) (allowed_methods ep) = true ->
  run_test s draws t =
  match view s ep (test_method t) (test_req t) draws with
  | (s', Some r) => (s', if test_check t s' r then Pass else Fail)
  | (s', None) => (s', Pending)
  end.
Proof.
  intros Hp Hm. unfold run_test, serve, dispatch. rewrite Hp, Hm.
  destruct (view _ _ _ _ _) as [s' [r|]]; simpl; [now rewrite resp_finalize|reflexivity].
Qed.

(** Route a test to its view and expose its request and assertions. *)
Ltac route t ep :=
  rewrite (run_test_routed _ _ _ ep) by reflexivity; unfold t;
  cbn [view test_method test_req test_check get body_request page json_body].

Lemma test_404_page_run (s : db) (draws : list nat) :
  (Z.of_nat (length (questions s)) <= 9990)%Z ->
  run_test s draws test_404_sent_requesting_beyond_valid_page = (s, Pass).
Proof.
  intros Hlen. route test_404_sent_requesting_beyond_valid_page EpQuestions.
  unfold Routes.all_questions. cbn [get page].
  rewrite (proj2 (paginate_empty_iff 1000 (order_by_id s) ltac:(lia))).
  - reflexivity.
  - rewrite order_by_id_length. lia.
Qed.

Lemma test_422_run (s : db) (draws : list nat) :
  ~ In 1000%Z (ids (questions s)) ->
  run_test s draws test_422_if_question_does_not_exist = (s, Pass).
Proof.
  intros Hni. route test_422_if_question_does_not_exist (EpQuestion 1000).
  unfold Routes.delete_question. rewrite find_by_id_absent by exact Hni. reflexivity.
Qed.

Lemma first_page_nonempty (sel : list Question) :
  sel <> [] -> Nat.eqb (length (paginate_questions None sel)) 0 = false.
Proof.
  intros Hne. apply Nat.eqb_neq. intros H. apply length_zero_iff_nil in H.
  rewrite paginate_default in H. apply paginate_empty_iff in H; [|lia].
  destruct sel; [congruence|simpl in H; lia].
Qed.

Lemma order_by_id_nonempty (s : db) (q : Question) : In q (questions s) -> order_by_id s <> [].
Proof.
  intros Hq He. pose proof (order_by_id_length s) as Hl. rewrite He in Hl.
  destruct (questions s); [destruct Hq|discriminate].
Qed.

Lemma test_create_run (s : db) (draws : list nat) :
  (0 < next_id s)%Z ->
  run_test s draws test_create_new_question =
  (mkDB (questions s ++ [created_row (next_id s)]) (categories s) (next_id s + 1), Pass).
Proof.
  intros Hpos. route test_create_new_question EpQuestions.
  unfold Routes.create_question. simpl json_body. simpl py_get.
  cbn [insert text_column int_column bind page body_request].
  fold (created_row (next_id s)).
  set (s1 := mkDB (questions s ++ [created_row (next_id s)]) (categories s) (next_id s + 1)%Z).
  cbn -[paginate_questions order_by_id]. rewrite first_page_nonempty.
  - replace (next_id s =? 0)%Z with false by lia. reflexivity.
  - apply (order_by_id_nonempty s1 (created_row (next_id s))). simpl. apply in_or_app. right. now left.
Qed.

Lemma test_delete_run (u : db) (draws : list nat) (q r : Question) :
  db_wf u -> In q (questions u) -> q_id q = 47%Z -> In r (questions u) -> q_id r <> 47%Z ->
  run_test u draws test_delete_question = (delete u q, Pass).
Proof.
  intros Hwf Hq Hid Hr Hne. route test_delete_question (EpQuestion 47).
  unfold Routes.delete_question. rewrite <- Hid, (find_by_id_wf u q Hwf Hq).
  cbn -[order_by_id find_by_id delete paginate_questions].
  rewrite find_by_id_absent by apply delete_ids.
  assert (Hlen : (Z.of_nat (length (order_by_id (delete u q))) =? 0)%Z = false).
  { apply Z.eqb_neq. intros H0.
    apply (order_by_id_nonempty (delete u q) r); [apply delete_keeps; congruence|].
    apply length_zero_iff_nil. lia. }
  rewrite Hid, Hlen. reflexivity.
Qed.

Lemma dict_set_nonempty (k : string) (v : pyval) (d : list (string * pyval)) : dict_set k v d <> [].
Proof. destruct d as [|[k' v'] d]; simpl; [discriminate|destruct (String.eqb k k'); discriminate]. Qed.

Lemma fold_dict_set_nonempty (cats : list Category) (d : list (string * pyval)) :
  d <> [] ->
  fold_left (fun d c => dict_set (py_str_int (c_id c)) (text_val (c_type c)) d) cats d <> [].
Proof.
  revert d. induction cats as [|c cats IH]; intros d Hd; [exact Hd|].
  simpl. apply IH, dict_set_nonempty.
Qed.

Lemma formatted_categories_nonempty (cats : list Category) :
  cats <> [] -> formatted_categories cats <> [].
Proof.
  unfold formatted_categories. destruct cats as [|c cats]; [congruence|]. intros _.
  simpl. apply fold_dict_set_nonempty. discriminate.
Qed.

Lemma test_categories_run (u : db) (draws : list nat) :
  categories u <> [] -> run_test u draws test_get_categories = (u, Pass).
Proof.
  intros Hne. route test_get_categories EpCategories. unfold Routes.categories.
  destruct (categories u) as [|c cats] eqn:Hc; [congruence|].
  pose proof (formatted_categories_nonempty (c :: cats) ltac:(discriminate)) as Hf.
  destruct (formatted_categories (c :: cats)) as [|p fc] eqn:Hfc; [congruence|].
  reflexivity.
Qed.

Lemma order_by_id_count (u : db) (q : Question) :
  In q (questions u) -> (Z.of_nat (length (order_by_id u)) =? 0)%Z = false.
Proof.
  intros Hq. apply Z.eqb_neq. intros H0. apply (order_by_id_nonempty u q Hq).
  apply length_zero_iff_nil. lia.
Qed.

Lemma test_paginated_run (u : db) (draws : list nat) (q : Question) :
  In q (questions u) -> run_test u draws test_get_paginated_questions = (u, Pass).
Proof.
  intros Hq. route test_get_paginated_questions EpQuestions. unfold Routes.all_questions.
  cbn [get page]. rewrite first_page_nonempty by exact (order_by_id_nonempty u q Hq).
  cbn -[paginate_questions order_by_id]. rewrite first_page_nonempty by exact (order_by_id_nonempty u q Hq).
  rewrite (order_by_id_count u q Hq). reflexivity.
Qed.

(** The rows a search term selects, by the [ILIKE] test on their text. *)
Definition term_matches (v : pyval) (q : Question) : bool :=
  match q_question q with
  | Some t => like_match (search_pattern v) (list_ascii_of_string t)
  | None => false
  end.

Lemma test_search_with_run (u : db) (draws : list nat) (q : Question) :
  In q (questions u) -> term_matches (PStr "cassius clay") q = true ->
  run_test u draws test_get_question_search_with_results = (u, Pass).
Proof.
  intros Hq Hm. route test_get_question_search_with_results EpSearch. unfold Routes.question_search.
  cbn -[ilike_filter].
  assert (Hin : In q (ilike_filter u (PStr "cassius clay"))) by (apply filter_In; auto).
  destruct (ilike_filter u (PStr "cassius clay")) as [|x l]; [destruct Hin|]. reflexivity.
Qed.

Lemma test_search_without_run (u : db) (draws : list nat) :
  (forall q, In q (questions u) -> term_matches (PStr "hippy hitman") q = false) ->
  run_test u draws test_get_question_search_without_results = (u, Pass).
Proof.
  intros Hno. route test_get_question_search_without_results EpSearch.
  unfold Routes.question_search. cbn -[ilike_filter].
  replace (ilike_filter u (PStr "hippy hitman")) with (@nil Question); [reflexivity|].
  symmetry. apply (proj2 (filter_nil_iff (term_matches (PStr "hippy hitman")) _) Hno).
Qed.

Lemma test_category_run (u : db) (draws : list nat) (q : Question) :
  In q (questions u) -> q_category q = Some 1%Z ->
  run_test u draws test_get_questions_based_on_categories = (u, Pass).
Proof.
  intros Hq Hc. route test_get_questions_based_on_categories (EpCategoryQuestions 1).
  unfold Routes.question_sieve. cbn [filter_category bind get page].
  set (sel := filter _ (questions u)).
  assert (Hin : In q sel) by (apply filter_In; rewrite Hc; auto).
  assert (Hne : sel <> []) by (intros He; rewrite He in Hin; destruct Hin).
  rewrite first_page_nonempty by exact Hne. cbn -[paginate_questions sel].
  rewrite first_page_nonempty by exact Hne.
  destruct sel as [|x l]; [congruence|]. reflexivity.
Qed.

Lemma test_invalid_category_run (u : db) (draws : list nat) :
  (forall q, In q (questions u) -> q_category q <> Some 8%Z) ->
  run_test u draws test_get_questions_for_invalid_category = (u, Pass).
Proof.
  intros Hno. route test_get_questions_for_invalid_category (EpCategoryQuestions 8).
  unfold Routes.question_sieve. cbn [filter_category bind].
  replace (filter _ (questions u)) with (@nil Question); [reflexivity|].
  symmetry. apply filter_nil_iff. intros q Hq. specialize (Hno q Hq).
  destruct (q_category q) as [c|]; [|reflexivity]. apply Z.eqb_neq. congruence.
Qed.

(** The test's body reaches the selector on the questions of category 3
    with the previous list [12, 13]. *)
Lemma generator_mock_data (u : db) (draws : list nat) :
  Routes.question_generator u (body_request mock_data) draws =
  (o <- quiz_select (category_pool u 3) (map PInt [12; 13]%Z) draws ;; Ok (Routes.quiz_response o)).
Proof.
  unfold Routes.question_generator, category_pool. simpl.
  destruct draws as [|r ds]; [reflexivity|]. simpl.
  destruct (choose_random_question _ r); simpl; [|reflexivity].
  destruct (quiz_loop _ _ _ _); reflexivity.
Qed.

(** The assertions of the quiz test hold of every question the selector
    serves. *)
Lemma quiz_found_check (u : db) (q : Question) :
  In q (category_pool u 3) -> Quiz.served (map PInt [12; 13]%Z) q = false ->
  test_check test_select_category_to_generate_ u
    (jsonify [success_true; ("question"%string, format q)]) = true.
Proof.
  intros Hin Hs. apply category_pool_In in Hin as [_ [H0|Hc]]; [discriminate|].
  unfold Quiz.served in Hs. cbn -[Z.eqb] in Hs. apply orb_false_iff in Hs as [H12 H13].
  apply orb_false_iff in H13 as [H13 _].
  rewrite Z.eqb_sym in H12, H13. cbn -[Z.eqb]. rewrite Hc, H12, H13. reflexivity.
Qed.

Lemma test_quiz_run (u : db) (draws : list nat) :
  category_pool u 3 <> [] -> length (category_pool u 3) <> 2 ->
  exists o, run_test u draws test_select_category_to_generate_ = (u, o) /\ (o = Pass \/ o = Pending).
Proof.
  intros Hne Hlen. rewrite (run_test_routed _ _ _ EpQuizzes) by reflexivity. cbn [view test_req test_method].
  unfold test_select_category_to_generate_ at 1. cbn [test_req].
  rewrite generator_mock_data.
  destruct (quiz_select_ok (category_pool u 3) (map PInt [12; 13]%Z) draws Hne) as (o & Ho).
  rewrite Ho. cbn [bind].
  destruct o as [q| |] eqn:Hoq.
  - apply quiz_select_found_unserved in Ho as [Hin Hs].
    exists Pass. split; [|now left]. cbn [Routes.quiz_response]. now rewrite quiz_found_check.
  - apply quiz_select_exhausted_len in Ho. simpl in Ho. congruence.
  - exists Pending. split; [reflexivity|now right].
Qed.

Lemma test_quiz_pass (u : db) (i : nat) (q : Question) :
  nth_error (category_pool u 3) i = Some q -> q_id q <> 12%Z -> q_id q <> 13%Z ->
  run_test u [i] test_select_category_to_generate_ = (u, Pass).
Proof.
  intros Hi H12 H13. rewrite (run_test_routed _ _ _ EpQuizzes) by reflexivity.
  cbn [view test_req test_method]. unfold test_select_category_to_generate_ at 1. cbn [test_req].
  rewrite generator_mock_data. unfold quiz_select. rewrite (choose_onto _ _ _ Hi). cbn [bind].
  assert (Hs : Quiz.served (map PInt [12; 13]%Z) q = false).
  { apply not_true_iff_false. intros Hs. apply served_PInt in Hs. simpl in Hs. intuition. }
  rewrite quiz_loop_unserved by exact Hs. cbn [bind Routes.quiz_response].
  rewrite quiz_found_check; [reflexivity| |exact Hs]. eapply nth_error_In; eauto.
Qed.

(** ** The database the tests assume

    The tests are written against a [trivia_test] database filled by a
    dump that is not part of the repository.  What they assume of it: *)
Record fixture (s : db) : Prop := {
  fixture_wf : db_wf s;
  fixture_q47 : exists q, In q (questions s) /\ q_id q = 47%Z;
  fixture_no_1000 : ~ In 1000%Z (ids (questions s));
  fixture_categories : categories s <> [];
  fixture_size : (Z.of_nat (length (questions s)) <= 9990)%Z;
  fixture_cassius : exists q, In q (questions s) /\ q_id q <> 47%Z /\
                              term_matches (PStr "cassius clay") q = true;
  fixture_no_hippy : forall q, In q (questions s) -> term_matches (PStr "hippy hitman") q = false;
  fixture_no_category_8 : forall q, In q (questions s) -> q_category q <> Some 8%Z;
  fixture_geography : category_pool s 3 <> [] /\ length (category_pool s 3) <> 2 /\
                      forall q, In q (category_pool s 3) -> q_id q <> 47%Z
}.

Lemma filter_filter_impl {A : Type} (f g : A -> bool) (l : list A) :
  (forall x, In x l -> f x = true -> g x = true) -> filter f (filter g l) = filter f l.
Proof.
  induction l as [|x l IH]; intros H; simpl; [reflexivity|].
  destruct (f x) eqn:Hf, (g x) eqn:Hg; simpl; rewrite ?Hf, IH by auto with datatypes;
    try reflexivity.
  rewrite (H x (or_introl eq_refl) Hf) in Hg. discriminate.
Qed.

(** ** One run of the suite on the assumed database

    The four tests before [test_create_new_question] leave the store as
    it is; [test_create_new_question] inserts [created_row]; then
    [test_delete_question] deletes question 47; the tests after it read
    the store. *)
Section OneRun.

Variable s : db.
Variable q47 : Question.
Hypothesis s_fixture : fixture s.
Hypothesis q47_in : In q47 (questions s).
Hypothesis q47_id : q_id q47 = 47%Z.

Let s1 : db := mkDB (questions s ++ [created_row (next_id s)]) (categories s) (next_id s + 1)%Z.
Let s2 : db := delete s1 q47.

Lemma fixture_next_id : (47 < next_id s)%Z.
Proof using s_fixture q47_in q47_id.
  destruct (fixture_wf s s_fixture) as [_ Hlt]. rewrite Forall_forall in Hlt.
  rewrite <- q47_id. now apply Hlt.
Qed.

Lemma s2_rows (r : Question) :
  In r (questions s2) -> In r (questions s) \/ r = created_row (next_id s).
Proof using s_fixture q47_in q47_id.
  intros Hr. apply delete_In in Hr. simpl in Hr.
  apply in_app_or in Hr as [Hr|[<-|[]]]; auto.
Qed.

Lemma s_in_s2 (r : Question) : In r (questions s) -> q_id r <> 47%Z -> In r (questions s2).
Proof using s_fixture q47_in q47_id. intros Hr Hne. apply delete_keeps; [simpl; apply in_or_app; now left|congruence]. Qed.

Lemma created_in_s2 : In (created_row (next_id s)) (questions s2).
Proof using s_fixture q47_in q47_id.
  pose proof fixture_next_id. apply delete_keeps; [simpl; apply in_or_app; right; now left|].
  simpl. lia.
Qed.

Lemma pool3_s2 : category_pool s2 3 = category_pool s 3.
Proof using s_fixture q47_in q47_id.
  destruct (fixture_geography s s_fixture) as (_ & _ & H47).
  unfold category_pool in *. simpl in *. rewrite !filter_app, filter_filter_impl.
  - simpl. destruct (negb _); simpl; now rewrite app_nil_r.
  - intros x Hx Hc. rewrite q47_id. apply negb_true_iff, Z.eqb_neq, H47, filter_In. auto.
Qed.

Lemma wf_s1 : db_wf s1.
Proof using s_fixture q47_in q47_id. apply wf_append_fresh; [exact (fixture_wf s s_fixture)|reflexivity]. Qed.

(** The outcomes of the suite when the quiz test ends with [o]. *)
Lemma run_suite_fixture (draws : list nat) :
  run_suite s draws =
    (s2, map (fun t => (test_name t, if String.eqb (test_name t) "test_select_category_to_generate_"
                                      then snd (run_test s2 draws test_select_category_to_generate_)
                                      else Pass)) suite).
Proof using s_fixture q47_in q47_id.
  pose proof fixture_next_id as Hnext.
  destruct (fixture_geography s s_fixture) as (Hne3 & Hlen3 & _).
  destruct (fixture_cassius s s_fixture) as (qc & Hqc & Hqc47 & Hqcm).
  destruct (test_quiz_run s2 draws) as (o & Hquiz & Ho); [now rewrite pool3_s2|now rewrite pool3_s2|].
  unfold run_suite. rewrite suite_eq. cbn [run_tests map].
  rewrite test_404_id_run. cbv beta iota zeta.
  rewrite test_404_page_run by exact (fixture_size s s_fixture). cbv beta iota zeta.
  rewrite test_400_quiz_run. cbv beta iota zeta.
  rewrite test_422_run by exact (fixture_no_1000 s s_fixture). cbv beta iota zeta.
  rewrite test_create_run by lia. cbv beta iota zeta. fold s1.
  rewrite (test_delete_run s1 draws q47 (created_row (next_id s))); cbv beta iota zeta;
    [|exact wf_s1|simpl; apply in_or_app; now left|exact q47_id
     |simpl; apply in_or_app; right; now left|simpl; lia].
  fold s2.
  rewrite test_categories_run by exact (fixture_categories s s_fixture). cbv beta iota zeta.
  rewrite (test_paginated_run s2 draws _ created_in_s2). cbv beta iota zeta.
  rewrite (test_search_with_run s2 draws qc (s_in_s2 qc Hqc Hqc47) Hqcm). cbv beta iota zeta.
  rewrite test_search_without_run. cbv beta iota zeta.
  2:{ intros r Hr. destruct (s2_rows r Hr) as [Hrs| ->];
      [exact (fixture_no_hippy s s_fixture r Hrs)|reflexivity]. }
  rewrite (test_category_run s2 draws _ created_in_s2 eq_refl). cbv beta iota zeta.
  rewrite test_invalid_category_run. cbv beta iota zeta.
  2:{ intros r Hr. destruct (s2_rows r Hr) as [Hrs| ->];
      [exact (fixture_no_category_8 s s_fixture r Hrs)|discriminate]. }
  rewrite Hquiz. reflexivity.
Qed.

Lemma after_suite_no_47 : retired 47 s2.
Proof using s_fixture q47_in q47_id.
  pose proof fixture_next_id. split; [rewrite <- q47_id; apply delete_ids|simpl; lia].
Qed.

End OneRun.

(** ** Running the suite again *)

(** Every test of a list runs on some store a property kept by every
    request holds of. *)
Lemma run_tests_In (P : db -> Prop) (u : db) (draws : list nat) (ts : list test_case) (t : test_case) :
  (forall a b, P a -> store_effect a b -> P b) -> P u -> In t ts ->
  exists v, P v /\ In (test_name t, snd (run_test v draws t)) (snd (run_tests u draws ts)).
Proof.
  intros Hkeep. revert u. induction ts as [|t' ts IH]; intros u Hu Ht; [destruct Ht|].
  simpl. pose proof (run_test_effect u draws t') as He.
  destruct (run_test u draws t') as [u1 o] eqn:Hr.
  destruct (run_tests u1 draws ts) as [u2 os] eqn:Hrs. simpl.
  destruct Ht as [<-|Ht].
  - exists u. split; [exact Hu|left]. now rewrite Hr.
  - destruct (IH u1 (Hkeep _ _ Hu He) Ht) as (v & Hv & Hin). rewrite Hrs in Hin.
    exists v. split; [exact Hv|now right].
Qed.

Lemma test_delete_missing_run (v : db) (draws : list nat) :
  ~ In 47%Z (ids (questions v)) -> snd (run_test v draws test_delete_question) = Fail.
Proof.
  intros Hni. route test_delete_question (EpQuestion 47).
  unfold Routes.delete_question. rewrite find_by_id_absent by exact Hni. reflexivity.
Qed.

(** ** A database of the kind the tests assume *)

Definition cassius_row : Question :=
  mkQuestion 9 (Some "What boxer's original name is Cassius Clay?"%string)
    (Some "Muhammad Ali"%string) (Some 4%Z) (Some 1%Z).

Definition q47 : Question :=
  mkQuestion 47 (Some "Which planet is the red planet?"%string) (Some "Mars"%string)
    (Some 1%Z) (Some 1%Z).

Definition test_db : db := mkDB [q12; q13; q14; cassius_row; q47] sample_categories 48.

Lemma test_db_fixture : fixture test_db.
Proof.
  constructor.
  - split; simpl; repeat constructor; simpl; lia.
  - exists q47. simpl. tauto.
  - simpl. lia.
  - discriminate.
  - simpl. lia.
  - exists cassius_row. split; [simpl; tauto|]. split; [discriminate|reflexivity].
  - intros q Hq. simpl in Hq. repeat destruct Hq as [<-|Hq]; try reflexivity. destruct Hq.
  - intros q Hq. simpl in Hq. repeat destruct Hq as [<-|Hq]; try discriminate. destruct Hq.
  - split; [discriminate|]. split; [simpl; discriminate|].
    intros q Hq. simpl in Hq. repeat destruct Hq as [<-|Hq]; try discriminate. destruct Hq.
Qed.

(** ** Properties *)

(** C35: On every database with the contents the tests assume, every
    test of the suite passes, the quiz test once the loop has answered
    (with the draws given it may still be drawing); and when category 3
    has a question other than 12 and 13, some draws make every test pass. *)
Theorem suite_passes (s : db) :
  fixture s ->
  (forall draws, Forall (fun p => snd p = Pass \/
                         (fst p = "test_select_category_to_generate_"%string /\ snd p = Pending))
                        (snd (run_suite s draws))) /\
  ((exists q, In q (category_pool s 3) /\ q_id q <> 12%Z /\ q_id q <> 13%Z) ->
   exists draws, Forall (fun p => snd p = Pass) (snd (run_suite s draws))).
Proof.
  intros Hfx. destruct (fixture_q47 s Hfx) as (q & Hin & Hid).
  destruct (fixture_geography s Hfx) as (Hne3 & Hlen3 & _).
  pose proof (pool3_s2 s q Hfx Hin Hid) as Hpool. split.
  - intros draws. rewrite (run_suite_fixture s q Hfx Hin Hid draws). simpl.
    destruct (test_quiz_run (delete (mkDB (questions s ++ [created_row (next_id s)]) (categories s)
                                          (next_id s + 1)) q) draws)
      as (o & Hq & Ho); rewrite ?Hpool; auto. rewrite Hq. simpl.
    repeat (apply Forall_cons; [simpl; destruct Ho as [-> | ->];
                                first [left; reflexivity | right; split; reflexivity]|]).
    apply Forall_nil.
  - intros (q3 & Hq3 & H12 & H13). apply In_nth_error in Hq3 as (i & Hi). exists [i].
    rewrite (run_suite_fixture s q Hfx Hin Hid [i]). simpl.
    rewrite (test_quiz_pass _ i q3) by (rewrite ?Hpool; assumption).
    repeat constructor.
Qed.

(** C36: The suite cannot be run twice on the same database: [tearDown]
    undoes nothing, so after a run question 47 is gone (no later request
    brings an id back below the sequence), and the second run's
    [test_delete_question] gets the 422 answer and fails. *)
Theorem suite_not_repeatable (s : db) (draws draws' : list nat) :
  fixture s ->
  In ("test_delete_question"%string, Fail) (snd (run_suite (fst (run_suite s draws)) draws')).
Proof.
  intros Hfx. destruct (fixture_q47 s Hfx) as (q & Hin & Hid).
  rewrite (run_suite_fixture s q Hfx Hin Hid draws). simpl fst. unfold run_suite.
  destruct (run_tests_In (retired 47) _ draws' suite test_delete_question (retired_effect 47)
              (after_suite_no_47 s q Hfx Hin Hid)) as (v & [Hv _] & Hrun);
    [rewrite suite_eq; simpl; tauto|].
  rewrite test_delete_missing_run in Hrun by exact Hv. exact Hrun.
Qed.

(** The test written for the 405 handler never runs: the class body
    defines [test_405_if_question_creation_not_allowed] twice, the second
    body (the quiz with an empty body) replaces the first, so no test of
    the suite sends [POST questions/1000], and every test's request either
    matches no rule or one that allows its method: no test reaches the
    405 answer. *)
Example suite_skips_405 :
  In (POST, ["questions"; "1000"]%string) (map (fun t => (test_method t, test_path t)) class_body) /\
  ~ In (POST, ["questions"; "1000"]%string) (map (fun t => (test_method t, test_path t)) suite) /\
  (forall t, In t suite ->
   match match_path (test_path t) with
   | Some ep => existsb (method_eqb (test_method t)) (allowed_methods ep) = true
   | None => True
   end).
Proof.
  split; [simpl; tauto|]. rewrite suite_eq. split.
  - simpl. intros H. repeat destruct H as [H|H]; try discriminate. destruct H.
  - intros t Ht. simpl in Ht. repeat destruct Ht as [<-|Ht]; try reflexivity; try exact I.
    destruct Ht.
Qed.

(** ** Witnesses *)

Lemma suite_passes_witness :
  (forall draws, Forall (fun p => snd p = Pass \/
                         (fst p = "test_select_category_to_generate_"%string /\ snd p = Pending))
                        (snd (run_suite test_db draws))) /\
  ((exists q, In q (category_pool test_db 3) /\ q_id q <> 12%Z /\ q_id q <> 13%Z) ->
   exists draws, Forall (fun p => snd p = Pass) (snd (run_suite test_db draws))).
Proof. apply suite_passes, test_db_fixture. Defined.

Lemma suite_not_repeatable_witness :
  In ("test_delete_question"%string, Fail) (snd (run_suite (fst (run_suite test_db [2])) [2])).
Proof. apply suite_not_repeatable, test_db_fixture. Defined.
